(** * weathermary: route planning estimator and voyage leg simulator

    A shallow embedding of the two computational engines of the backend
    ([BACKEND/app.py]: [maritime_route_plan] and its helpers;
    [BACKEND/simu_routes.py]: [simulate_route]) together with the properties
    stated about them.

    Conventions of the embedding.
    - Python floats and ints that take part in float arithmetic are the real
      numbers [R]: rounding of IEEE doubles, NaN and infinities of the inputs
      are outside the model.  The one infinity the code itself creates
      ([float('inf')] for a leg at non-positive speed) is modelled explicitly.
    - Catalogs are Python dicts iterated in insertion order: association lists.
    - A Python exception is a value of [exn]; every endpoint wraps its body in
      [try ... except Exception] and turns an exception into a 500 response.
    - [datetime] values are integers counting microseconds; the range limits of
      [datetime] (years 1..9999) are outside the model. *)

From Stdlib Require Import Reals Lra Lia ZArith String List Bool Ascii Sorted.
Import ListNotations.

(** ** Python runtime: exceptions, responses, numeric primitives *)

Module Py.

Inductive exn : Type :=
| ValueError      (* math domain error, malformed ISO date *)
| OverflowError   (* timedelta(hours=inf) *)
| AttributeError  (* None.replace(...) *)
| TypeError.      (* aware datetime minus naive datetime *)

Inductive outcome (A : Type) : Type :=
| Return (a : A)
| Raise (e : exn).
Arguments Return {A} a.
Arguments Raise {A} e.

Definition bind {A B : Type} (m : outcome A) (k : A -> outcome B) : outcome B :=
  match m with
  | Return a => k a
  | Raise e => Raise e
  end.

(** What a Flask view returns: a JSON body (status 200), an explicit 400 with
    its message, or the 500 of the enclosing [except Exception]. *)
Inductive response (A : Type) : Type :=
| Ok200 (body : A)
| Error400 (msg : string)
| Error500 (e : exn).
Arguments Ok200 {A} body.
Arguments Error400 {A} msg.
Arguments Error500 {A} e.

Definition is_error {A : Type} (r : response A) : bool :=
  match r with
  | Ok200 _ => false
  | _ => true
  end.

Open Scope R_scope.

Definition Rltb (x y : R) : bool := if Rlt_dec x y then true else false.
Definition Rleb (x y : R) : bool := if Rle_dec x y then true else false.

(** A float as the simulator's [leg_hours] can be: finite, or the
    [float('inf')] the code writes itself. *)
Inductive pyfloat : Type :=
| Fin (r : R)
| Inf.

(** [math.floor], [math.ceil] *)
Definition floor (x : R) : Z := Int_part x.
Definition ceil (x : R) : Z := (- Int_part (- x))%Z.

(** [round(x)]: nearest integer, ties to the even one. *)
Definition round (x : R) : Z :=
  let f := floor x in
  let d := x - IZR f in
  if Rlt_dec d (1 / 2) then f
  else if Rlt_dec (1 / 2) d then (f + 1)%Z
  else if Z.even f then f else (f + 1)%Z.

(** [round(x, 2)] *)
Definition round2 (x : R) : R := IZR (round (x * 100)) / 100.

(** [math.radians] *)
Definition radians (deg : R) : R := deg * PI / 180.

(** [math.sqrt]: ValueError on a negative argument. *)
Definition sqrt (x : R) : outcome R :=
  if Rlt_dec x 0 then Raise ValueError else Return (R_sqrt.sqrt x).

(** [math.asin]: ValueError outside [-1, 1]. *)
Definition asin (x : R) : outcome R :=
  if Rlt_dec x (-1) then Raise ValueError
  else if Rlt_dec 1 x then Raise ValueError
  else Return (Ratan.asin x).

(** [math.atan2 y x]: total, by quadrant. *)
Definition atan2 (y x : R) : R :=
  if Rlt_dec 0 x then atan (y / x)
  else if Rlt_dec x 0 then
    (if Rle_dec 0 y then atan (y / x) + PI else atan (y / x) - PI)
  else if Rlt_dec 0 y then PI / 2
  else if Rlt_dec y 0 then - (PI / 2)
  else 0.

End Py.

Notation "x <- m ;; k" := (Py.bind m (fun x => k))
  (at level 61, m at next level, right associativity).

Import Py.
Open Scope R_scope.
Open Scope string_scope.

(** Dict lookup, [d.get(k)], on a catalog kept in insertion order. *)
Fixpoint lookup {V : Type} (k : string) (d : list (string * V)) : option V :=
  match d with
  | [] => None
  | (k', v) :: rest => if String.eqb k k' then Some v else lookup k rest
  end.

Definition keys {V : Type} (d : list (string * V)) : list string := map fst d.

(** [x in s] for strings: [x] occurs as a contiguous substring of [s]. *)
Fixpoint contains (x s : string) : bool :=
  if prefix x s then true
  else match s with
       | EmptyString => false
       | String _ s' => contains x s'
       end.

(** [x in l] for a list of strings. *)
Definition mem (x : string) (l : list string) : bool :=
  existsb (String.eqb x) l.

(** ** GeoMath *)

(** The haversine term [a], written the same way in both distance functions;
    arguments already in radians. *)
Definition haversine_a (lat1 lng1 lat2 lng2 : R) : R :=
  let dlat := lat2 - lat1 in
  let dlng := lng2 - lng1 in
  sin (dlat / 2) ^ 2 + cos lat1 * cos lat2 * sin (dlng / 2) ^ 2.

(** ** Route planning estimator ([BACKEND/app.py]) *)

Module App.

Record Port : Type := {
  lat : R;
  lng : R;
  country : string;
  bunker_price : R;
  port_cost_per_ton : R
}.

Definition MAJOR_PORTS : list (string * Port) := [
  ("Singapore", Build_Port 1.3521 103.8198 "Singapore" 680 0.8);
  ("Rotterdam", Build_Port 51.9225 4.4792 "Netherlands" 650 0.9);
  ("Shanghai", Build_Port 31.2304 121.4737 "China" 670 0.7);
  ("Hamburg", Build_Port 53.5511 9.9937 "Germany" 660 0.85);
  ("Los Angeles", Build_Port 33.7485 (-118.2436) "USA" 720 1.0);
  ("Dubai", Build_Port 25.2532 55.3657 "UAE" 640 0.75);
  ("Hong Kong", Build_Port 22.3193 114.1694 "Hong Kong" 675 0.8);
  ("Antwerp", Build_Port 51.2194 4.4025 "Belgium" 655 0.9);
  ("Long Beach", Build_Port 33.7701 (-118.1937) "USA" 715 1.0);
  ("Busan", Build_Port 35.1796 129.0756 "South Korea" 690 0.8);
  ("Tokyo", Build_Port 35.6162 139.7431 "Japan" 700 0.9);
  ("Mumbai", Build_Port 19.0760 72.8777 "India" 635 0.6);
  ("Felixstowe", Build_Port 51.9542 1.3509 "UK" 665 0.85);
  ("Valencia", Build_Port 39.4699 (-0.3763) "Spain" 645 0.8)
].

Record ShipSpec : Type := {
  name : string;
  fuel_rate_tons_per_day : R;
  avg_speed_knots : R;
  cost_per_ton_fuel : R;
  typical_dwt_range : R * R;
  fuel_efficiency_factor : R
}.

Definition SHIP_TYPES : list (string * ShipSpec) := [
  ("container", Build_ShipSpec "Container Ship" 250 22 8.5 (50000, 200000) 1.0);
  ("bulk", Build_ShipSpec "Bulk Carrier" 180 14 7.8 (10000, 400000) 0.9);
  ("tanker", Build_ShipSpec "Oil Tanker" 200 16 8.2 (5000, 320000) 0.95);
  ("general", Build_ShipSpec "General Cargo" 120 18 7.5 (1000, 60000) 1.1);
  ("roro", Build_ShipSpec "RoRo Vessel" 160 20 8.0 (5000, 80000) 1.05)
].

Record Bounds : Type := {
  lat_min : R;
  lat_max : R;
  lng_min : R;
  lng_max : R
}.

Record EcaZone : Type := {
  eca_bounds : Bounds;
  fuel_sulfur_limit : R;
  eca_description : string
}.

Definition ECA_ZONES : list (string * EcaZone) := [
  ("North American ECA",
   Build_EcaZone (Build_Bounds 25 50 (-130) (-65)) 0.1 "North American Emission Control Area");
  ("North Sea ECA",
   Build_EcaZone (Build_Bounds 51 62 (-5) 12) 0.1 "North Sea and English Channel ECA");
  ("Baltic Sea ECA",
   Build_EcaZone (Build_Bounds 53.5 66 10 30) 0.1 "Baltic Sea ECA")
].

Record PiracyZone : Type := {
  bounds : Bounds;
  risk_level : string;
  description : string
}.

Definition PIRACY_ZONES : list (string * PiracyZone) := [
  ("Gulf of Aden",
   Build_PiracyZone (Build_Bounds 10 18 42 52) "HIGH" "High piracy risk area");
  ("West Africa",
   Build_PiracyZone (Build_Bounds (-5) 10 (-10) 8) "HIGH" "Gulf of Guinea piracy zone");
  ("Strait of Malacca",
   Build_PiracyZone (Build_Bounds 1 6 100 105) "MEDIUM" "Moderate piracy risk")
].

(** *** Utility functions *)

Definition calculate_great_circle_distance (lat1 lng1 lat2 lng2 : R) : outcome R :=
  let R := 3440.065 in
  let lat1 := radians lat1 in
  let lng1 := radians lng1 in
  let lat2 := radians lat2 in
  let lng2 := radians lng2 in
  let a := haversine_a lat1 lng1 lat2 lng2 in
  s <- Py.sqrt a ;;
  t <- Py.asin s ;;
  let c := 2 * t in
  Return (R * c).

Definition is_point_in_zone (lat lng : R) (zone_bounds : Bounds) : bool :=
  Rleb (lat_min zone_bounds) lat && Rleb lat (lat_max zone_bounds)
  && (Rleb (lng_min zone_bounds) lng && Rleb lng (lng_max zone_bounds)).

(** A calendar date as [datetime.fromisoformat] yields it; only [.month] is
    read by the planner. *)
Record date : Type := {
  year : Z;
  month : Z;
  day : Z
}.

(** A date-valued request field: [None] is a string that
    [datetime.fromisoformat] rejects with ValueError. *)
Definition fromisoformat (s : option date) : outcome date :=
  match s with
  | Some d => Return d
  | None => Raise ValueError
  end.

Record Risk : Type := {
  risk_type : string;
  level : string;
  risk_description : string
}.

Record RiskAssessment : Type := {
  overall_risk : string;
  risk_score : Z;
  individual_risks : list Risk;
  recommendations : list string
}.

Definition generate_risk_recommendations (risks : list Risk) : list string :=
  let recommendations :=
    fold_left
      (fun recs risk =>
         if String.eqb (risk_type risk) "Piracy Risk" then
           (recs ++ ["Follow BMP5 guidelines for piracy prevention";
                    "Increase watch vigilance in high-risk areas";
                    "Consider naval escort if available"])%list
         else if String.eqb (risk_type risk) "Seasonal Weather" then
           (recs ++ ["Plan flexible departure window";
                    "Increase fuel reserves for weather delays";
                    "Monitor tropical weather forecasts"])%list
         else if String.eqb (risk_type risk) "Port Congestion" then
           (recs ++ ["Confirm berth availability before arrival";
                    "Plan for potential anchor waiting time"])%list
         else recs)
      risks ["Monitor weather updates every 6 hours"] in
  nodup string_dec recommendations.

(** The piracy loop of [assess_route_risks]: one pass over the zone dict,
    threading the finding list and the score. *)
Definition piracy_step (origin_coords dest_coords : Port)
    (acc : list Risk * Z) (zone : string * PiracyZone) : list Risk * Z :=
  let '(risks, risk_score) := acc in
  let '(zone_name, zone_data) := zone in
  if is_point_in_zone (lat origin_coords) (lng origin_coords) (bounds zone_data)
     || is_point_in_zone (lat dest_coords) (lng dest_coords) (bounds zone_data)
  then (app risks [Build_Risk "Piracy Risk" (risk_level zone_data)
                    ("Route passes through " ++ zone_name ++ " - " ++ description zone_data)],
        (risk_score + (if String.eqb (risk_level zone_data) "HIGH" then 35 else 20))%Z)
  else (risks, risk_score).

Definition piracy_loop (zones : list (string * PiracyZone))
    (origin_coords dest_coords : Port) (acc : list Risk * Z) : list Risk * Z :=
  fold_left (piracy_step origin_coords dest_coords) zones acc.

(** [next((name for name, coords in MAJOR_PORTS.items()
          if abs(coords["lat"] - c["lat"]) < 0.1), "Unknown")] *)
Definition port_name_near (ports : list (string * Port)) (c : Port) : string :=
  match find (fun p => Rltb (Rabs (lat (snd p) - lat c)) 0.1) ports with
  | Some p => fst p
  | None => "Unknown"
  end.

Definition assess_route_risks_in (zones : list (string * PiracyZone))
    (origin_coords dest_coords : Port) (departure_date : option date)
  : outcome RiskAssessment :=
  let '(risks, risk_score) := piracy_loop zones origin_coords dest_coords ([], 0%Z) in
  d <- fromisoformat departure_date ;;
  let dep_month := month d in
  let '(risks, risk_score) :=
    if existsb (Z.eqb dep_month) [6; 7; 8; 9; 10]%Z
    then (app risks [Build_Risk "Seasonal Weather" "MEDIUM"
                      "Hurricane/Typhoon season increases weather risks"],
          (risk_score + 20)%Z)
    else (risks, risk_score) in
  let '(risks, risk_score) :=
    if Rltb 40 (Rabs (lat origin_coords - lat dest_coords))
    then (app risks [Build_Risk "Weather Variation" "MEDIUM"
                      "Large latitude changes may encounter varied weather conditions"],
          (risk_score + 15)%Z)
    else (risks, risk_score) in
  let busy_ports := ["Singapore"; "Shanghai"; "Rotterdam"; "Los Angeles"] in
  let origin_name := port_name_near MAJOR_PORTS origin_coords in
  let dest_name := port_name_near MAJOR_PORTS dest_coords in
  let '(risks, risk_score) :=
    if mem origin_name busy_ports || mem dest_name busy_ports
    then (app risks [Build_Risk "Port Congestion" "LOW"
                      ("Potential delays at major ports (" ++ origin_name ++ ", "
                         ++ dest_name ++ ")")],
          (risk_score + 10)%Z)
    else (risks, risk_score) in
  let overall_risk :=
    if (50 <=? risk_score)%Z then "HIGH"
    else if (25 <=? risk_score)%Z then "MEDIUM"
    else "LOW" in
  Return {| overall_risk := overall_risk;
            risk_score := Z.min risk_score 100;
            individual_risks := risks;
            recommendations := generate_risk_recommendations risks |}.

Definition assess_route_risks := assess_route_risks_in PIRACY_ZONES.

Record EcaCompliance : Type := {
  eca_zones_crossed : list string;
  compliance_costs : Z
}.

Definition calculate_eca_compliance (origin_coords dest_coords : Port) : EcaCompliance :=
  let eca_zones_crossed :=
    map fst
      (filter (fun z =>
                 is_point_in_zone (lat origin_coords) (lng origin_coords) (eca_bounds (snd z))
                 || is_point_in_zone (lat dest_coords) (lng dest_coords) (eca_bounds (snd z)))
              ECA_ZONES) in
  {| eca_zones_crossed := eca_zones_crossed;
     compliance_costs := (Z.of_nat (length eca_zones_crossed) * 15000)%Z |}.

Record RouteWaypoint : Type := {
  wp_lat : R;
  wp_lng : R;
  waypoint_id : nat
}.

(** Lines 286-299.  The source divides by [num_waypoints], so a call with 0
    raises [ZeroDivisionError] there; the one caller passes the default 10 and
    the properties below are stated for a positive count only.  Coordinates
    are real numbers: in floating point the waypoint at ratio [1.0] can differ
    from the destination in the last bits. *)
Definition generate_route_coordinates (origin_coords dest_coords : Port)
    (num_waypoints : nat) : list RouteWaypoint :=
  map (fun i =>
         let ratio := INR i / INR num_waypoints in
         {| wp_lat := lat origin_coords + (lat dest_coords - lat origin_coords) * ratio;
            wp_lng := lng origin_coords + (lng dest_coords - lng origin_coords) * ratio;
            waypoint_id := i |})
      (seq 0 (num_waypoints + 1)).

Record FuelStop : Type := {
  stop_port_name : string;
  stop_lat : R;
  stop_lng : R;
  fuel_needed_tons : R;
  fuel_price_per_ton : R;
  estimated_cost : R;
  distance_from_origin : R
}.

Definition calculate_fuel_stops (distance_nm fuel_capacity_tons daily_consumption : R)
  : list FuelStop :=
  let max_range_nm := (fuel_capacity_tons / daily_consumption) * 24 * 14 in
  if Rleb distance_nm max_range_nm then []
  else if Rltb 7000 distance_nm then
    [ {| stop_port_name := "Fujairah"; stop_lat := 25.1164; stop_lng := 56.3467;
         fuel_needed_tons := 800; fuel_price_per_ton := 645;
         estimated_cost := 800 * 645; distance_from_origin := 4500 |} ]
  else [].

(** *** The route planning endpoint *)

(** The request after [data.get(key, default)]: absent keys already carry
    their defaults.  [laycan_start], [laycan_end] and [draft] are only echoed
    into the response and are left out, with the echo blocks [vessel_info] and
    [laycan_analysis] and the formatted [arrival_date]. *)
Record RoutePlanRequest : Type := {
  origin : string;
  destination : string;
  ship_type : string;
  deadweight : R;
  bunker_on_board : R;
  cargo_value : R;
  departure_date : option date;
  weather_optimized : bool
}.

Record RouteSummary : Type := {
  distance_nm : Z;
  voyage_days : Z;
  summary_avg_speed_knots : R
}.

Record FuelAnalysis : Type := {
  consumption_tons : Z;
  daily_consumption : Z;
  weather_factor : R;
  fuel_stops_required : nat;
  fuel_stops : list FuelStop;
  bunker_price_avg : Z
}.

Record CostBreakdown : Type := {
  fuel_cost : Z;
  port_cost : Z;
  canal_cost : Z;
  canal_name : option string;
  insurance_cost : Z;
  compliance_cost : Z;
  other_costs : Z;
  total_cost : Z
}.

Record Route : Type := {
  route_name : string;
  route_type : string;
  coordinates : list RouteWaypoint;
  cost : Z;
  days : Z;
  route_risk_level : string;
  fuel_consumption : Z
}.

Record MainRoute : Type := {
  main_coordinates : list RouteWaypoint;
  main_type : string;
  main_cost : Z;
  main_days : Z;
  main_risk_level : string;
  main_fuel_consumption : Z
}.

Record RoutePlanResult : Type := {
  route_summary : RouteSummary;
  fuel_analysis : FuelAnalysis;
  cost_breakdown : CostBreakdown;
  risk_assessment : RiskAssessment;
  regulatory_compliance : EcaCompliance;
  main_route : MainRoute;
  alternate_routes : list Route
}.

(** Lines 423-429: the canal surcharge and its name, from the route key. *)
Definition canal_match (route_key : string) : bool :=
  existsb (fun x => contains x route_key) ["Singapore"; "Rotterdam"; "Hamburg"; "Antwerp"]
  && existsb (fun y => contains y route_key) ["Middle East"; "Asia"; "Europe"].

Definition canal_of (route_key : string) : Z * option string :=
  if existsb (fun x => contains x route_key) ["Singapore"; "Rotterdam"; "Hamburg"; "Antwerp"]
  then
    if existsb (fun y => contains y route_key) ["Middle East"; "Asia"; "Europe"]
    then (222865%Z, Some "Suez Canal")
    else (0%Z, None)
  else (0%Z, None).

(** Lines 400-409. *)
Definition weather_factor_of (weather_optimized : bool) (departure_date : option date)
  : outcome R :=
  if weather_optimized then Return 0.95
  else
    d <- fromisoformat departure_date ;;
    let dep_month := month d in
    if existsb (Z.eqb dep_month) [11; 12; 1; 2; 3]%Z then Return 1.15
    else if existsb (Z.eqb dep_month) [6; 7; 8; 9]%Z then Return 1.10
    else Return 1.0.

(** The body of the [try] block once the three catalog references are
    resolved. *)
Definition route_plan (data : RoutePlanRequest) (origin_coords dest_coords : Port)
    (ship_spec : ShipSpec) : outcome RoutePlanResult :=
  base_distance <- calculate_great_circle_distance
                     (lat origin_coords) (lng origin_coords)
                     (lat dest_coords) (lng dest_coords) ;;
  let routing_factor := 1.15 in
  let actual_distance := base_distance * routing_factor in
  let avg_speed := avg_speed_knots ship_spec in
  let voyage_days := ceil (actual_distance / (avg_speed * 24)) in
  let daily_fuel_consumption :=
    fuel_rate_tons_per_day ship_spec * fuel_efficiency_factor ship_spec in
  weather_factor <- weather_factor_of (weather_optimized data) (departure_date data) ;;
  let total_fuel_consumption := IZR voyage_days * daily_fuel_consumption * weather_factor in
  let avg_bunker_price := (bunker_price origin_coords + bunker_price dest_coords) / 2 in
  let fuel_cost := total_fuel_consumption * avg_bunker_price in
  let port_cost_origin := deadweight data * port_cost_per_ton origin_coords + 25000 in
  let port_cost_dest := deadweight data * port_cost_per_ton dest_coords + 25000 in
  let total_port_costs := port_cost_origin + port_cost_dest in
  let route_key := origin data ++ "-" ++ destination data in
  let '(canal_cost, canal_name) := canal_of route_key in
  let insurance_cost := cargo_value data * 0.001 in
  let other_costs := 50000%Z in
  let eca_compliance := calculate_eca_compliance origin_coords dest_coords in
  let compliance_costs := compliance_costs eca_compliance in
  let total_cost :=
    fuel_cost + total_port_costs + IZR canal_cost + insurance_cost
    + IZR other_costs + IZR compliance_costs in
  risk_assessment <- assess_route_risks origin_coords dest_coords (departure_date data) ;;
  let fuel_stops :=
    calculate_fuel_stops actual_distance (bunker_on_board data) daily_fuel_consumption in
  let main_route_coords := generate_route_coordinates origin_coords dest_coords 10 in
  let alt_cost_factor :=
    if String.eqb (overall_risk risk_assessment) "HIGH" then 1.12 else 1.08 in
  let safety_route :=
    {| route_name := "Safety Route"; route_type := "alternate";
       coordinates := main_route_coords;
       cost := round (total_cost * alt_cost_factor);
       days := (voyage_days + 2)%Z;
       route_risk_level := "LOW";
       fuel_consumption := round (total_fuel_consumption * alt_cost_factor) |} in
  let alternate_routes :=
    if negb (weather_optimized data) then
      let weather_savings := 0.95 in
      [ safety_route;
        {| route_name := "Weather Optimized"; route_type := "weather";
           coordinates := main_route_coords;
           cost := round (total_cost * weather_savings);
           days := (voyage_days - 1)%Z;
           route_risk_level := "MEDIUM";
           fuel_consumption := round (total_fuel_consumption * weather_savings) |} ]
    else [ safety_route ] in
  Return
    {| route_summary :=
         {| distance_nm := round actual_distance;
            voyage_days := voyage_days;
            summary_avg_speed_knots := avg_speed |};
       fuel_analysis :=
         {| consumption_tons := round total_fuel_consumption;
            daily_consumption := round daily_fuel_consumption;
            weather_factor := weather_factor;
            fuel_stops_required := length fuel_stops;
            fuel_stops := fuel_stops;
            bunker_price_avg := round avg_bunker_price |};
       cost_breakdown :=
         {| fuel_cost := round fuel_cost;
            port_cost := round total_port_costs;
            canal_cost := canal_cost;
            canal_name := canal_name;
            insurance_cost := round insurance_cost;
            compliance_cost := compliance_costs;
            other_costs := other_costs;
            total_cost := round total_cost |};
       risk_assessment := risk_assessment;
       regulatory_compliance := eca_compliance;
       main_route :=
         {| main_coordinates := main_route_coords;
            main_type := "main";
            main_cost := round total_cost;
            main_days := voyage_days;
            main_risk_level := overall_risk risk_assessment;
            main_fuel_consumption := round total_fuel_consumption |};
       alternate_routes := alternate_routes |}.

Definition maritime_route_plan (data : RoutePlanRequest) : response RoutePlanResult :=
  let origin_coords := lookup (origin data) MAJOR_PORTS in
  let dest_coords := lookup (destination data) MAJOR_PORTS in
  match origin_coords, dest_coords with
  | Some origin_coords, Some dest_coords =>
      match lookup (ship_type data) SHIP_TYPES with
      | None => Error400 "Invalid ship type"
      | Some ship_spec =>
          match route_plan data origin_coords dest_coords ship_spec with
          | Return body => Ok200 body
          | Raise e => Error500 e
          end
      end
  | _, _ => Error400 "Invalid port selection"
  end.

End App.

(** ** Voyage leg simulator ([BACKEND/simu_routes.py]) *)

Module Simu.

Record BunkerPort : Type := {
  lat : R;
  lng : R;
  bunker_price : R
}.

Definition BUNKERING_PORTS : list (string * BunkerPort) := [
  ("Singapore", Build_BunkerPort 1.3521 103.8198 680);
  ("Rotterdam", Build_BunkerPort 51.9225 4.4792 650);
  ("Fujairah", Build_BunkerPort 25.1164 56.3467 645);
  ("Gibraltar", Build_BunkerPort 36.1408 (-5.3536) 660)
].

Record ShipSpec : Type := {
  name : string;
  fuel_rate_tons_per_day : R;
  avg_speed_knots : R;
  fuel_capacity_tons : R
}.

Definition SHIP_TYPES : list (string * ShipSpec) := [
  ("container", Build_ShipSpec "Container Ship" 45 18 5000);
  ("bulk", Build_ShipSpec "Bulk Carrier" 35 14 4000);
  ("tanker", Build_ShipSpec "Oil Tanker" 40 15 4500)
].

(** *** Utility functions *)

(** Lines 39-47.  Over the reals the haversine term [a] of line 45 lies in
    [[0, 1]] and neither square root can fail.  In floating point [a] can
    round to a value just above 1 for near-antipodal points; line 46 then
    takes [math.sqrt] of a negative number: see [distance_of_term]. *)
Definition calculate_distance (lat1 lon1 lat2 lon2 : R) : outcome R :=
  let R := 3440.065 in
  let lat1_rad := radians lat1 in
  let lon1_rad := radians lon1 in
  let lat2_rad := radians lat2 in
  let lon2_rad := radians lon2 in
  let a := haversine_a lat1_rad lon1_rad lat2_rad lon2_rad in
  s <- Py.sqrt a ;;
  t <- Py.sqrt (1 - a) ;;
  let c := 2 * atan2 s t in
  Return (R * c).

(** Lines 46-47 on their own: what [calculate_distance] does with the value
    [a] that line 45 left, whatever it is. *)
Definition distance_of_term (a : R) : outcome R :=
  let R := 3440.065 in
  s <- Py.sqrt a ;;
  t <- Py.sqrt (1 - a) ;;
  let c := 2 * atan2 s t in
  Return (R * c).

(** *** Time *)

(** A [datetime]: microseconds on the time line, and whether it carries a
    UTC offset. *)
Record datetime : Type := {
  micros : Z;
  aware : bool
}.

(** [timedelta(hours=h)], in microseconds. *)
Definition timedelta_hours (h : R) : Z := round (h * 3600 * 1000000).

(** [t + td] *)
Definition add (t : datetime) (td : Z) : datetime :=
  {| micros := micros t + td; aware := aware t |}.

(** [a - b]: TypeError between an aware and a naive datetime. *)
Definition sub (a b : datetime) : outcome Z :=
  if Bool.eqb (aware a) (aware b) then Return (micros a - micros b)%Z
  else Raise TypeError.

(** [td.total_seconds()] *)
Definition total_seconds (td : Z) : R := IZR td / 1000000.

(** A request field holding an ISO instant: the key may be absent ([None]),
    hold a string [fromisoformat] rejects, or a proper instant. *)
Inductive iso_field : Type :=
| Absent
| Malformed
| Instant (t : datetime).

(** [datetime.fromisoformat(field.replace('Z', '+00:00'))] *)
Definition fromisoformat (f : iso_field) : outcome datetime :=
  match f with
  | Absent => Raise AttributeError
  | Malformed => Raise ValueError
  | Instant t => Return t
  end.

(** *** Request and result *)

Definition Waypoint : Type := (R * R)%type.

Record SpeedAdjustment : Type := {
  legIndex : option Z;
  newStw : option R
}.

Record CostParams : Type := {
  bunker_price_usd_mt : R;
  co2_price_usd_mt : R
}.

(** The request after [data.get(key, default)].  [startTime] has a default,
    so it is never [Absent]; [laycan] defaults to the empty dict, whose
    [end] is [Absent]. *)
Record SimulationRequest : Type := {
  waypoints : list Waypoint;
  startTime : iso_field;
  stw : R;
  costs : CostParams;
  laycan_end : iso_field;
  speedAdjustments : list SpeedAdjustment;
  shipType : string
}.

(** The three [random.uniform] draws of one leg. *)
Record Weather : Type := {
  wind_effect : R;
  wave_effect : R;
  current_effect : R
}.

(** The random source: the draws of leg [i]. *)
Definition RandomSource : Type := nat -> Weather.

Record Leg : Type := {
  index : nat;
  from : Waypoint;
  to : Waypoint;
  distance_nm : R;
  stw_commanded : R;
  stw_effective : R;
  sog : R;
  leg_hours : R;
  fuel_consumption_mt : R;
  arrivalTime : datetime;
  penalty_wave : R;
  penalty_wind : R;
  c_parallel : R
}.

Record VoyageCosts : Type := {
  bunker_cost_usd : Z;
  co2_cost_usd : Z;
  total_voyage_cost_usd : Z
}.

Record LaycanRisk : Type := {
  status : string;
  diffHours : R
}.

Record FuelStop : Type := {
  port_name : string;
  fuel_needed_tons : R
}.

Record Total : Type := {
  total_distance_nm : R;
  voyage_hours : R;
  total_fuel_consumption_mt : R;
  eta : datetime;
  voyage_costs : VoyageCosts;
  laycanRisk : LaycanRisk;
  fuel_stops : list FuelStop
}.

Record SimulationResult : Type := {
  legs : list Leg;
  total : Total
}.

(** *** One leg *)

(** Lines 82-86: the commanded speed of leg [i]. *)
Definition commanded_speed (stw : R) (speed_adjustments : list SpeedAdjustment)
    (i : nat) : R :=
  match find (fun adj => match legIndex adj with
                         | Some k => (k =? Z.of_nat i)%Z
                         | None => false
                         end) speed_adjustments with
  | Some adjustment =>
      match newStw adjustment with
      | Some v => v
      | None => stw
      end
  | None => stw
  end.

(** Lines 93-96: speed over ground with its floor. *)
Definition speed_over_ground (stw_effective current_effect : R) : R :=
  let sog := stw_effective + current_effect in
  if Rlt_dec sog 1.0 then 1.0 else sog.

(** Line 98. *)
Definition leg_hours_of (dist_nm sog : R) : pyfloat :=
  if Rlt_dec 0 sog then Fin (dist_nm / sog) else Inf.

(** The locals of one loop iteration that do not depend on the clock. *)
Record LegPhysics : Type := {
  ph_dist_nm : R;
  ph_current_stw : R;
  ph_stw_effective : R;
  ph_sog : R;
  ph_leg_hours : R;
  ph_fuel_consumption_mt : R
}.

(** Lines 80-109.  A leg of infinite duration stops the request at
    [timedelta(hours=leg_hours)] with OverflowError. *)
Definition leg_physics (ship_spec : ShipSpec) (stw : R)
    (speed_adjustments : list SpeedAdjustment) (w : Weather) (i : nat)
    (from_wp to_wp : Waypoint) : outcome LegPhysics :=
  dist_nm <- calculate_distance (fst from_wp) (snd from_wp) (fst to_wp) (snd to_wp) ;;
  let current_stw := commanded_speed stw speed_adjustments i in
  let stw_effective := current_stw + wind_effect w + wave_effect w in
  let sog := speed_over_ground stw_effective (current_effect w) in
  match leg_hours_of dist_nm sog with
  | Inf => Raise OverflowError
  | Fin leg_hours =>
      let base_fuel_per_day := fuel_rate_tons_per_day ship_spec in
      let design_speed := avg_speed_knots ship_spec in
      let fuel_consumption_mt :=
        (base_fuel_per_day / 24) * leg_hours * (current_stw / design_speed) ^ 3 in
      Return {| ph_dist_nm := dist_nm;
                ph_current_stw := current_stw;
                ph_stw_effective := stw_effective;
                ph_sog := sog;
                ph_leg_hours := leg_hours;
                ph_fuel_consumption_mt := fuel_consumption_mt |}
  end.

(** *** The leg loop *)

Record LoopState : Type := {
  st_legs : list Leg;
  total_dist_nm : R;
  total_hours : R;
  total_fuel : R;
  current_time : datetime
}.

(** Lines 78-130: one iteration. *)
Definition leg_step (ship_spec : ShipSpec) (stw : R)
    (speed_adjustments : list SpeedAdjustment) (w : Weather) (i : nat)
    (from_wp to_wp : Waypoint) (st : LoopState) : outcome LoopState :=
  p <- leg_physics ship_spec stw speed_adjustments w i from_wp to_wp ;;
  let arrival_time := add (current_time st) (timedelta_hours (ph_leg_hours p)) in
  let leg :=
    {| index := i;
       from := from_wp;
       to := to_wp;
       distance_nm := round2 (ph_dist_nm p);
       stw_commanded := round2 (ph_current_stw p);
       stw_effective := round2 (ph_stw_effective p);
       sog := round2 (ph_sog p);
       leg_hours := round2 (ph_leg_hours p);
       fuel_consumption_mt := round2 (ph_fuel_consumption_mt p);
       arrivalTime := arrival_time;
       penalty_wave := round2 (- wave_effect w);
       penalty_wind := round2 (- wind_effect w);
       c_parallel := round2 (current_effect w) |} in
  Return {| st_legs := (st_legs st ++ [leg])%list;
            total_dist_nm := total_dist_nm st + ph_dist_nm p;
            total_hours := total_hours st + ph_leg_hours p;
            total_fuel := total_fuel st + ph_fuel_consumption_mt p;
            current_time := arrival_time |}.

(** [for i in range(len(waypoints) - 1)], entered at index [i] with the
    waypoints from [i] on. *)
Fixpoint legs_loop (ship_spec : ShipSpec) (stw : R)
    (speed_adjustments : list SpeedAdjustment) (draws : RandomSource) (i : nat)
    (wps : list Waypoint) (st : LoopState) : outcome LoopState :=
  match wps with
  | from_wp :: ((to_wp :: _) as rest) =>
      st' <- leg_step ship_spec stw speed_adjustments (draws i) i from_wp to_wp st ;;
      legs_loop ship_spec stw speed_adjustments draws (S i) rest st'
  | _ => Return st
  end.

(** The legs [new] appended by the loop entered at index [i] with clock [t]:
    each arrival time is the clock on entry plus the [timedelta] of that
    leg's hours, and it is the clock on entry of the next leg. *)
Fixpoint clock_chain (ship_spec : ShipSpec) (stw : R)
    (speed_adjustments : list SpeedAdjustment) (draws : RandomSource) (i : nat)
    (t : datetime) (wps : list Waypoint) (new : list Leg) {struct wps} : Prop :=
  match wps with
  | [] => new = []
  | from_wp :: rest =>
      match rest, new with
      | [], [] => True
      | to_wp :: _, leg :: new' =>
          (exists p,
              leg_physics ship_spec stw speed_adjustments (draws i) i from_wp to_wp = Return p
              /\ arrivalTime leg = add t (timedelta_hours (ph_leg_hours p)))
          /\ clock_chain ship_spec stw speed_adjustments draws (S i) (arrivalTime leg) rest new'
      | _, _ => False
      end
  end.

Definition initial_state (start : datetime) : LoopState :=
  {| st_legs := []; total_dist_nm := 0; total_hours := 0; total_fuel := 0;
     current_time := start |}.

(** *** Post-voyage calculations *)

(** Lines 138-142. *)
Definition laycan_status_of (diff : R) : string :=
  if Rlt_dec diff 0 then "late"
  else if Rlt_dec 48 diff then "early"
  else "on_time".

(** [min(BUNKERING_PORTS, key=...)]: the first key of least bunker price. *)
Fixpoint cheapest (best : string * BunkerPort) (rest : list (string * BunkerPort))
  : string :=
  match rest with
  | [] => fst best
  | p :: rest' =>
      if Rlt_dec (bunker_price (snd p)) (bunker_price (snd best))
      then cheapest p rest'
      else cheapest best rest'
  end.

Definition cheapest_port (ports : list (string * BunkerPort)) : outcome string :=
  match ports with
  | [] => Raise ValueError
  | p :: rest => Return (cheapest p rest)
  end.

(** Lines 133-178. *)
Definition finish (ship_spec : ShipSpec) (cost_params : CostParams)
    (laycan : iso_field) (st : LoopState) : outcome SimulationResult :=
  let final_eta := current_time st in
  laycan_end <- fromisoformat laycan ;;
  d <- sub laycan_end (current_time st) ;;
  let diff := total_seconds d / 3600 in
  let laycan_status := laycan_status_of diff in
  let bunker_cost := total_fuel st * bunker_price_usd_mt cost_params in
  let co2_cost := total_fuel st * 3.17 * co2_price_usd_mt cost_params in
  let total_voyage_cost := bunker_cost + co2_cost in
  let fuel_capacity := fuel_capacity_tons ship_spec in
  fuel_stops <-
    (if Rlt_dec fuel_capacity (total_fuel st) then
       cheapest_port <- cheapest_port BUNKERING_PORTS ;;
       Return [ {| port_name := cheapest_port;
                   fuel_needed_tons := round2 (total_fuel st - fuel_capacity + 500) |} ]
     else Return []) ;;
  Return
    {| legs := st_legs st;
       total :=
         {| total_distance_nm := round2 (total_dist_nm st);
            voyage_hours := round2 (total_hours st);
            total_fuel_consumption_mt := round2 (total_fuel st);
            eta := final_eta;
            voyage_costs :=
              {| bunker_cost_usd := round bunker_cost;
                 co2_cost_usd := round co2_cost;
                 total_voyage_cost_usd := round total_voyage_cost |};
            laycanRisk := {| status := laycan_status; diffHours := round2 diff |};
            fuel_stops := fuel_stops |} |}.

(** Line 137: the hours from the clock [t] to the laycan end. *)
Definition diff_hours (laycan_end t : datetime) : R :=
  total_seconds (micros laycan_end - micros t) / 3600.

(** *** The simulation endpoint *)

Definition simulate (ship_spec : ShipSpec) (data : SimulationRequest)
    (draws : RandomSource) : outcome SimulationResult :=
  start <- fromisoformat (startTime data) ;;
  st <- legs_loop ship_spec (stw data) (speedAdjustments data) draws 0 (waypoints data)
          (initial_state start) ;;
  finish ship_spec (costs data) (laycan_end data) st.

Definition simulate_route (data : SimulationRequest) (draws : RandomSource)
  : response SimulationResult :=
  match lookup (shipType data) SHIP_TYPES with
  | None => Error400 "Invalid ship type provided."
  | Some ship_spec =>
      match simulate ship_spec data draws with
      | Return body => Ok200 body
      | Raise e => Error500 e
      end
  end.

End Simu.

(** ** Concrete inputs used in the examples below *)

Module Examples.

(** A position in the Gulf of Aden piracy zone (12 N, 45 E). *)
Definition gulf_of_aden_position : App.Port :=
  {| App.lat := 12; App.lng := 45; App.country := "Yemen";
     App.bunker_price := 0; App.port_cost_per_ton := 0 |}.

Definition gulf_of_aden : App.PiracyZone :=
  App.Build_PiracyZone (App.Build_Bounds 10 18 42 52) "HIGH" "High piracy risk area".

Definition mumbai : App.Port :=
  App.Build_Port 19.0760 72.8777 "India" 635 0.6.

Definition mid_january : App.date :=
  {| App.year := 2025; App.month := 1; App.day := 15 |}.

Definition first_of_september : App.date :=
  {| App.year := 2025; App.month := 9; App.day := 1 |}.

(** Singapore to Rotterdam by container ship, the defaults of the endpoint
    but for a deadweight of 50001 t and a cargo value of 2500600. *)
Definition singapore_rotterdam : App.RoutePlanRequest :=
  {| App.origin := "Singapore";
     App.destination := "Rotterdam";
     App.ship_type := "container";
     App.deadweight := 50001;
     App.bunker_on_board := 500;
     App.cargo_value := 2500600;
     App.departure_date := Some first_of_september;
     App.weather_optimized := false |}.

Definition singapore : App.Port := App.Build_Port 1.3521 103.8198 "Singapore" 680 0.8.
Definition rotterdam : App.Port := App.Build_Port 51.9225 4.4792 "Netherlands" 650 0.9.
Definition container : App.ShipSpec :=
  App.Build_ShipSpec "Container Ship" 250 22 8.5 (50000, 200000) 1.0.

(** The simulator's container ship. *)
Definition container_ship : Simu.ShipSpec :=
  Simu.Build_ShipSpec "Container Ship" 45 18 5000.

(** Draws inside the three uniform ranges. *)
Definition fair_weather : Simu.Weather :=
  {| Simu.wind_effect := -0.5; Simu.wave_effect := -0.6; Simu.current_effect := 1 |}.

(** Head wind, sea and current strong enough to bring a slow vessel to the
    floor of one knot. *)
Definition foul_weather : Simu.Weather :=
  {| Simu.wind_effect := -1.0; Simu.wave_effect := -0.5; Simu.current_effect := -1.0 |}.

(** 2025-09-21T00:00:00Z and 2025-09-30T00:00:00Z, in microseconds since
    1970-01-01T00:00:00Z. *)
Definition start_2025_09_21 : Simu.datetime :=
  {| Simu.micros := 1758412800000000; Simu.aware := true |}.

Definition end_2025_09_30 : Simu.datetime :=
  {| Simu.micros := 1759190400000000; Simu.aware := true |}.

Definition default_costs : Simu.CostParams :=
  {| Simu.bunker_price_usd_mt := 650; Simu.co2_price_usd_mt := 90 |}.

(** A request with a single waypoint. *)
Definition single_waypoint : Simu.SimulationRequest :=
  {| Simu.waypoints := [(1.3521, 103.8198)];
     Simu.startTime := Simu.Instant start_2025_09_21;
     Simu.stw := 14;
     Simu.costs := default_costs;
     Simu.laycan_end := Simu.Instant end_2025_09_30;
     Simu.speedAdjustments := [];
     Simu.shipType := "container" |}.

(** The same request for a ship type the simulator does not know. *)
Definition unknown_ship_voyage : Simu.SimulationRequest :=
  {| Simu.waypoints := [(1.3521, 103.8198); (51.9225, 4.4792)];
     Simu.startTime := Simu.Instant start_2025_09_21;
     Simu.stw := 14;
     Simu.costs := default_costs;
     Simu.laycan_end := Simu.Instant end_2025_09_30;
     Simu.speedAdjustments := [];
     Simu.shipType := "submarine" |}.

(** A plan request for a port that is not in the catalog. *)
Definition atlantis_rotterdam : App.RoutePlanRequest :=
  {| App.origin := "Atlantis";
     App.destination := "Rotterdam";
     App.ship_type := "container";
     App.deadweight := 50000;
     App.bunker_on_board := 500;
     App.cargo_value := 2500000;
     App.departure_date := Some first_of_september;
     App.weather_optimized := false |}.

End Examples.

(** ** Maritime weather alerts ([BACKEND/app.py], lines 541-678) *)

Module Weather.

(** [round(x, 1)] *)
Definition round1 (x : R) : R := IZR (round (x * 10)) / 10.

(** [get_sea_state] *)
Definition get_sea_state (wave_height : R) : string :=
  if Rlt_dec wave_height 0.1 then "Calm (glassy)"
  else if Rlt_dec wave_height 0.5 then "Calm (rippled)"
  else if Rlt_dec wave_height 1.25 then "Smooth"
  else if Rlt_dec wave_height 2.5 then "Slight"
  else if Rlt_dec wave_height 4 then "Moderate"
  else if Rlt_dec wave_height 6 then "Rough"
  else if Rlt_dec wave_height 9 then "Very rough"
  else if Rlt_dec wave_height 14 then "High"
  else "Very high".

(** What the view answers: a JSON body, or an error status (400 for a
    missing argument, 502 when the weather service fails, 500 from the
    enclosing [except Exception]). *)
Inductive reply (A : Type) : Type :=
| Replied (body : A)
| Failed (status : Z).
Arguments Replied {A} body.
Arguments Failed {A} status.

(** A query argument: absent or empty ([not lat] holds), or a non-empty
    string with what [float] makes of it ([None]: ValueError). *)
Inductive query_arg : Type :=
| NotGiven
| Given (value : option R).

(** The current-weather document of the upstream service, with the keys the
    view reads; [wind_speed] and [visibility] already carry the defaults of
    their [get] (0 and 10000). *)
Record Snapshot : Type := {
  temp : R;
  humidity : R;
  pressure : R;
  wind_speed : R;
  wind_deg : R;
  visibility : R;
  cloud_cover : R;
  weather_description : string
}.

(** The upstream response: [response.ok] false, or its JSON. *)
Inductive Upstream : Type :=
| NotOk
| Json (weather : Snapshot).

(** An alert; the [description], a formatted rendering of the same values,
    is left out. *)
Record Alert : Type := {
  alert_type : string;
  severity : string;
  recommendation : string
}.

Record Current : Type := {
  cur_temp : R;
  cur_humidity : R;
  cur_pressure : R;
  wind_speed_knots : Z;
  wind_direction : R;
  visibility_nm : Z;
  estimated_wave_height_m : R;
  sea_state : string;
  cur_cloud_cover : R;
  cur_weather_description : string
}.

Record MaritimeWeather : Type := {
  current : Current;
  alerts : list Alert;
  eca_zones : list string;
  location : R * R
}.

(** Lines 562-605: the alerts that depend on the weather alone. *)
Definition weather_alerts (wind_speed_ms visibility_m : R) : list Alert :=
  let wind_speed_knots := round (wind_speed_ms * 1.94384) in
  let gale :=
    if (34 <? wind_speed_knots)%Z then
      [ {| alert_type := "Gale Warning";
           severity := if (47 <? wind_speed_knots)%Z then "HIGH" else "MEDIUM";
           recommendation := "Reduce speed and secure equipment" |} ]
    else [] in
  let visibility_nm := round (visibility_m / 1852) in
  let fog :=
    if (visibility_nm <? 2)%Z then
      [ {| alert_type := "Poor Visibility"; severity := "HIGH";
           recommendation := "Use radar and reduce speed" |} ]
    else if (visibility_nm <? 5)%Z then
      [ {| alert_type := "Reduced Visibility"; severity := "MEDIUM";
           recommendation := "Maintain vigilant watch" |} ]
    else [] in
  let estimated_wave_height := round1 (wind_speed_ms * 0.3 + 0.8) in
  let waves :=
    if Rlt_dec 4 estimated_wave_height then
      [ {| alert_type := "High Waves";
           severity := if Rlt_dec estimated_wave_height 6 then "MEDIUM" else "HIGH";
           recommendation := "Consider route adjustment" |} ]
    else [] in
  (gale ++ fog ++ waves)%list.

(** Lines 608-630: the alerts that depend on the position. *)
Definition zones_containing (lat_f lon_f : R) : list string :=
  map fst (filter (fun z => App.is_point_in_zone lat_f lon_f (App.eca_bounds (snd z)))
             App.ECA_ZONES).

Definition position_alerts (lat_f lon_f : R) : list Alert :=
  let eca_zones := zones_containing lat_f lon_f in
  let eca :=
    match eca_zones with
    | [] => []
    | _ :: _ =>
        [ {| alert_type := "ECA Zone"; severity := "INFO";
             recommendation := "Low sulfur fuel required (≤0.1%)" |} ]
    end in
  let security :=
    map (fun z =>
           {| alert_type := "Security Alert";
              severity := if String.eqb (App.risk_level (snd z)) "HIGH"
                          then "HIGH" else "MEDIUM";
              recommendation := "Follow BMP5 security guidelines" |})
        (filter (fun z => App.is_point_in_zone lat_f lon_f (App.bounds (snd z)))
           App.PIRACY_ZONES) in
  (eca ++ security)%list.

(** [maritime_weather_alerts]: the view, given its two query arguments and
    what the weather service answered. *)
Definition maritime_weather_alerts (lat lon : query_arg) (upstream : Upstream)
  : reply MaritimeWeather :=
  match lat, lon with
  | Given lat_s, Given lon_s =>
      match upstream with
      | NotOk => Failed 502
      | Json weather =>
          let wind_speed_ms := wind_speed weather in
          let wind_speed_knots := round (wind_speed_ms * 1.94384) in
          let visibility_nm := round (visibility weather / 1852) in
          let estimated_wave_height := round1 (wind_speed_ms * 0.3 + 0.8) in
          let sea_state := get_sea_state estimated_wave_height in
          match lat_s, lon_s with
          | Some lat_f, Some lon_f =>
              Replied
                {| current :=
                     {| cur_temp := temp weather;
                        cur_humidity := humidity weather;
                        cur_pressure := pressure weather;
                        wind_speed_knots := wind_speed_knots;
                        wind_direction := wind_deg weather;
                        visibility_nm := visibility_nm;
                        estimated_wave_height_m := estimated_wave_height;
                        sea_state := sea_state;
                        cur_cloud_cover := cloud_cover weather;
                        cur_weather_description := weather_description weather |};
                   alerts := (weather_alerts wind_speed_ms (visibility weather)
                              ++ position_alerts lat_f lon_f)%list;
                   eca_zones := zones_containing lat_f lon_f;
                   location := (lat_f, lon_f) |}
          | _, _ => Failed 500
          end
      end
  | _, _ => Failed 400
  end.

End Weather.

(** ** Ten-day forecast ([BACKEND/app.py], lines 834-893) *)

Module Forecast.

Import Weather.

(** One 3-hour entry of the upstream forecast list: its timestamp (seconds
    since the epoch), the temperature of its [main] block and the speed of its
    [wind] block when the block is there, and the [main] of its first weather
    item. *)
Record Item : Type := {
  dt : Z;
  main_temp : option R;
  wind : option R;
  weather_main : string
}.

(** One day of the answer; [day_number] [n] stands for the label "Day n",
    [date] for the calendar day counted from 1970-01-01. *)
Record Day : Type := {
  day_number : nat;
  date : Z;
  day_temp : Z;
  day_wind : Z;
  waves : R;
  day_sea_state : string;
  condition : string;
  source : string
}.

(** [dt.date()] of a UTC timestamp. *)
Definition day_key (item : Item) : Z := (dt item / 86400)%Z.

(** [buckets[day_key].append(item)] on a dict in insertion order. *)
Fixpoint bucket_add (key : Z) (item : Item) (buckets : list (Z * list Item))
  : list (Z * list Item) :=
  match buckets with
  | [] => [(key, [item])]
  | (k, entries) :: rest =>
      if (key =? k)%Z then (k, (entries ++ [item])%list) :: rest
      else (k, entries) :: bucket_add key item rest
  end.

Definition fill_buckets (items : list Item) : list (Z * list Item) :=
  fold_left (fun buckets item => bucket_add (day_key item) item buckets) items [].

(** [sorted(buckets.items())]: by key, the keys being distinct. *)
Fixpoint insert_bucket (b : Z * list Item) (sorted : list (Z * list Item))
  : list (Z * list Item) :=
  match sorted with
  | [] => [b]
  | c :: rest =>
      if (fst b <=? fst c)%Z then b :: c :: rest else c :: insert_bucket b rest
  end.

Definition sorted_buckets (buckets : list (Z * list Item)) : list (Z * list Item) :=
  fold_right insert_bucket [] buckets.

Definition somes {A : Type} (l : list (option A)) : list A :=
  flat_map (fun o => match o with Some a => [a] | None => [] end) l.

Definition sum (l : list R) : R := fold_right Rplus 0 l.

(** Lines 845-861: one day from the entries of its bucket, [n] days being
    already in the list. *)
Definition aggregate (n : nat) (key : Z) (entries : list Item) : Day :=
  let temps := somes (map main_temp entries) in
  let winds := somes (map wind entries) in
  let wind_ms :=
    match winds with
    | [] => 4.0
    | _ :: _ => sum winds / INR (length winds)
    end in
  let wind_knots := round (wind_ms * 1.94384) in
  let estimated_waves := round1 (wind_ms * 0.3 + 0.8) in
  {| day_number := n + 1;
     date := key;
     day_temp := match temps with
                 | [] => 22%Z
                 | _ :: _ => round (sum temps / INR (length temps))
                 end;
     day_wind := wind_knots;
     waves := estimated_waves;
     day_sea_state := get_sea_state estimated_waves;
     condition := match entries with
                  | e :: _ => weather_main e
                  | [] => "Clear"
                  end;
     source := "api-data" |}.

Definition api_days (items : list Item) : list Day :=
  fold_left (fun days b => (days ++ [aggregate (length days) (fst b) (snd b)])%list)
            (sorted_buckets (fill_buckets items)) [].

(** Lines 866-882: the estimated day that follows [last_day], [n] days being
    already in the list. *)
Definition estimated_day (n : nat) (last_day : Day) : Day :=
  let temp_var := (-2 + Z.of_nat n mod 3)%Z in
  let wind_var := (-3 + Z.of_nat n mod 4)%Z in
  let wave_var := round1 (-0.3 + IZR (Z.of_nat n mod 3) * 0.2) in
  {| day_number := n + 1;
     date := (date last_day + 1)%Z;
     day_temp := Z.max (-10) (Z.min 45 (day_temp last_day + temp_var));
     day_wind := Z.max 5 (Z.min 35 (day_wind last_day + wind_var));
     waves := Rmax 0.5 (Rmin 6.0 (waves last_day + wave_var));
     day_sea_state := get_sea_state (Rmax 0.5 (Rmin 6.0 (waves last_day + wave_var)));
     condition := "Partly Cloudy";
     source := "estimated" |}.

(** [while len(days) < 10]: every turn appends one day, so [10 - len(days)]
    turns are all there can be.  With no day yet, the stand-in for
    [days[-1]] has no ["date"] key: KeyError ([None]). *)
Fixpoint extend (turns : nat) (days : list Day) : option (list Day) :=
  match turns with
  | O => Some days
  | S turns' =>
      if (length days <? 10)%nat then
        match rev days with
        | [] => None
        | last_day :: _ =>
            extend turns' (days ++ [estimated_day (length days) last_day])%list
        end
      else Some days
  end.

(** Lines 834-891: the [days] of the answer from the upstream forecast
    list; a KeyError ends in the 500 of the enclosing [except]. *)
Definition forecast_days (items : list Item) : reply (list Day) :=
  let days := api_days items in
  match extend (10 - length days) days with
  | None => Failed 500
  | Some days => Replied (firstn 10 days)
  end.

End Forecast.

(** ** Reading aids for the statements below *)

Module Reading.

(** The points a finding of [assess_route_risks] adds to the score
    ([app.py], lines 187, 198, 208 and 224), by its type and level. *)
Definition finding_points (r : App.Risk) : Z :=
  if String.eqb (App.risk_type r) "Piracy Risk" then
    (if String.eqb (App.level r) "HIGH" then 35 else 20)%Z
  else if String.eqb (App.risk_type r) "Seasonal Weather" then 20%Z
  else if String.eqb (App.risk_type r) "Weather Variation" then 15%Z
  else if String.eqb (App.risk_type r) "Port Congestion" then 10%Z
  else 0%Z.

Definition points_total (risks : list App.Risk) : Z :=
  fold_right (fun r acc => (finding_points r + acc)%Z) 0%Z risks.

(** The same request with the other routing mode. *)
Definition with_weather_optimized (b : bool) (data : App.RoutePlanRequest)
  : App.RoutePlanRequest :=
  {| App.origin := App.origin data;
     App.destination := App.destination data;
     App.ship_type := App.ship_type data;
     App.deadweight := App.deadweight data;
     App.bunker_on_board := App.bunker_on_board data;
     App.cargo_value := App.cargo_value data;
     App.departure_date := App.departure_date data;
     App.weather_optimized := b |}.

End Reading.

Module Reading2.

(** The recommendations one finding contributes ([app.py], lines 246-262). *)
Definition recommendations_for (r : App.Risk) : list string :=
  if String.eqb (App.risk_type r) "Piracy Risk" then
    ["Follow BMP5 guidelines for piracy prevention";
     "Increase watch vigilance in high-risk areas";
     "Consider naval escort if available"]
  else if String.eqb (App.risk_type r) "Seasonal Weather" then
    ["Plan flexible departure window";
     "Increase fuel reserves for weather delays";
     "Monitor tropical weather forecasts"]
  else if String.eqb (App.risk_type r) "Port Congestion" then
    ["Confirm berth availability before arrival";
     "Plan for potential anchor waiting time"]
  else [].

(** The ports whose latitude is within 0.1 degree of a port of
    [busy_ports]: the four busy ports and their two neighbours. *)
Definition congested_by_latitude : list string :=
  ["Singapore"; "Shanghai"; "Rotterdam"; "Los Angeles"; "Long Beach"; "Felixstowe"].

End Reading2.

Module MoreExamples.

(** A plan request whose departure date is not an ISO date. *)
Definition undated_request : App.RoutePlanRequest :=
  {| App.origin := "Singapore";
     App.destination := "Rotterdam";
     App.ship_type := "container";
     App.deadweight := 50000;
     App.bunker_on_board := 500;
     App.cargo_value := 2500000;
     App.departure_date := None;
     App.weather_optimized := true |}.

(** A plan request from a port to itself. *)
Definition singapore_singapore : App.RoutePlanRequest :=
  {| App.origin := "Singapore";
     App.destination := "Singapore";
     App.ship_type := "bulk";
     App.deadweight := 50000;
     App.bunker_on_board := 500;
     App.cargo_value := 2500000;
     App.departure_date := Some Examples.first_of_september;
     App.weather_optimized := false |}.

Definition bulk : App.ShipSpec :=
  App.Build_ShipSpec "Bulk Carrier" 180 14 7.8 (10000, 400000) 0.9.

End MoreExamples.

Module VoyageExamples.

(** A two-waypoint voyage, Singapore to Rotterdam, with the defaults of the
    endpoint. *)
Definition singapore_rotterdam_voyage : Simu.SimulationRequest :=
  {| Simu.waypoints := [(1.3521, 103.8198); (51.9225, 4.4792)];
     Simu.startTime := Simu.Instant Examples.start_2025_09_21;
     Simu.stw := 14;
     Simu.costs := Examples.default_costs;
     Simu.laycan_end := Simu.Instant Examples.end_2025_09_30;
     Simu.speedAdjustments := [];
     Simu.shipType := "container" |}.

(** The same voyage with no laycan in the request. *)
Definition voyage_without_laycan : Simu.SimulationRequest :=
  {| Simu.waypoints := [(1.3521, 103.8198); (51.9225, 4.4792)];
     Simu.startTime := Simu.Instant Examples.start_2025_09_21;
     Simu.stw := 14;
     Simu.costs := Examples.default_costs;
     Simu.laycan_end := Simu.Absent;
     Simu.speedAdjustments := [];
     Simu.shipType := "container" |}.

(** Two adjustments for leg 0 and one without a new speed for leg 1. *)
Definition adjustments : list Simu.SpeedAdjustment :=
  [ {| Simu.legIndex := Some 0%Z; Simu.newStw := Some 12 |};
    {| Simu.legIndex := Some 0%Z; Simu.newStw := Some 16 |};
    {| Simu.legIndex := Some 1%Z; Simu.newStw := None |} ].

(** The request body [{}] after the defaults of lines 58-66: no waypoints,
    the default start time, speed and ship type, and no laycan. *)
Definition empty_request : Simu.SimulationRequest :=
  {| Simu.waypoints := [];
     Simu.startTime := Simu.Instant Examples.start_2025_09_21;
     Simu.stw := 14;
     Simu.costs := Examples.default_costs;
     Simu.laycan_end := Simu.Absent;
     Simu.speedAdjustments := [];
     Simu.shipType := "container" |}.

(** A single waypoint, and again no laycan. *)
Definition single_waypoint_without_laycan : Simu.SimulationRequest :=
  {| Simu.waypoints := [(1.3521, 103.8198)];
     Simu.startTime := Simu.Instant Examples.start_2025_09_21;
     Simu.stw := 14;
     Simu.costs := Examples.default_costs;
     Simu.laycan_end := Simu.Absent;
     Simu.speedAdjustments := [];
     Simu.shipType := "container" |}.

End VoyageExamples.

Module SeaScale.

(** The wave heights, in metres, at which [get_sea_state] changes its
    answer, and the nine answers in order. *)
Definition thresholds : list R := [0.1; 0.5; 1.25; 2.5; 4; 6; 9; 14].

Definition states : list string :=
  ["Calm (glassy)"; "Calm (rippled)"; "Smooth"; "Slight"; "Moderate"; "Rough";
   "Very rough"; "High"; "Very high"].

(** How many thresholds a wave height has reached. *)
Definition reached (wave_height : R) : nat :=
  length (filter (fun t => Rleb t wave_height) thresholds).

End SeaScale.

Module WeatherExamples.

(** A calm, clear snapshot. *)
Definition clear_day : Weather.Snapshot :=
  {| Weather.temp := 28; Weather.humidity := 70; Weather.pressure := 1012;
     Weather.wind_speed := 3; Weather.wind_deg := 90; Weather.visibility := 10000;
     Weather.cloud_cover := 20; Weather.weather_description := "few clouds" |}.

End WeatherExamples.

Module ForecastReading.

Import Forecast.

(** What holds of a day [d] at position [k] of the answer: its label is
    "Day k+1", its sea state is that of its wave height, and if it is an
    estimated day it follows the day before it by one calendar day and lies
    within the clamps of lines 876-878. *)
Definition day_ok (days : list Day) (k : nat) (d : Day) : Prop :=
  day_number d = (k + 1)%nat
  /\ day_sea_state d = Weather.get_sea_state (waves d)
  /\ (source d = "estimated" ->
      (-10 <= day_temp d <= 45)%Z /\ (5 <= day_wind d <= 35)%Z
      /\ 0.5 <= waves d <= 6
      /\ exists prev, nth_error days (k - 1) = Some prev
                      /\ (1 <= k)%nat /\ date d = (date prev + 1)%Z).

Definition days_ok (days : list Day) : Prop :=
  forall k d, nth_error days k = Some d -> day_ok days k d.

End ForecastReading.

Module ForecastExamples.

(** Two upstream entries, the later day first: 2025-09-22 09:00 and
    2025-09-21 12:00 UTC. *)
Definition two_entries : list Forecast.Item :=
  [ {| Forecast.dt := 1758531600; Forecast.main_temp := Some 29;
       Forecast.wind := Some 6; Forecast.weather_main := "Clouds" |};
    {| Forecast.dt := 1758456000; Forecast.main_temp := Some 30;
       Forecast.wind := None; Forecast.weather_main := "Clear" |} ].

End ForecastExamples.

(** * Properties *)

Ltac rsolve := first [ lra | unfold Rabs; destruct (Rcase_abs _); lra ].

(** ** Numeric primitives *)

Section Numerics.

Lemma Rltb_true (x y : R) : Rltb x y = true <-> x < y.
Proof. unfold Rltb; destruct (Rlt_dec x y); split; intros; try easy; lra. Qed.

Lemma Rltb_false (x y : R) : Rltb x y = false <-> y <= x.
Proof. unfold Rltb; destruct (Rlt_dec x y); split; intros; try easy; lra. Qed.

Lemma Rleb_true (x y : R) : Rleb x y = true <-> x <= y.
Proof. unfold Rleb; destruct (Rle_dec x y); split; intros; try easy; lra. Qed.

Lemma Rleb_false (x y : R) : Rleb x y = false <-> y < x.
Proof. unfold Rleb; destruct (Rle_dec x y); split; intros; try easy; lra. Qed.

Lemma floor_bounds (x : R) : IZR (floor x) <= x < IZR (floor x) + 1.
Proof. unfold floor. destruct (base_Int_part x). lra. Qed.

Lemma floor_unique (x : R) (k : Z) : IZR k <= x < IZR k + 1 -> floor x = k.
Proof.
  intros H. unfold floor. symmetry. apply Int_part_spec. lra.
Qed.

Lemma floor_IZR (k : Z) : floor (IZR k) = k.
Proof. apply floor_unique. lra. Qed.

Lemma Rabs_le_inv (a b : R) : Rabs a <= b -> - b <= a <= b.
Proof. unfold Rabs. destruct (Rcase_abs a); lra. Qed.

(** [round] picks one of the two neighbouring integers. *)
Lemma round_cases (x : R) : round x = floor x \/ round x = (floor x + 1)%Z.
Proof.
  unfold round.
  destruct (Rlt_dec _ _); [now left|].
  destruct (Rlt_dec _ _); [now right|].
  destruct (Z.even _); [now left | now right].
Qed.

(** [round] errs by at most one half. *)
Lemma round_error (x : R) : Rabs (IZR (round x) - x) <= 1 / 2.
Proof.
  pose proof (floor_bounds x) as Hb.
  unfold round.
  destruct (Rlt_dec (x - IZR (floor x)) (1 / 2)).
  - apply Rabs_le. lra.
  - destruct (Rlt_dec (1 / 2) (x - IZR (floor x))).
    + rewrite plus_IZR. apply Rabs_le. lra.
    + destruct (Z.even (floor x)).
      * apply Rabs_le. lra.
      * rewrite plus_IZR. apply Rabs_le. lra.
Qed.

(** Away from a tie, [round] is the nearest integer. *)
Lemma round_near (x : R) (k : Z) :
  IZR k - 1 / 2 < x < IZR k + 1 / 2 -> round x = k.
Proof.
  intros H.
  pose proof (round_error x) as He.
  apply Rabs_le_inv in He.
  assert (Hlo : (k - 1 < round x)%Z)
    by (apply lt_IZR; rewrite minus_IZR; lra).
  assert (Hhi : (round x < k + 1)%Z)
    by (apply lt_IZR; rewrite plus_IZR; lra).
  lia.
Qed.

Lemma round_IZR (k : Z) : round (IZR k) = k.
Proof. apply round_near. lra. Qed.

Lemma round_nonneg (x : R) : 0 <= x -> (0 <= round x)%Z.
Proof.
  intros Hx.
  pose proof (round_error x) as He.
  apply Rabs_le_inv in He.
  apply le_IZR.
  destruct (Z_lt_le_dec (round x) 0) as [Hlt | Hle].
  - assert (IZR (round x) <= -1) by (apply IZR_le; lia). lra.
  - now apply IZR_le.
Qed.

Lemma round2_0 : round2 0 = 0.
Proof.
  unfold round2. replace (0 * 100) with (IZR 0) by lra.
  rewrite round_IZR. lra.
Qed.

End Numerics.

(** ** GeoMath: the two great-circle distance functions *)

Section GeoMath.

Lemma sin_half_sqr (x : R) : sin (x / 2) ^ 2 = (1 - cos x) / 2.
Proof.
  pose proof (cos_2a_sin (x / 2)) as H.
  replace (2 * (x / 2)) with x in H by lra.
  rewrite H. simpl. lra.
Qed.

Lemma cos_product (u v : R) : cos u * cos v = (cos (v - u) + cos (v + u)) / 2.
Proof. rewrite cos_minus, cos_plus. lra. Qed.

(** The haversine term is a number of [0, 1] for all arguments, so neither
    square root nor the arc sine is ever applied outside its domain. *)
Lemma haversine_a_range (lat1 lng1 lat2 lng2 : R) :
  0 <= haversine_a lat1 lng1 lat2 lng2 <= 1.
Proof.
  unfold haversine_a.
  rewrite (sin_half_sqr (lat2 - lat1)), (sin_half_sqr (lng2 - lng1)).
  rewrite (cos_product lat1 lat2).
  pose proof (COS_bound (lat2 - lat1)) as H1.
  pose proof (COS_bound (lat2 + lat1)) as H2.
  pose proof (COS_bound (lng2 - lng1)) as H3.
  set (c1 := cos (lat2 - lat1)) in *.
  set (c2 := cos (lat2 + lat1)) in *.
  set (c3 := cos (lng2 - lng1)) in *.
  split; nra.
Qed.

Lemma haversine_a_sym (lat1 lng1 lat2 lng2 : R) :
  haversine_a lat1 lng1 lat2 lng2 = haversine_a lat2 lng2 lat1 lng1.
Proof.
  unfold haversine_a.
  rewrite !sin_half_sqr.
  replace (lat1 - lat2) with (- (lat2 - lat1)) by lra.
  replace (lng1 - lng2) with (- (lng2 - lng1)) by lra.
  rewrite !cos_neg. lra.
Qed.

Lemma haversine_a_same (lat1 lng1 : R) : haversine_a lat1 lng1 lat1 lng1 = 0.
Proof.
  unfold haversine_a.
  replace ((lat1 - lat1) / 2) with 0 by lra.
  replace ((lng1 - lng1) / 2) with 0 by lra.
  rewrite sin_0. simpl. lra.
Qed.

Lemma py_sqrt_total (x : R) : 0 <= x -> Py.sqrt x = Return (R_sqrt.sqrt x).
Proof. intros H. unfold Py.sqrt. destruct (Rlt_dec x 0); [lra | reflexivity]. Qed.

Lemma py_asin_total (x : R) : -1 <= x <= 1 -> Py.asin x = Return (Ratan.asin x).
Proof.
  intros H. unfold Py.asin.
  destruct (Rlt_dec x (-1)); [lra|].
  destruct (Rlt_dec 1 x); [lra | reflexivity].
Qed.

Lemma sqrt_unit (x : R) : 0 <= x <= 1 -> 0 <= R_sqrt.sqrt x <= 1.
Proof.
  intros [H0 H1]. split.
  - apply sqrt_pos.
  - rewrite <- sqrt_1. now apply sqrt_le_1_alt.
Qed.

(** [calculate_great_circle_distance] in closed form. *)
Lemma great_circle_value (lat1 lng1 lat2 lng2 : R) :
  App.calculate_great_circle_distance lat1 lng1 lat2 lng2 =
  Return (3440.065 *
          (2 * Ratan.asin (R_sqrt.sqrt
             (haversine_a (radians lat1) (radians lng1) (radians lat2) (radians lng2))))).
Proof.
  unfold App.calculate_great_circle_distance.
  pose proof (haversine_a_range (radians lat1) (radians lng1) (radians lat2) (radians lng2)) as Ha.
  rewrite py_sqrt_total by lra. simpl.
  rewrite py_asin_total; [reflexivity|].
  pose proof (sqrt_unit _ Ha). lra.
Qed.

(** [calculate_distance] in closed form. *)
Lemma distance_value (lat1 lon1 lat2 lon2 : R) :
  Simu.calculate_distance lat1 lon1 lat2 lon2 =
  Return (3440.065 *
          (2 * atan2
             (R_sqrt.sqrt
                (haversine_a (radians lat1) (radians lon1) (radians lat2) (radians lon2)))
             (R_sqrt.sqrt
                (1 - haversine_a (radians lat1) (radians lon1) (radians lat2) (radians lon2))))).
Proof.
  unfold Simu.calculate_distance.
  pose proof (haversine_a_range (radians lat1) (radians lon1) (radians lat2) (radians lon2)) as Ha.
  rewrite py_sqrt_total by lra. simpl.
  rewrite py_sqrt_total by lra. reflexivity.
Qed.

Lemma atan2_nonneg (y x : R) : 0 <= y -> 0 <= x -> 0 <= atan2 y x.
Proof.
  intros Hy Hx. unfold atan2.
  destruct (Rlt_dec 0 x) as [Hpos | Hnpos].
  - destruct (Req_dec y 0) as [-> | Hy0].
    + unfold Rdiv. rewrite Rmult_0_l, atan_0. lra.
    + rewrite <- atan_0. left. apply atan_increasing.
      apply Rdiv_lt_0_compat; lra.
  - destruct (Rlt_dec x 0); [lra|].
    destruct (Rlt_dec 0 y).
    + pose proof PI_RGT_0. lra.
    + destruct (Rlt_dec y 0); lra.
Qed.

Lemma atan2_0_1 : atan2 0 1 = 0.
Proof.
  unfold atan2. destruct (Rlt_dec 0 1); [|lra].
  unfold Rdiv. rewrite Rmult_0_l. apply atan_0.
Qed.

(** Every simulated leg has a distance, and it is not negative. *)
Lemma calculate_distance_nonneg (lat1 lon1 lat2 lon2 : R) :
  exists d, Simu.calculate_distance lat1 lon1 lat2 lon2 = Return d /\ 0 <= d.
Proof.
  rewrite distance_value. eexists. split; [reflexivity|].
  pose proof (haversine_a_range (radians lat1) (radians lon1) (radians lat2) (radians lon2)) as Ha.
  assert (0 <= atan2 (R_sqrt.sqrt (haversine_a (radians lat1) (radians lon1)
                                      (radians lat2) (radians lon2)))
                     (R_sqrt.sqrt (1 - haversine_a (radians lat1) (radians lon1)
                                      (radians lat2) (radians lon2))))
    by (apply atan2_nonneg; apply sqrt_pos).
  lra.
Qed.

Lemma calculate_distance_same (lat1 lon1 : R) :
  Simu.calculate_distance lat1 lon1 lat1 lon1 = Return 0.
Proof.
  rewrite distance_value, haversine_a_same.
  rewrite Rminus_0_r, sqrt_0, sqrt_1, atan2_0_1.
  f_equal. lra.
Qed.

(** The distance laws in exact arithmetic.  For all coordinates, in degrees
    and over the reals: the distance from a point to itself is 0, the
    distance is symmetric, and both distance functions return the Earth
    radius 3440.065 nm times the central angle of the haversine formula.
    The first two laws carry over to the floating-point program; that the
    function always returns does not, for [Simu.calculate_distance]: see
    [distance_of_term_domain]. *)
Theorem distance_laws (lat1 lng1 lat2 lng2 : R) :
  (App.calculate_great_circle_distance lat1 lng1 lat1 lng1 = Return 0
   /\ Simu.calculate_distance lat1 lng1 lat1 lng1 = Return 0)
  /\ (App.calculate_great_circle_distance lat1 lng1 lat2 lng2
      = App.calculate_great_circle_distance lat2 lng2 lat1 lng1
      /\ Simu.calculate_distance lat1 lng1 lat2 lng2
         = Simu.calculate_distance lat2 lng2 lat1 lng1)
  /\ (let a := haversine_a (radians lat1) (radians lng1) (radians lat2) (radians lng2) in
      0 <= a <= 1
      /\ App.calculate_great_circle_distance lat1 lng1 lat2 lng2
         = Return (3440.065 * (2 * Ratan.asin (R_sqrt.sqrt a)))
      /\ Simu.calculate_distance lat1 lng1 lat2 lng2
         = Return (3440.065 * (2 * atan2 (R_sqrt.sqrt a) (R_sqrt.sqrt (1 - a))))).
Proof.
  repeat split.
  - rewrite great_circle_value, haversine_a_same, sqrt_0, asin_0. f_equal. lra.
  - apply calculate_distance_same.
  - rewrite !great_circle_value. now rewrite haversine_a_sym.
  - rewrite !distance_value. now rewrite haversine_a_sym.
  - apply haversine_a_range.
  - apply haversine_a_range.
  - apply great_circle_value.
  - apply distance_value.
Qed.

(** The guard [calculate_distance] lacks.  From a haversine term in [[0, 1]]
    lines 46-47 return; from a term above 1 they raise the math domain error
    of [math.sqrt(1 - a)].  Exact arithmetic never produces such a term, IEEE
    doubles do: for (-12, -54.75) and (12, 125.25) line 45 yields
    [1.0000000000000002], that is [1 + 2^-52]. *)
Lemma distance_of_term_domain (a : R) :
  (0 <= a <= 1 -> exists d, Simu.distance_of_term a = Return d /\ 0 <= d)
  /\ (1 < a -> Simu.distance_of_term a = Raise ValueError).
Proof.
  unfold Simu.distance_of_term. split.
  - intros Ha. rewrite py_sqrt_total by lra. cbn [bind].
    rewrite py_sqrt_total by lra. cbn [bind].
    eexists. split; [reflexivity|].
    assert (0 <= atan2 (R_sqrt.sqrt a) (R_sqrt.sqrt (1 - a)))
      by (apply atan2_nonneg; apply sqrt_pos).
    lra.
  - intros Ha. rewrite py_sqrt_total by lra. cbn [bind].
    unfold Py.sqrt. destruct (Rlt_dec (1 - a) 0); [reflexivity | lra].
Qed.

(** C10 (the defect).  [calculate_distance] hands the haversine term of line
    45 unguarded to lines 46-47, and these raise the math domain error at the
    term that IEEE doubles give for the points (-12, -54.75) and
    (12, 125.25), [1.0000000000000002]: the program has no distance for that
    pair, where the claim promises one for every pair. *)
Theorem near_antipodal_distance_raises :
  (forall lat1 lon1 lat2 lon2 : R,
     Simu.calculate_distance lat1 lon1 lat2 lon2
     = Simu.distance_of_term
         (haversine_a (radians lat1) (radians lon1) (radians lat2) (radians lon2)))
  /\ Simu.distance_of_term (1 + / 2 ^ 52) = Raise ValueError.
Proof.
  split; [reflexivity|].
  apply distance_of_term_domain.
  assert (0 < / 2 ^ 52) by (apply Rinv_0_lt_compat, pow_lt; lra).
  lra.
Qed.

End GeoMath.

(** ** Risk assessor *)

Section RiskAssessor.

Import App.

Variables origin_coords dest_coords : Port.

Lemma piracy_step_score (acc : list Risk * Z) (zone : string * PiracyZone) :
  (snd acc <= snd (piracy_step origin_coords dest_coords acc zone))%Z.
Proof.
  destruct acc as [risks score], zone as [zone_name zone_data]. simpl.
  destruct (_ || _); simpl; [|lia].
  destruct (String.eqb _ _); lia.
Qed.

Lemma piracy_loop_score (zones : list (string * PiracyZone)) (acc : list Risk * Z) :
  (snd acc <= snd (piracy_loop zones origin_coords dest_coords acc))%Z.
Proof.
  revert acc. induction zones as [|zone zones IH]; intros acc; simpl; [lia|].
  unfold piracy_loop in *. simpl.
  pose proof (piracy_step_score acc zone).
  specialize (IH (piracy_step origin_coords dest_coords acc zone)). lia.
Qed.

(** A HIGH zone holding an endpoint contributes its 35 points, whatever the
    other zones add. *)
Lemma piracy_loop_high (zones : list (string * PiracyZone)) (acc : list Risk * Z)
    (zone_name : string) (zone_data : PiracyZone) :
  In (zone_name, zone_data) zones ->
  risk_level zone_data = "HIGH" ->
  is_point_in_zone (lat origin_coords) (lng origin_coords) (bounds zone_data) = true
  \/ is_point_in_zone (lat dest_coords) (lng dest_coords) (bounds zone_data) = true ->
  (snd acc + 35 <= snd (piracy_loop zones origin_coords dest_coords acc))%Z.
Proof.
  intros Hin Hhigh Hpt. revert acc.
  induction zones as [|zone zones IH]; intros acc; [contradiction|].
  unfold piracy_loop in *. simpl.
  destruct Hin as [-> | Hin].
  - pose proof (piracy_loop_score zones
                  (piracy_step origin_coords dest_coords acc (zone_name, zone_data))) as Hmono.
    unfold piracy_loop in Hmono.
    assert (Hstep : snd (piracy_step origin_coords dest_coords acc (zone_name, zone_data))
                    = (snd acc + 35)%Z).
    { destruct acc as [risks score]. simpl.
      replace (_ || _) with true
        by (symmetry; apply orb_true_iff; exact Hpt).
      rewrite Hhigh. reflexivity. }
    lia.
  - specialize (IH Hin (piracy_step origin_coords dest_coords acc zone)).
    pose proof (piracy_step_score acc zone). lia.
Qed.

End RiskAssessor.

Section RiskVerdict.

Import App.

(** The verdict and the surfaced score of any successful assessment, from the
    score accumulated by the four rules. *)
Lemma assess_route_risks_in_spec (zones : list (string * PiracyZone))
    (origin_coords dest_coords : Port) (d : date) :
  exists ra score,
    assess_route_risks_in zones origin_coords dest_coords (Some d) = Return ra
    /\ (snd (piracy_loop zones origin_coords dest_coords ([], 0%Z)) <= score)%Z
    /\ risk_score ra = Z.min score 100
    /\ overall_risk ra = (if (50 <=? score)%Z then "HIGH"
                          else if (25 <=? score)%Z then "MEDIUM" else "LOW").
Proof.
  unfold assess_route_risks_in.
  destruct (piracy_loop zones origin_coords dest_coords ([], 0%Z)) as [risks score].
  unfold fromisoformat, bind.
  set (season := existsb (Z.eqb (month d)) [6; 7; 8; 9; 10]%Z).
  set (spread := Rltb 40 (Rabs (lat origin_coords - lat dest_coords))).
  set (busy := mem _ _ || mem _ _).
  destruct season, spread, busy; cbv beta iota zeta;
    eexists; eexists; (split; [reflexivity|]); cbn [risk_score overall_risk];
    (split; [|split; reflexivity]); cbn [snd]; lia.
Qed.

(** C1 (as the code has it).  When an endpoint lies inside the bounds of a
    piracy zone of risk level HIGH, the assessment succeeds with a surfaced
    score of at least 35 and a verdict that is MEDIUM or HIGH, never LOW; the
    verdict is HIGH exactly when the surfaced score reaches 50. *)
Theorem high_piracy_zone_risk (origin_coords dest_coords : Port) (d : date)
    (zone_name : string) (zone_data : PiracyZone) :
  In (zone_name, zone_data) PIRACY_ZONES ->
  risk_level zone_data = "HIGH" ->
  is_point_in_zone (lat origin_coords) (lng origin_coords) (bounds zone_data) = true
  \/ is_point_in_zone (lat dest_coords) (lng dest_coords) (bounds zone_data) = true ->
  exists ra,
    assess_route_risks origin_coords dest_coords (Some d) = Return ra
    /\ (35 <= risk_score ra)%Z
    /\ (overall_risk ra = "MEDIUM" \/ overall_risk ra = "HIGH")
    /\ (overall_risk ra = "HIGH" <-> (50 <= risk_score ra)%Z).
Proof.
  intros Hin Hhigh Hpt.
  destruct (assess_route_risks_in_spec PIRACY_ZONES origin_coords dest_coords d)
    as (ra & score & Hra & Hscore & Hsurf & Hverdict).
  pose proof (piracy_loop_high origin_coords dest_coords PIRACY_ZONES ([], 0%Z)
                zone_name zone_data Hin Hhigh Hpt) as H35.
  cbn [snd] in H35.
  exists ra. split; [exact Hra|].
  rewrite Hsurf, Hverdict.
  destruct (50 <=? score)%Z eqn:H50; [|destruct (25 <=? score)%Z eqn:H25].
  - apply Z.leb_le in H50. repeat split; try lia; auto.
  - apply Z.leb_gt in H50. apply Z.leb_le in H25.
    repeat split; try lia; auto; try discriminate.
  - apply Z.leb_gt in H50. apply Z.leb_gt in H25. lia.
Qed.

End RiskVerdict.

(** Evaluation of the comparisons of the code on numerals. *)
Ltac decide_cmp :=
  repeat match goal with
    | |- context [Rleb ?a ?b] =>
        first [ rewrite (proj2 (Rleb_true a b)) by rsolve
              | rewrite (proj2 (Rleb_false a b)) by rsolve ]
    | |- context [Rltb ?a ?b] =>
        first [ rewrite (proj2 (Rltb_true a b)) by rsolve
              | rewrite (proj2 (Rltb_false a b)) by rsolve ]
    end.

Ltac run :=
  cbn -[Rleb Rltb Rabs IZR Rdiv Rmult Rplus Rminus Ropp Rinv round ceil].

Ltac evaluate :=
  repeat (progress (run; try unfold App.is_point_in_zone; decide_cmp)).

Section RiskExamples.

Import App Examples.

Lemma gulf_of_aden_assessment :
  exists ra,
    assess_route_risks gulf_of_aden_position mumbai (Some mid_january) = Return ra
    /\ risk_score ra = 35%Z
    /\ overall_risk ra = "MEDIUM".
Proof.
  unfold assess_route_risks, assess_route_risks_in, piracy_loop, PIRACY_ZONES,
    port_name_near, MAJOR_PORTS, gulf_of_aden_position, mumbai, mid_january.
  evaluate.
  eexists. split; [reflexivity|]. split; reflexivity.
Qed.

(** C1, as stated, fails: a route from a position inside the Gulf of Aden
    zone (risk level HIGH) to Mumbai in January scores exactly 35, and 35 is
    below the threshold of 50: the verdict is MEDIUM, not HIGH. *)
Lemma high_piracy_zone_verdict_medium :
  In ("Gulf of Aden", gulf_of_aden) PIRACY_ZONES
  /\ risk_level gulf_of_aden = "HIGH"
  /\ is_point_in_zone (lat gulf_of_aden_position) (lng gulf_of_aden_position)
       (bounds gulf_of_aden) = true
  /\ exists ra,
      assess_route_risks gulf_of_aden_position mumbai (Some mid_january) = Return ra
      /\ risk_score ra = 35%Z
      /\ overall_risk ra = "MEDIUM"
      /\ overall_risk ra <> "HIGH".
Proof.
  split; [left; reflexivity|]. split; [reflexivity|].
  split; [unfold gulf_of_aden_position, gulf_of_aden; evaluate; reflexivity|].
  destruct gulf_of_aden_assessment as (ra & Hra & Hscore & Hrisk).
  exists ra. repeat split; auto. rewrite Hrisk. discriminate.
Qed.

Lemma high_piracy_zone_risk_witness :
  exists ra,
    assess_route_risks gulf_of_aden_position mumbai (Some mid_january) = Return ra
    /\ (35 <= risk_score ra)%Z
    /\ (overall_risk ra = "MEDIUM" \/ overall_risk ra = "HIGH")
    /\ (overall_risk ra = "HIGH" <-> (50 <= risk_score ra)%Z).
Proof.
  apply (high_piracy_zone_risk gulf_of_aden_position mumbai mid_january
           "Gulf of Aden" gulf_of_aden).
  - left; reflexivity.
  - reflexivity.
  - left. unfold gulf_of_aden_position, gulf_of_aden. evaluate. reflexivity.
Defined.

End RiskExamples.

(** ** Route planner *)

Section RoutePlanner.

Import App.

Lemma weather_factor_of_returns (optimized : bool) (d : date) :
  exists wf, weather_factor_of optimized (Some d) = Return wf.
Proof.
  unfold weather_factor_of, fromisoformat, bind.
  destruct optimized; [eauto|].
  destruct (existsb _ _); [eauto|].
  destruct (existsb _ _); eauto.
Qed.

(** A plan whose three references resolve and whose departure date parses is
    computed to the end; its cost block holds the roundings below. *)
Lemma route_plan_costs (data : RoutePlanRequest) (origin_coords dest_coords : Port)
    (ship_spec : ShipSpec) (d : date) :
  departure_date data = Some d ->
  exists body n_days wf,
    route_plan data origin_coords dest_coords ship_spec = Return body
    /\ weather_factor_of (weather_optimized data) (Some d) = Return wf
    /\ voyage_days (route_summary body) = n_days
    /\ weather_factor (fuel_analysis body) = wf
    /\ let fuel :=
         IZR n_days
         * (fuel_rate_tons_per_day ship_spec * fuel_efficiency_factor ship_spec) * wf
         * ((bunker_price origin_coords + bunker_price dest_coords) / 2) in
       let port :=
         deadweight data * port_cost_per_ton origin_coords + 25000
         + (deadweight data * port_cost_per_ton dest_coords + 25000) in
       let canal := canal_of (origin data ++ "-" ++ destination data) in
       let insurance := cargo_value data * 0.001 in
       let compliance := compliance_costs (calculate_eca_compliance origin_coords dest_coords) in
       cost_breakdown body =
       {| fuel_cost := round fuel;
          port_cost := round port;
          canal_cost := fst canal;
          canal_name := snd canal;
          insurance_cost := round insurance;
          compliance_cost := compliance;
          other_costs := 50000%Z;
          total_cost := round (fuel + port + IZR (fst canal) + insurance
                               + IZR 50000 + IZR compliance) |}.
Proof.
  intros Hdate.
  unfold route_plan.
  rewrite great_circle_value, Hdate. unfold bind at 1.
  destruct (weather_factor_of_returns (weather_optimized data) d) as [wf Hwf].
  rewrite Hwf. unfold bind at 1.
  destruct (canal_of _) as [canal_cost canal_name].
  destruct (assess_route_risks_in_spec PIRACY_ZONES origin_coords dest_coords d)
    as (ra & score & Hra & _).
  unfold assess_route_risks. rewrite Hra. unfold bind.
  eexists. eexists. exists wf.
  split; [reflexivity|]. split; [reflexivity|].
  split; [reflexivity|]. split; reflexivity.
Qed.

Lemma route_plan_needs_date (data : RoutePlanRequest) (origin_coords dest_coords : Port)
    (ship_spec : ShipSpec) (body : RoutePlanResult) :
  route_plan data origin_coords dest_coords ship_spec = Return body ->
  exists d, departure_date data = Some d.
Proof.
  destruct (departure_date data) as [d|] eqn:Hdate; [eauto|].
  unfold route_plan. rewrite great_circle_value, Hdate. unfold bind at 1.
  destruct (weather_factor_of _ _); [|discriminate].
  unfold bind at 1.
  destruct (canal_of _).
  unfold assess_route_risks, assess_route_risks_in.
  destruct (piracy_loop _ _ _ _).
  discriminate.
Qed.

(** What a 200 response of the endpoint stands for. *)
Lemma maritime_route_plan_ok (data : RoutePlanRequest) (body : RoutePlanResult) :
  maritime_route_plan data = Ok200 body ->
  exists origin_coords dest_coords ship_spec d,
    lookup (origin data) MAJOR_PORTS = Some origin_coords
    /\ lookup (destination data) MAJOR_PORTS = Some dest_coords
    /\ lookup (ship_type data) SHIP_TYPES = Some ship_spec
    /\ departure_date data = Some d
    /\ route_plan data origin_coords dest_coords ship_spec = Return body.
Proof.
  unfold maritime_route_plan.
  destruct (lookup (origin data) MAJOR_PORTS) as [o|]; [|discriminate].
  destruct (lookup (destination data) MAJOR_PORTS) as [t|]; [|discriminate].
  destruct (lookup (ship_type data) SHIP_TYPES) as [ship|]; [|discriminate].
  destruct (route_plan data o t ship) as [b|e] eqn:Hplan; [|discriminate].
  intros H. injection H as ->.
  destruct (route_plan_needs_date _ _ _ _ _ Hplan) as [d Hd].
  exists o, t, ship, d. auto.
Qed.

Lemma round_sum_bound (f p i : R) (c : Z) :
  (Z.abs (round (f + p + i + IZR c) - (round f + round p + round i + c)) <= 2)%Z.
Proof.
  pose proof (Rabs_le_inv _ _ (round_error f)) as Hf.
  pose proof (Rabs_le_inv _ _ (round_error p)) as Hp.
  pose proof (Rabs_le_inv _ _ (round_error i)) as Hi.
  pose proof (Rabs_le_inv _ _ (round_error (f + p + i + IZR c))) as Ht.
  apply Z.abs_le. split; apply le_IZR;
    repeat (rewrite ?minus_IZR, ?plus_IZR, ?opp_IZR); lra.
Qed.

(** C2 (as the code has it).  For every valid request the plan is returned;
    its [fuel_cost], [port_cost] and [insurance_cost] are the unrounded
    components each rounded to an integer, [total_cost] is the rounding of
    the exact sum of the six unrounded components, and so it stays within 2
    of the sum of the six surfaced fields. *)
Theorem total_cost_rounds_exact_sum (data : RoutePlanRequest)
    (origin_coords dest_coords : Port) (ship_spec : ShipSpec) (d : date) :
  lookup (origin data) MAJOR_PORTS = Some origin_coords ->
  lookup (destination data) MAJOR_PORTS = Some dest_coords ->
  lookup (ship_type data) SHIP_TYPES = Some ship_spec ->
  departure_date data = Some d ->
  exists body,
    maritime_route_plan data = Ok200 body
    /\ let cb := cost_breakdown body in
       let fuel :=
         IZR (voyage_days (route_summary body))
         * (fuel_rate_tons_per_day ship_spec * fuel_efficiency_factor ship_spec)
         * weather_factor (fuel_analysis body)
         * ((bunker_price origin_coords + bunker_price dest_coords) / 2) in
       let port :=
         deadweight data * port_cost_per_ton origin_coords + 25000
         + (deadweight data * port_cost_per_ton dest_coords + 25000) in
       let insurance := cargo_value data * 0.001 in
       fuel_cost cb = round fuel
       /\ port_cost cb = round port
       /\ insurance_cost cb = round insurance
       /\ other_costs cb = 50000%Z
       /\ total_cost cb
          = round (fuel + port + IZR (canal_cost cb) + insurance
                   + IZR (compliance_cost cb) + IZR (other_costs cb))
       /\ (Z.abs (total_cost cb
                  - (fuel_cost cb + port_cost cb + canal_cost cb + insurance_cost cb
                     + compliance_cost cb + other_costs cb)) <= 2)%Z.
Proof.
  intros Ho Hd Hs Hdate.
  destruct (route_plan_costs data origin_coords dest_coords ship_spec d Hdate)
    as (body & days & wf & Hplan & _ & Hdays & Hwf & Hcb).
  exists body. split.
  - unfold maritime_route_plan. now rewrite Ho, Hd, Hs, Hplan.
  - cbv zeta in Hcb |- *. rewrite Hdays, Hwf, Hcb.
    cbn [fuel_cost port_cost insurance_cost other_costs total_cost canal_cost
         compliance_cost].
    repeat split.
    + f_equal. lra.
    + match goal with
      | |- (Z.abs (round ?t - (round ?f + round ?p + ?c + round ?i + ?k + ?o)) <= 2)%Z =>
          pose proof (round_sum_bound f p i (c + k + o)) as Hb;
          replace t with (f + p + i + IZR (c + k + o))
            by (rewrite !plus_IZR; lra);
          replace (round f + round p + c + round i + k + o)%Z
            with (round f + round p + round i + (c + k + o))%Z by lia;
          exact Hb
      end.
Qed.

End RoutePlanner.

Section RoutePlannerExamples.

Import App Examples.

Lemma singapore_rotterdam_refs :
  lookup (origin singapore_rotterdam) MAJOR_PORTS = Some singapore
  /\ lookup (destination singapore_rotterdam) MAJOR_PORTS = Some rotterdam
  /\ lookup (ship_type singapore_rotterdam) SHIP_TYPES = Some container.
Proof. repeat split. Qed.

Lemma september_weather_factor :
  weather_factor_of false (Some first_of_september) = Return 1.10.
Proof. reflexivity. Qed.

Lemma singapore_rotterdam_compliance :
  compliance_costs (calculate_eca_compliance singapore rotterdam) = 15000%Z.
Proof.
  unfold calculate_eca_compliance, ECA_ZONES, singapore, rotterdam.
  evaluate. reflexivity.
Qed.

(** The cost block of the Singapore-Rotterdam plan, whatever the number of
    voyage days the distance gives. *)
Lemma singapore_rotterdam_costs :
  exists body n_days,
    maritime_route_plan singapore_rotterdam = Ok200 body
    /\ fuel_cost (cost_breakdown body) = (n_days * 182875)%Z
    /\ port_cost (cost_breakdown body) = 135002%Z
    /\ canal_cost (cost_breakdown body) = 0%Z
    /\ insurance_cost (cost_breakdown body) = 2501%Z
    /\ compliance_cost (cost_breakdown body) = 15000%Z
    /\ other_costs (cost_breakdown body) = 50000%Z
    /\ total_cost (cost_breakdown body) = (n_days * 182875 + 202502)%Z.
Proof.
  destruct (route_plan_costs singapore_rotterdam singapore rotterdam container
              first_of_september eq_refl)
    as (body & n_days & wf & Hplan & Hwf & _ & _ & Hcb).
  exists body, n_days. split.
  - unfold maritime_route_plan.
    destruct singapore_rotterdam_refs as (-> & -> & ->). now rewrite Hplan.
  - change (weather_optimized singapore_rotterdam) with false in Hwf.
    rewrite september_weather_factor in Hwf. injection Hwf as <-.
    cbv zeta in Hcb. rewrite Hcb.
    cbn [fuel_cost port_cost insurance_cost other_costs total_cost canal_cost
         compliance_cost].
    rewrite singapore_rotterdam_compliance.
    change (canal_of (origin singapore_rotterdam ++ "-" ++ destination singapore_rotterdam))
      with (0%Z, @None string).
    cbn [fst snd singapore_rotterdam singapore rotterdam container deadweight
         cargo_value fuel_rate_tons_per_day fuel_efficiency_factor bunker_price
         port_cost_per_ton].
    repeat split.
    + apply round_near. rewrite mult_IZR. lra.
    + apply round_near. lra.
    + apply round_near. lra.
    + apply round_near. rewrite plus_IZR, mult_IZR. lra.
Qed.

(** C2, as stated, fails: for Singapore to Rotterdam with a deadweight of
    50001 t and a cargo value of 2500600 the port cost 135001.7 surfaces as
    135002 and the insurance 2500.6 as 2501, while the total, rounded once,
    keeps the fraction 0.3 down: the six surfaced fields sum to one more than
    the surfaced [total_cost]. *)
Lemma total_cost_is_not_sum_of_fields :
  exists body,
    maritime_route_plan singapore_rotterdam = Ok200 body
    /\ let cb := cost_breakdown body in
       (fuel_cost cb + port_cost cb + canal_cost cb + insurance_cost cb
        + compliance_cost cb + other_costs cb = total_cost cb + 1)%Z
       /\ total_cost cb
          <> (fuel_cost cb + port_cost cb + canal_cost cb + insurance_cost cb
              + compliance_cost cb + other_costs cb)%Z.
Proof.
  destruct singapore_rotterdam_costs
    as (body & n & Hok & Hf & Hp & Hc & Hi & Hk & Ho & Ht).
  exists body. split; [exact Hok|].
  cbv zeta. rewrite Hf, Hp, Hc, Hi, Hk, Ho, Ht. split; lia.
Qed.

Lemma total_cost_rounds_exact_sum_witness :
  exists body,
    maritime_route_plan singapore_rotterdam = Ok200 body
    /\ (Z.abs (total_cost (cost_breakdown body)
               - (fuel_cost (cost_breakdown body) + port_cost (cost_breakdown body)
                  + canal_cost (cost_breakdown body) + insurance_cost (cost_breakdown body)
                  + compliance_cost (cost_breakdown body)
                  + other_costs (cost_breakdown body))) <= 2)%Z.
Proof.
  destruct (total_cost_rounds_exact_sum singapore_rotterdam singapore rotterdam container
              first_of_september eq_refl eq_refl eq_refl eq_refl)
    as (body & Hok & H).
  exists body. split; [exact Hok|]. apply H.
Defined.

End RoutePlannerExamples.

Section CanalCost.

Import App Examples.

Lemma canal_of_match (route_key : string) :
  canal_of route_key
  = if canal_match route_key then (222865%Z, Some "Suez Canal") else (0%Z, None).
Proof.
  unfold canal_of, canal_match.
  destruct (existsb _ _); [|reflexivity].
  destruct (existsb _ _); reflexivity.
Qed.

(** No pair of catalog names makes a route key on which the heuristic fires. *)
Lemma canal_match_catalog (o d : string) :
  In o (keys MAJOR_PORTS) -> In d (keys MAJOR_PORTS) ->
  canal_match (o ++ "-" ++ d) = false.
Proof.
  intros Ho Hd.
  assert (Hall : forallb (fun o => forallb (fun d => negb (canal_match (o ++ "-" ++ d)))
                                     (keys MAJOR_PORTS))
                         (keys MAJOR_PORTS) = true) by (vm_compute; reflexivity).
  rewrite forallb_forall in Hall. specialize (Hall o Ho).
  rewrite forallb_forall in Hall. specialize (Hall d Hd).
  now apply negb_true_iff in Hall.
Qed.

Lemma lookup_in_keys {V : Type} (k : string) (d : list (string * V)) (v : V) :
  lookup k d = Some v -> In k (keys d).
Proof.
  induction d as [|[k' v'] d IH]; simpl; [discriminate|].
  destruct (String.eqb k k') eqn:E.
  - apply String.eqb_eq in E. auto.
  - auto.
Qed.

(** C5.  The canal step yields the flat 222865 surcharge exactly when the
    corridor heuristic matches the route key, and 0 otherwise; the heuristic
    matches for no origin and destination of the port catalog; hence every
    route plan the endpoint returns has [canal_cost] 0 and no canal name. *)
Theorem canal_cost_zero_over_catalog (data : RoutePlanRequest) (body : RoutePlanResult) :
  maritime_route_plan data = Ok200 body ->
  let route_key := origin data ++ "-" ++ destination data in
  canal_cost (cost_breakdown body) = (if canal_match route_key then 222865 else 0)%Z
  /\ (forall o d, In o (keys MAJOR_PORTS) -> In d (keys MAJOR_PORTS) ->
                  canal_match (o ++ "-" ++ d) = false)
  /\ canal_match route_key = false
  /\ canal_cost (cost_breakdown body) = 0%Z
  /\ canal_name (cost_breakdown body) = None.
Proof.
  intros Hok. cbv zeta.
  destruct (maritime_route_plan_ok data body Hok)
    as (o & t & ship & d & Ho & Ht & Hs & Hdate & Hplan).
  destruct (route_plan_costs data o t ship d Hdate)
    as (body' & n & wf & Hplan' & _ & _ & _ & Hcb).
  rewrite Hplan in Hplan'. injection Hplan' as <-.
  cbv zeta in Hcb. rewrite Hcb.
  cbn [canal_cost canal_name].
  rewrite canal_of_match.
  assert (Hm : canal_match (origin data ++ "-" ++ destination data) = false)
    by (apply canal_match_catalog; eapply lookup_in_keys; eassumption).
  rewrite Hm. cbn [fst snd].
  repeat split; auto using canal_match_catalog.
Qed.

Lemma canal_cost_zero_over_catalog_witness :
  exists body,
    maritime_route_plan singapore_rotterdam = Ok200 body
    /\ canal_cost (cost_breakdown body) = 0%Z
    /\ canal_name (cost_breakdown body) = None.
Proof.
  destruct singapore_rotterdam_costs as (body & _ & Hok & _).
  exists body. split; [exact Hok|].
  split; apply (canal_cost_zero_over_catalog singapore_rotterdam body Hok).
Defined.

End CanalCost.

(** ** Voyage leg simulator *)

Section LegPhysics.

Import Simu.

Lemma speed_over_ground_floor (stw_effective current_effect : R) :
  1 <= speed_over_ground stw_effective current_effect
  /\ speed_over_ground stw_effective current_effect
     = Rmax 1 (stw_effective + current_effect).
Proof.
  unfold speed_over_ground, Rmax.
  destruct (Rlt_dec _ _); destruct (Rle_dec _ _); split; lra.
Qed.

Lemma leg_hours_of_finite (dist_nm sog : R) :
  1 <= sog -> leg_hours_of dist_nm sog = Fin (dist_nm / sog).
Proof.
  intros Hsog. unfold leg_hours_of. destruct (Rlt_dec 0 sog); [reflexivity | lra].
Qed.

(** One leg, in closed form: the loop body never raises. *)
Lemma leg_physics_spec (ship_spec : ShipSpec) (stw : R)
    (speed_adjustments : list SpeedAdjustment) (w : Weather) (i : nat)
    (from_wp to_wp : Waypoint) :
  exists p,
    leg_physics ship_spec stw speed_adjustments w i from_wp to_wp = Return p
    /\ calculate_distance (fst from_wp) (snd from_wp) (fst to_wp) (snd to_wp)
       = Return (ph_dist_nm p)
    /\ 0 <= ph_dist_nm p
    /\ ph_current_stw p = commanded_speed stw speed_adjustments i
    /\ ph_stw_effective p = ph_current_stw p + wind_effect w + wave_effect w
    /\ ph_sog p = speed_over_ground (ph_stw_effective p) (current_effect w)
    /\ ph_leg_hours p = ph_dist_nm p / ph_sog p
    /\ ph_fuel_consumption_mt p
       = (fuel_rate_tons_per_day ship_spec / 24) * ph_leg_hours p
         * (ph_current_stw p / avg_speed_knots ship_spec) ^ 3.
Proof.
  unfold leg_physics.
  destruct (calculate_distance_nonneg (fst from_wp) (snd from_wp) (fst to_wp) (snd to_wp))
    as (d & Hd & Hpos).
  rewrite Hd. unfold bind.
  rewrite leg_hours_of_finite by apply speed_over_ground_floor.
  eexists. split; [reflexivity|].
  cbn [ph_dist_nm ph_current_stw ph_stw_effective ph_sog ph_leg_hours ph_fuel_consumption_mt].
  repeat split; auto.
Qed.

Lemma leg_hours_sign (d sog : R) :
  0 <= d -> 1 <= sog -> 0 <= d / sog /\ (0 < d / sog <-> 0 < d).
Proof.
  intros Hd Hsog.
  assert (Hinv : 0 < / sog) by (apply Rinv_0_lt_compat; lra).
  unfold Rdiv. split; [|split; intros H]; nra.
Qed.

(** C3 (as the code has it).  For every leg, every value of the three draws
    and every commanded speed, the leg is computed, its speed over ground is
    the sum of commanded speed and draws floored at 1.0, its duration is the
    finite number [distance_nm / sog], never negative, and positive exactly
    when the two waypoints are a positive distance apart. *)
Theorem sog_floor_and_leg_hours (ship_spec : ShipSpec) (stw : R)
    (speed_adjustments : list SpeedAdjustment) (w : Weather) (i : nat)
    (from_wp to_wp : Waypoint) :
  exists p,
    leg_physics ship_spec stw speed_adjustments w i from_wp to_wp = Return p
    /\ ph_sog p
       = Rmax 1 (commanded_speed stw speed_adjustments i + wind_effect w + wave_effect w
                 + current_effect w)
    /\ 1 <= ph_sog p
    /\ leg_hours_of (ph_dist_nm p) (ph_sog p) = Fin (ph_leg_hours p)
    /\ ph_leg_hours p = ph_dist_nm p / ph_sog p
    /\ 0 <= ph_leg_hours p
    /\ (0 < ph_leg_hours p <-> 0 < ph_dist_nm p).
Proof.
  destruct (leg_physics_spec ship_spec stw speed_adjustments w i from_wp to_wp)
    as (p & Hp & _ & Hd & Hstw & Heff & Hsog & Hh & _).
  exists p. split; [exact Hp|].
  destruct (speed_over_ground_floor (ph_stw_effective p) (current_effect w)) as [H1 Hmax].
  rewrite <- Hsog in H1, Hmax.
  destruct (leg_hours_sign (ph_dist_nm p) (ph_sog p) Hd H1) as [Hnonneg Hpos].
  repeat split.
  - rewrite Hmax, Heff, Hstw. reflexivity.
  - exact H1.
  - rewrite Hh. now apply leg_hours_of_finite.
  - exact Hh.
  - rewrite Hh. exact Hnonneg.
  - rewrite Hh. apply Hpos.
  - rewrite Hh. apply Hpos.
Qed.

(** The cube law in exact arithmetic.  The fuel burnt on a leg is the hourly
    design consumption times the leg's hours (distance over speed over
    ground) times the cube of the commanded speed (the adjustment of the leg,
    if any, else [stw]) over the design speed; so of two legs of the same
    ship and the same duration, the one commanded at twice the speed burns 8
    times the fuel.  Over the reals the factor is exactly 8; in the program
    it is the quotient of two results of the platform's [pow], which C7's
    "exactly" depends on and real arithmetic cannot decide. *)
Lemma fuel_cube_law (ship_spec : ShipSpec)
    (stw1 stw2 : R) (adjs1 adjs2 : list SpeedAdjustment) (w1 w2 : Weather)
    (i1 i2 : nat) (from1 to1 from2 to2 : Waypoint) (p1 p2 : LegPhysics) :
  leg_physics ship_spec stw1 adjs1 w1 i1 from1 to1 = Return p1 ->
  leg_physics ship_spec stw2 adjs2 w2 i2 from2 to2 = Return p2 ->
  ph_leg_hours p2 = ph_leg_hours p1 ->
  commanded_speed stw2 adjs2 i2 = 2 * commanded_speed stw1 adjs1 i1 ->
  ph_leg_hours p1 = ph_dist_nm p1 / ph_sog p1
  /\ ph_fuel_consumption_mt p1
     = (fuel_rate_tons_per_day ship_spec / 24) * ph_leg_hours p1
       * (commanded_speed stw1 adjs1 i1 / avg_speed_knots ship_spec) ^ 3
  /\ ph_fuel_consumption_mt p2
     = (fuel_rate_tons_per_day ship_spec / 24) * ph_leg_hours p2
       * (commanded_speed stw2 adjs2 i2 / avg_speed_knots ship_spec) ^ 3
  /\ ph_fuel_consumption_mt p2 = 8 * ph_fuel_consumption_mt p1.
Proof.
  intros H1 H2 Hhours Hspeed.
  destruct (leg_physics_spec ship_spec stw1 adjs1 w1 i1 from1 to1)
    as (q1 & Hq1 & _ & _ & Hc1 & _ & _ & Hh1 & Hf1).
  destruct (leg_physics_spec ship_spec stw2 adjs2 w2 i2 from2 to2)
    as (q2 & Hq2 & _ & _ & Hc2 & _ & _ & _ & Hf2).
  rewrite H1 in Hq1. injection Hq1 as <-.
  rewrite H2 in Hq2. injection Hq2 as <-.
  rewrite Hc1 in Hf1. rewrite Hc2 in Hf2.
  split; [exact Hh1|]. split; [exact Hf1|]. split; [exact Hf2|].
  rewrite Hf2, Hf1, Hhours, Hspeed. unfold Rdiv. ring.
Qed.

End LegPhysics.

Section LegExamples.

Import Simu Examples.

(** C3, as stated, fails at a leg between coincident waypoints: with draws
    inside the three ranges and a commanded speed of 14 knots, the distance
    is 0 and so is the duration, which is not positive. *)
Lemma coincident_waypoints_take_no_time :
  exists p,
    leg_physics container_ship 14 [] fair_weather 0 (10, 20) (10, 20) = Return p
    /\ ph_dist_nm p = 0
    /\ ph_leg_hours p = 0
    /\ ~ 0 < ph_leg_hours p.
Proof.
  destruct (leg_physics_spec container_ship 14 [] fair_weather 0 (10, 20) (10, 20))
    as (p & Hp & Hd & _ & _ & _ & _ & Hh & _).
  cbn [fst snd] in Hd. rewrite calculate_distance_same in Hd.
  injection Hd as Hd.
  assert (Hzero : ph_leg_hours p = 0) by (rewrite Hh, <- Hd; unfold Rdiv; ring).
  exists p. repeat split; auto. rewrite Hzero. lra.
Qed.

Lemma foul_weather_floor (v : R) :
  v <= 2 -> speed_over_ground (v + wind_effect foul_weather + wave_effect foul_weather)
              (current_effect foul_weather) = 1.0.
Proof.
  intros Hv. unfold speed_over_ground, foul_weather.
  cbn [wind_effect wave_effect current_effect].
  destruct (Rlt_dec _ _); lra.
Qed.

(** The cube law on two legs brought to the floor of one knot by foul
    weather, commanded at half a knot and at one knot. *)
Lemma fuel_cube_law_witness :
  exists p1 p2,
    leg_physics container_ship 0.5 [] foul_weather 0 (0, 0) (0, 1) = Return p1
    /\ leg_physics container_ship 1 [] foul_weather 0 (0, 0) (0, 1) = Return p2
    /\ ph_fuel_consumption_mt p2 = 8 * ph_fuel_consumption_mt p1.
Proof.
  destruct (leg_physics_spec container_ship 0.5 [] foul_weather 0 (0, 0) (0, 1))
    as (p1 & Hp1 & Hd1 & _ & Hc1 & He1 & Hs1 & Hh1 & _).
  destruct (leg_physics_spec container_ship 1 [] foul_weather 0 (0, 0) (0, 1))
    as (p2 & Hp2 & Hd2 & _ & Hc2 & He2 & Hs2 & Hh2 & _).
  exists p1, p2. split; [exact Hp1|]. split; [exact Hp2|].
  refine (proj2 (proj2 (proj2
    (fuel_cube_law container_ship 0.5 1 [] [] foul_weather foul_weather 0 0
       (0, 0) (0, 1) (0, 0) (0, 1) p1 p2 Hp1 Hp2 _ _)))).
  - rewrite Hd1 in Hd2. injection Hd2 as Hd.
    rewrite He1, Hc1 in Hs1. rewrite He2, Hc2 in Hs2.
    cbn [commanded_speed find] in Hs1, Hs2.
    rewrite foul_weather_floor in Hs1 by lra.
    rewrite foul_weather_floor in Hs2 by lra.
    rewrite Hh1, Hh2, Hs1, Hs2, Hd. reflexivity.
  - cbn [commanded_speed find]. lra.
Defined.

End LegExamples.

Section LegLoop.

Import Simu.

Variable ship_spec : ShipSpec.
Variable stw : R.
Variable speed_adjustments : list SpeedAdjustment.
Variable draws : RandomSource.

Lemma timedelta_hours_nonneg (h : R) : 0 <= h -> (0 <= timedelta_hours h)%Z.
Proof. intros Hh. apply round_nonneg. nra. Qed.

Lemma last_cons {A : Type} (x d : A) (l : list A) : last (x :: l) d = last l x.
Proof.
  revert x d. induction l as [|y l IH]; intros x d; [reflexivity|].
  change (last (x :: y :: l) d) with (last (y :: l) d).
  now rewrite !IH.
Qed.

(** One iteration: the new clock is the old one plus the leg's [timedelta],
    it is the arrival time of the leg appended, and it is not earlier. *)
Lemma leg_step_spec (w : Weather) (i : nat) (from_wp to_wp : Waypoint) (st : LoopState) :
  exists p leg,
    leg_physics ship_spec stw speed_adjustments w i from_wp to_wp = Return p
    /\ leg_step ship_spec stw speed_adjustments w i from_wp to_wp st
       = Return {| st_legs := (st_legs st ++ [leg])%list;
                   total_dist_nm := total_dist_nm st + ph_dist_nm p;
                   total_hours := total_hours st + ph_leg_hours p;
                   total_fuel := total_fuel st + ph_fuel_consumption_mt p;
                   current_time := arrivalTime leg |}
    /\ arrivalTime leg = add (current_time st) (timedelta_hours (ph_leg_hours p))
    /\ (micros (current_time st) <= micros (arrivalTime leg))%Z.
Proof.
  destruct (leg_physics_spec ship_spec stw speed_adjustments w i from_wp to_wp)
    as (p & Hp & _ & Hd & _ & _ & Hsog & Hhours & _).
  assert (Hh : 0 <= ph_leg_hours p).
  { rewrite Hhours. apply leg_hours_sign; [exact Hd|].
    rewrite Hsog. apply speed_over_ground_floor. }
  unfold leg_step. rewrite Hp. unfold bind.
  exists p.
  exists {| index := i; from := from_wp; to := to_wp;
            distance_nm := round2 (ph_dist_nm p);
            stw_commanded := round2 (ph_current_stw p);
            stw_effective := round2 (ph_stw_effective p);
            sog := round2 (ph_sog p);
            leg_hours := round2 (ph_leg_hours p);
            fuel_consumption_mt := round2 (ph_fuel_consumption_mt p);
            arrivalTime := add (current_time st) (timedelta_hours (ph_leg_hours p));
            penalty_wave := round2 (- wave_effect w);
            penalty_wind := round2 (- wind_effect w);
            c_parallel := round2 (current_effect w) |}.
  split; [reflexivity|]. split; [reflexivity|].
  cbn [arrivalTime]. split; [reflexivity|].
  unfold add. cbn [micros].
  pose proof (timedelta_hours_nonneg _ Hh). lia.
Qed.

(** The whole loop: it returns, appends one leg per consecutive pair of
    waypoints, and chains the clock through the arrival times. *)
Lemma legs_loop_chain (wps : list Waypoint) :
  forall (i : nat) (st : LoopState),
  exists st' new,
    legs_loop ship_spec stw speed_adjustments draws i wps st = Return st'
    /\ st_legs st' = (st_legs st ++ new)%list
    /\ clock_chain ship_spec stw speed_adjustments draws i (current_time st) wps new
    /\ StronglySorted Z.le
         (micros (current_time st) :: map (fun leg => micros (arrivalTime leg)) new)
    /\ current_time st' = last (map arrivalTime new) (current_time st)
    /\ aware (current_time st') = aware (current_time st)
    /\ length new = (length wps - 1)%nat
    /\ (new = [] -> st' = st).
Proof.
  induction wps as [|from_wp rest IH]; intros i st.
  - exists st, []. cbn. rewrite app_nil_r.
    repeat split; auto. repeat constructor.
  - destruct rest as [|to_wp rest'].
    + exists st, []. cbn. rewrite app_nil_r.
      repeat split; auto. repeat constructor.
    + destruct (leg_step_spec (draws i) i from_wp to_wp st)
        as (p & leg & Hp & Hstep & Harr & Hle).
      match type of Hstep with _ = Return ?s => set (st1 := s) in * end.
      destruct (IH (S i) st1)
        as (st' & new1 & Hloop & Hlegs & Hchain & Hsorted & Hlast & Haware & Hlen & _).
      exists st', (leg :: new1).
      split.
      { change (legs_loop ship_spec stw speed_adjustments draws i
                  (from_wp :: to_wp :: rest') st)
          with (st1' <- leg_step ship_spec stw speed_adjustments (draws i) i from_wp to_wp st ;;
                legs_loop ship_spec stw speed_adjustments draws (S i) (to_wp :: rest') st1').
        rewrite Hstep. exact Hloop. }
      split.
      { rewrite Hlegs. unfold st1. cbn [st_legs]. now rewrite <- app_assoc. }
      split.
      { cbn [clock_chain]. split; [exists p; auto|]. exact Hchain. }
      split.
      { cbn [map]. constructor; [exact Hsorted|].
        constructor; [exact Hle|].
        apply StronglySorted_inv in Hsorted. destruct Hsorted as [_ Hall].
        eapply Forall_impl; [|exact Hall].
        intros a Ha. cbn [current_time st1] in Ha. lia. }
      split.
      { cbn [map]. rewrite last_cons. exact Hlast. }
      split.
      { rewrite Haware. unfold st1. cbn [current_time]. rewrite Harr. reflexivity. }
      split.
      { cbn [length] in *. lia. }
      discriminate.
Qed.

(** C6.  The leg loop, started on any waypoint list with the clock at
    [start], returns; the arrival time of every leg is the clock on entry
    plus the [timedelta] of that leg's hours, and it is the clock on entry of
    the next leg ([clock_chain]); the arrival times, preceded by the start
    time, are non-decreasing; the final clock is the last arrival time. *)
Theorem clock_carried_forward (wps : list Waypoint) (start : datetime) :
  exists st',
    legs_loop ship_spec stw speed_adjustments draws 0 wps (initial_state start) = Return st'
    /\ clock_chain ship_spec stw speed_adjustments draws 0 start wps (st_legs st')
    /\ StronglySorted Z.le
         (micros start :: map (fun leg => micros (arrivalTime leg)) (st_legs st'))
    /\ current_time st' = last (map arrivalTime (st_legs st')) start
    /\ length (st_legs st') = (length wps - 1)%nat.
Proof.
  destruct (legs_loop_chain wps 0 (initial_state start))
    as (st' & new & Hloop & Hlegs & Hchain & Hsorted & Hlast & _ & Hlen & _).
  cbn [initial_state st_legs current_time app] in *.
  exists st'. rewrite Hlegs. auto.
Qed.

End LegLoop.

Section PostVoyage.

Import Simu Examples.

(** The post-voyage block on a laycan end that parses and is comparable
    with the clock. *)
Lemma finish_spec (ship_spec : ShipSpec) (cost_params : CostParams)
    (laycan_end : datetime) (st : LoopState) :
  aware laycan_end = aware (current_time st) ->
  exists body,
    finish ship_spec cost_params (Instant laycan_end) st = Return body
    /\ legs body = st_legs st
    /\ total_distance_nm (total body) = round2 (total_dist_nm st)
    /\ voyage_hours (total body) = round2 (total_hours st)
    /\ total_fuel_consumption_mt (total body) = round2 (total_fuel st)
    /\ eta (total body) = current_time st
    /\ status (laycanRisk (total body))
       = laycan_status_of (diff_hours laycan_end (current_time st))
    /\ diffHours (laycanRisk (total body))
       = round2 (diff_hours laycan_end (current_time st)).
Proof.
  intros Haware.
  unfold finish, fromisoformat. cbn [bind].
  unfold sub. rewrite Haware, eqb_reflx. cbn [bind].
  destruct (Rlt_dec _ _); cbn [cheapest_port BUNKERING_PORTS bind];
    eexists; (split; [reflexivity|]); cbn [legs total]; repeat split.
Qed.

(** A request whose ship type is known and whose two instants parse and
    are comparable is answered with status 200; the body carries the legs and
    the clock of the loop. *)
Lemma simulate_route_returns (data : SimulationRequest) (draws : RandomSource)
    (ship_spec : ShipSpec) (start laycan : datetime) :
  lookup (shipType data) SHIP_TYPES = Some ship_spec ->
  startTime data = Instant start ->
  laycan_end data = Instant laycan ->
  aware laycan = aware start ->
  exists body st,
    legs_loop ship_spec (stw data) (speedAdjustments data) draws 0 (waypoints data)
      (initial_state start) = Return st
    /\ simulate_route data draws = Ok200 body
    /\ legs body = st_legs st
    /\ total_distance_nm (total body) = round2 (total_dist_nm st)
    /\ voyage_hours (total body) = round2 (total_hours st)
    /\ total_fuel_consumption_mt (total body) = round2 (total_fuel st)
    /\ eta (total body) = current_time st
    /\ status (laycanRisk (total body))
       = laycan_status_of (diff_hours laycan (current_time st)).
Proof.
  intros Hship Hstart Hlaycan Haware.
  destruct (legs_loop_chain ship_spec (stw data) (speedAdjustments data) draws
              (waypoints data) 0 (initial_state start))
    as (st & new & Hloop & _ & _ & _ & _ & Hst & _).
  cbn [initial_state current_time] in Hst.
  destruct (finish_spec ship_spec (costs data) laycan st)
    as (body & Hfin & Hlegs & Hdist & Hhours & Hfuel & Heta & Hstatus & _);
    [congruence|].
  exists body, st. split; [exact Hloop|]. split; [|auto 10].
  unfold simulate_route, simulate. rewrite Hship, Hstart, Hlaycan.
  cbn [fromisoformat bind]. rewrite Hloop. cbn [bind]. now rewrite Hfin.
Qed.

(** C9 (as the code has it).  A request with fewer than two waypoints, a
    known ship type and well-formed start and laycan instants is not an
    error: the response is a 200 whose leg list is empty and whose distance,
    hours and fuel totals are zero, the ETA being the start time. *)
Theorem short_waypoint_list_is_empty_voyage (data : SimulationRequest)
    (draws : RandomSource) (ship_spec : ShipSpec) (start laycan : datetime) :
  (length (waypoints data) < 2)%nat ->
  lookup (shipType data) SHIP_TYPES = Some ship_spec ->
  startTime data = Instant start ->
  laycan_end data = Instant laycan ->
  aware laycan = aware start ->
  exists body,
    simulate_route data draws = Ok200 body
    /\ legs body = []
    /\ total_distance_nm (total body) = 0
    /\ voyage_hours (total body) = 0
    /\ total_fuel_consumption_mt (total body) = 0
    /\ eta (total body) = start.
Proof.
  intros Hshort Hship Hstart Hlaycan Haware.
  destruct (simulate_route_returns data draws ship_spec start laycan
              Hship Hstart Hlaycan Haware)
    as (body & st & Hloop & Hok & Hlegs & Hdist & Hhours & Hfuel & Heta & _).
  assert (Hst : st = initial_state start).
  { destruct (waypoints data) as [|w0 [|w1 rest]]; cbn in Hshort, Hloop;
      [congruence | congruence | lia]. }
  subst st. cbn [initial_state st_legs total_dist_nm total_hours total_fuel current_time] in *.
  exists body. rewrite Hlegs, Hdist, Hhours, Hfuel, Heta, round2_0. auto 10.
Qed.

Lemma short_waypoint_list_is_empty_voyage_witness :
  exists body,
    simulate_route single_waypoint (fun _ => fair_weather) = Ok200 body
    /\ legs body = []
    /\ total_distance_nm (total body) = 0
    /\ voyage_hours (total body) = 0
    /\ total_fuel_consumption_mt (total body) = 0
    /\ eta (total body) = start_2025_09_21.
Proof.
  apply (short_waypoint_list_is_empty_voyage single_waypoint (fun _ => fair_weather)
           container_ship start_2025_09_21 end_2025_09_30).
  - cbn. lia.
  - reflexivity.
  - reflexivity.
  - reflexivity.
  - reflexivity.
Defined.

(** C9, as stated, fails on a short waypoint list whose request carries no
    laycan: the block after the loop reads [laycan.get("end")]
    unconditionally, [None.replace] raises and the response is the 500.  So
    it is for the empty request body and for a single waypoint. *)
Lemma short_waypoint_list_without_laycan_is_error :
  (length (waypoints VoyageExamples.empty_request) < 2)%nat
  /\ simulate_route VoyageExamples.empty_request (fun _ => fair_weather)
     = Error500 AttributeError
  /\ (length (waypoints VoyageExamples.single_waypoint_without_laycan) < 2)%nat
  /\ simulate_route VoyageExamples.single_waypoint_without_laycan (fun _ => fair_weather)
     = Error500 AttributeError
  /\ ~ (forall (data : SimulationRequest) (draws : RandomSource),
          (length (waypoints data) < 2)%nat ->
          exists body,
            simulate_route data draws = Ok200 body
            /\ legs body = []
            /\ total_distance_nm (total body) = 0
            /\ voyage_hours (total body) = 0
            /\ total_fuel_consumption_mt (total body) = 0).
Proof.
  assert (Hempty : simulate_route VoyageExamples.empty_request (fun _ => fair_weather)
                   = Error500 AttributeError) by reflexivity.
  split; [cbn; lia|]. split; [exact Hempty|].
  split; [cbn; lia|]. split; [reflexivity|].
  intros Hclaim.
  destruct (Hclaim VoyageExamples.empty_request (fun _ => fair_weather)) as (body & Hok & _).
  - cbn. lia.
  - rewrite Hempty in Hok. discriminate.
Qed.

End PostVoyage.

Section Laycan.

Import Simu Examples.

(** C4.  The laycan verdict is a function of the hours [diff] from the final
    arrival to the laycan end: "late" exactly when [diff < 0], "early"
    exactly when [diff > 48], "on_time" exactly in between; so 0 gives
    "on_time", 50 "early" and -0.01 "late".  The post-loop block surfaces the
    verdict of [diff = (laycan_end - final arrival)] in hours. *)
Theorem laycan_verdict (diff : R) (ship_spec : ShipSpec) (cost_params : CostParams)
    (laycan : datetime) (st : LoopState) :
  (laycan_status_of diff = "late" <-> diff < 0)
  /\ (laycan_status_of diff = "early" <-> 48 < diff)
  /\ (laycan_status_of diff = "on_time" <-> 0 <= diff <= 48)
  /\ laycan_status_of 0 = "on_time"
  /\ laycan_status_of 50 = "early"
  /\ laycan_status_of (-0.01) = "late"
  /\ (aware laycan = aware (current_time st) ->
      exists body,
        finish ship_spec cost_params (Instant laycan) st = Return body
        /\ eta (total body) = current_time st
        /\ status (laycanRisk (total body))
           = laycan_status_of
               (IZR (micros laycan - micros (eta (total body))) / 1000000 / 3600)).
Proof.
  assert (Hcases : forall x,
             (laycan_status_of x = "late" <-> x < 0)
             /\ (laycan_status_of x = "early" <-> 48 < x)
             /\ (laycan_status_of x = "on_time" <-> 0 <= x <= 48)).
  { intros x. unfold laycan_status_of.
    destruct (Rlt_dec x 0); [|destruct (Rlt_dec 48 x)];
      repeat split; intros; try reflexivity; try discriminate; lra. }
  destruct (Hcases diff) as (Hlate & Hearly & Hon).
  split; [exact Hlate|]. split; [exact Hearly|]. split; [exact Hon|].
  split; [apply Hcases; lra|]. split; [apply Hcases; lra|]. split; [apply Hcases; lra|].
  intros Haware.
  destruct (finish_spec ship_spec cost_params laycan st Haware)
    as (body & Hfin & _ & _ & _ & _ & Heta & Hstatus & _).
  exists body. rewrite Heta. auto.
Qed.

Lemma laycan_verdict_witness :
  exists body,
    finish container_ship default_costs (Instant end_2025_09_30)
      (initial_state start_2025_09_21) = Return body
    /\ status (laycanRisk (total body)) = "early".
Proof.
  destruct (laycan_verdict 216 container_ship default_costs end_2025_09_30
              (initial_state start_2025_09_21))
    as (_ & Hearly & _ & _ & _ & _ & Hfinish).
  destruct (Hfinish eq_refl) as (body & Hfin & Heta & Hstatus).
  exists body. split; [exact Hfin|].
  rewrite Hstatus, Heta.
  cbn [initial_state current_time micros end_2025_09_30 start_2025_09_21].
  replace (IZR (1759190400000000 - 1758412800000000) / 1000000 / 3600) with 216.
  - apply Hearly. lra.
  - change (1759190400000000 - 1758412800000000)%Z with 777600000000%Z. lra.
Defined.

End Laycan.

Section FailFast.

Import Examples.

(** C8.  An unknown ship type stops the simulation with the 400 response
    "Invalid ship type provided." whatever the waypoints and the draws, and an
    unknown origin port, destination port or ship type stops the route plan
    with a 400 response ("Invalid port selection", or "Invalid ship type"
    when both ports resolve); an error response carries no legs, totals or
    plan. *)
Theorem unknown_reference_fails_fast (sim : Simu.SimulationRequest)
    (draws : Simu.RandomSource) (plan : App.RoutePlanRequest) :
  (lookup (Simu.shipType sim) Simu.SHIP_TYPES = None ->
   Simu.simulate_route sim draws = Error400 "Invalid ship type provided.")
  /\ (lookup (App.origin plan) App.MAJOR_PORTS = None
      \/ lookup (App.destination plan) App.MAJOR_PORTS = None ->
      App.maritime_route_plan plan = Error400 "Invalid port selection")
  /\ (lookup (App.origin plan) App.MAJOR_PORTS <> None ->
      lookup (App.destination plan) App.MAJOR_PORTS <> None ->
      lookup (App.ship_type plan) App.SHIP_TYPES = None ->
      App.maritime_route_plan plan = Error400 "Invalid ship type")
  /\ (lookup (App.origin plan) App.MAJOR_PORTS = None
      \/ lookup (App.destination plan) App.MAJOR_PORTS = None
      \/ lookup (App.ship_type plan) App.SHIP_TYPES = None ->
      is_error (App.maritime_route_plan plan) = true).
Proof.
  repeat split.
  - intros Hship. unfold Simu.simulate_route. now rewrite Hship.
  - intros Hport. unfold App.maritime_route_plan.
    destruct Hport as [-> | ->]; [reflexivity|].
    destruct (lookup (App.origin plan) App.MAJOR_PORTS); reflexivity.
  - intros Ho Hd Hship. unfold App.maritime_route_plan. rewrite Hship.
    destruct (lookup (App.origin plan) App.MAJOR_PORTS); [|contradiction].
    destruct (lookup (App.destination plan) App.MAJOR_PORTS); [reflexivity | contradiction].
  - intros Hany. unfold App.maritime_route_plan.
    destruct (lookup (App.origin plan) App.MAJOR_PORTS); [|reflexivity].
    destruct (lookup (App.destination plan) App.MAJOR_PORTS); [|reflexivity].
    destruct Hany as [H | [H | ->]]; [discriminate | discriminate | reflexivity].
Qed.

Lemma unknown_reference_fails_fast_witness :
  Simu.simulate_route unknown_ship_voyage (fun _ => fair_weather)
  = Error400 "Invalid ship type provided."
  /\ App.maritime_route_plan atlantis_rotterdam = Error400 "Invalid port selection".
Proof.
  destruct (unknown_reference_fails_fast unknown_ship_voyage (fun _ => fair_weather)
              atlantis_rotterdam) as (Hsim & Hport & _).
  split.
  - apply Hsim. reflexivity.
  - apply Hport. left. reflexivity.
Defined.

End FailFast.

(** ** Further properties of the distance functions *)

Section DistanceExtras.

(** The central angle, computed through [asin] or through [atan2]. *)
Lemma central_angle_agree (a : R) :
  0 <= a <= 1 ->
  Ratan.asin (R_sqrt.sqrt a) = atan2 (R_sqrt.sqrt a) (R_sqrt.sqrt (1 - a)).
Proof.
  intros [H0 H1]. unfold atan2.
  destruct (Rle_lt_or_eq_dec a 1 H1) as [Hlt | ->].
  - assert (Hpos : 0 < R_sqrt.sqrt (1 - a)) by (apply sqrt_lt_R0; lra).
    destruct (Rlt_dec 0 (R_sqrt.sqrt (1 - a))); [|lra].
    assert (Hs : 0 <= R_sqrt.sqrt a < 1).
    { split; [apply sqrt_pos|]. rewrite <- sqrt_1. apply sqrt_lt_1_alt. lra. }
    rewrite asin_atan by lra.
    now rewrite Rsqr_sqrt.
  - rewrite Rminus_diag, sqrt_0, sqrt_1, asin_1.
    destruct (Rlt_dec 0 0); [lra|].
    destruct (Rlt_dec 0 1); [reflexivity | lra].
Qed.

Lemma central_angle_bounds (a : R) :
  0 <= a <= 1 ->
  0 <= atan2 (R_sqrt.sqrt a) (R_sqrt.sqrt (1 - a)) <= PI / 2.
Proof.
  intros Ha. split.
  - apply atan2_nonneg; apply sqrt_pos.
  - rewrite <- central_angle_agree by exact Ha. apply asin_bound.
Qed.

(** X2.  Whenever a distance function returns, what it returns lies between
    0 and half the circumference of the Earth, 3440.065 * pi nautical miles
    (about 10807); this for the planner's function and for the simulator's,
    each on its own. *)
Theorem returned_distance_bounds (lat1 lng1 lat2 lng2 d : R) :
  App.calculate_great_circle_distance lat1 lng1 lat2 lng2 = Return d
  \/ Simu.calculate_distance lat1 lng1 lat2 lng2 = Return d ->
  0 <= d <= 3440.065 * PI.
Proof.
  pose proof (haversine_a_range (radians lat1) (radians lng1) (radians lat2) (radians lng2))
    as Ha.
  pose proof (central_angle_bounds _ Ha) as Hc.
  intros [H | H].
  - rewrite great_circle_value, central_angle_agree in H by exact Ha.
    injection H as <-. lra.
  - rewrite distance_value in H. injection H as <-. lra.
Qed.

Lemma returned_distance_bounds_witness :
  exists d,
    App.calculate_great_circle_distance 1.3521 103.8198 51.9225 4.4792 = Return d
    /\ 0 <= d <= 3440.065 * PI.
Proof.
  eexists. split; [apply great_circle_value|].
  apply (returned_distance_bounds 1.3521 103.8198 51.9225 4.4792).
  left. apply great_circle_value.
Defined.

End DistanceExtras.

(** ** Further properties of the risk assessor *)

Section RiskExtras.

Import App Reading.

Lemma points_total_app (l : list Risk) (r : Risk) :
  points_total (l ++ [r]) = (points_total l + finding_points r)%Z.
Proof.
  induction l as [|x l IH]; cbn [app points_total fold_right] in *; [lia|].
  fold (points_total (l ++ [r])). fold (points_total l). rewrite IH. lia.
Qed.

Lemma piracy_loop_points (origin_coords dest_coords : Port)
    (zones : list (string * PiracyZone)) (acc : list Risk * Z) :
  points_total (fst acc) = snd acc ->
  points_total (fst (piracy_loop zones origin_coords dest_coords acc))
  = snd (piracy_loop zones origin_coords dest_coords acc).
Proof.
  revert acc. induction zones as [|[zone_name zone_data] zones IH]; intros acc Hacc;
    [exact Hacc|].
  unfold piracy_loop in *. cbn [fold_left]. apply IH.
  destruct acc as [risks score]. cbn [fst snd] in Hacc. cbn [piracy_step].
  destruct (_ || _); cbn [fst snd]; [|exact Hacc].
  rewrite points_total_app, Hacc. unfold finding_points. cbn [risk_type level].
  reflexivity.
Qed.

(** X3.  The score is the sum of the points of the findings listed, capped at
    100, and lies in [0, 100]; the verdict is LOW below 25, MEDIUM from 25
    and HIGH from 50 of the uncapped sum. *)
Theorem risk_score_is_sum_of_findings (origin_coords dest_coords : Port) (d : date) :
  exists ra,
    assess_route_risks origin_coords dest_coords (Some d) = Return ra
    /\ risk_score ra = Z.min (points_total (individual_risks ra)) 100
    /\ (0 <= risk_score ra <= 100)%Z
    /\ (overall_risk ra = "LOW" <-> (points_total (individual_risks ra) < 25)%Z)
    /\ (overall_risk ra = "MEDIUM" <-> (25 <= points_total (individual_risks ra) < 50)%Z)
    /\ (overall_risk ra = "HIGH" <-> (50 <= points_total (individual_risks ra))%Z).
Proof.
  unfold assess_route_risks, assess_route_risks_in.
  pose proof (piracy_loop_points origin_coords dest_coords PIRACY_ZONES ([], 0%Z) eq_refl)
    as Hsum.
  pose proof (piracy_loop_score origin_coords dest_coords PIRACY_ZONES ([], 0%Z)) as Hpos.
  destruct (piracy_loop PIRACY_ZONES origin_coords dest_coords ([], 0%Z)) as [risks score].
  cbn [fst snd] in Hsum, Hpos.
  unfold fromisoformat, bind.
  set (season := existsb (Z.eqb (month d)) [6; 7; 8; 9; 10]%Z).
  set (spread := Rltb 40 (Rabs (lat origin_coords - lat dest_coords))).
  set (busy := mem _ _ || mem _ _).
  destruct season, spread, busy; cbv beta iota zeta;
    eexists; (split; [reflexivity|]);
    cbn [risk_score overall_risk individual_risks];
    rewrite ?points_total_app, Hsum;
    unfold finding_points; cbn [risk_type level String.eqb Ascii.eqb Bool.eqb];
    (destruct (50 <=? _)%Z eqn:H50;
     [apply Z.leb_le in H50
     |apply Z.leb_gt in H50;
      destruct (25 <=? _)%Z eqn:H25;
      [apply Z.leb_le in H25 | apply Z.leb_gt in H25]]);
    repeat split; intros; try discriminate; try reflexivity; lia.
Qed.

End RiskExtras.

Section RecommendationExtras.

Import App Reading2.

Lemma recommendations_fold (risks : list Risk) (acc : list string) (x : string) :
  In x (fold_left
          (fun recs risk =>
             if String.eqb (risk_type risk) "Piracy Risk" then
               (recs ++ ["Follow BMP5 guidelines for piracy prevention";
                         "Increase watch vigilance in high-risk areas";
                         "Consider naval escort if available"])%list
             else if String.eqb (risk_type risk) "Seasonal Weather" then
               (recs ++ ["Plan flexible departure window";
                         "Increase fuel reserves for weather delays";
                         "Monitor tropical weather forecasts"])%list
             else if String.eqb (risk_type risk) "Port Congestion" then
               (recs ++ ["Confirm berth availability before arrival";
                         "Plan for potential anchor waiting time"])%list
             else recs)
          risks acc)
  <-> In x acc \/ exists r, In r risks /\ In x (recommendations_for r).
Proof.
  revert acc. induction risks as [|risk risks IH]; intros acc; cbn [fold_left].
  - split; [auto|]. intros [H | (r & [] & _)]. exact H.
  - rewrite IH. unfold recommendations_for at 2.
    split.
    + intros [H | (r & Hr & Hx)].
      * destruct (String.eqb (risk_type risk) "Piracy Risk") eqn:E1;
          [|destruct (String.eqb (risk_type risk) "Seasonal Weather") eqn:E2;
            [|destruct (String.eqb (risk_type risk) "Port Congestion") eqn:E3]];
          try (apply in_app_or in H; destruct H as [H | H]); auto;
          right; exists risk; (split; [now left|]);
          unfold recommendations_for; rewrite ?E1, ?E2, ?E3; exact H.
      * right. exists r. split; [now right | exact Hx].
    + intros [H | (r & [-> | Hr] & Hx)].
      * left.
        destruct (String.eqb (risk_type risk) "Piracy Risk");
          [|destruct (String.eqb (risk_type risk) "Seasonal Weather");
            [|destruct (String.eqb (risk_type risk) "Port Congestion")]];
          try apply in_or_app; auto.
      * left. unfold recommendations_for in Hx.
        destruct (String.eqb (risk_type r) "Piracy Risk");
          [|destruct (String.eqb (risk_type r) "Seasonal Weather");
            [|destruct (String.eqb (risk_type r) "Port Congestion")]];
          try (apply in_or_app; right; exact Hx). destruct Hx.
      * right. exists r. auto.
Qed.

(** X4.  The recommendation list has no duplicates, always holds the baseline
    "Monitor weather updates every 6 hours", and beyond it holds exactly the
    recommendations of the findings listed: three for a piracy finding, three
    for seasonal weather, two for port congestion, none for weather
    variation. *)
Theorem recommendations_are_deduplicated_union (risks : list Risk) (x : string) :
  NoDup (generate_risk_recommendations risks)
  /\ In "Monitor weather updates every 6 hours" (generate_risk_recommendations risks)
  /\ (In x (generate_risk_recommendations risks)
      <-> x = "Monitor weather updates every 6 hours"
          \/ exists r, In r risks /\ In x (recommendations_for r)).
Proof.
  unfold generate_risk_recommendations.
  split; [apply NoDup_nodup|].
  split.
  - apply nodup_In. apply recommendations_fold. left. now left.
  - rewrite nodup_In, recommendations_fold. cbn [In]. intuition.
Qed.

End RecommendationExtras.

Section CongestionExtras.

Import App Reading2.

Lemma lookup_In {V : Type} (k : string) (d : list (string * V)) (v : V) :
  lookup k d = Some v -> In (k, v) d.
Proof.
  induction d as [|[k' v'] d IH]; cbn [lookup]; [discriminate|].
  destruct (String.eqb k k') eqn:E.
  - apply String.eqb_eq in E. intros H. injection H as ->. subst. now left.
  - intros H. right. auto.
Qed.

(** The name [assess_route_risks] gives a catalog port back, and whether it
    counts as busy. *)
Lemma port_name_near_catalog (name : string) (p : Port) :
  lookup name MAJOR_PORTS = Some p ->
  port_name_near MAJOR_PORTS p
  = (if String.eqb name "Long Beach" then "Los Angeles"
     else if String.eqb name "Felixstowe" then "Rotterdam" else name)
  /\ mem (port_name_near MAJOR_PORTS p) ["Singapore"; "Shanghai"; "Rotterdam"; "Los Angeles"]
     = mem name congested_by_latitude.
Proof.
  intros Hl. apply lookup_In in Hl.
  unfold MAJOR_PORTS in Hl. cbn [In] in Hl.
  repeat (destruct Hl as [Hl | Hl];
          [injection Hl as <- <-;
           unfold port_name_near, MAJOR_PORTS; evaluate; split; reflexivity|]).
  destruct Hl.
Qed.

Lemma piracy_loop_types (origin_coords dest_coords : Port)
    (zones : list (string * PiracyZone)) (acc : list Risk * Z) :
  Forall (fun r => risk_type r = "Piracy Risk") (fst acc) ->
  Forall (fun r => risk_type r = "Piracy Risk")
         (fst (piracy_loop zones origin_coords dest_coords acc)).
Proof.
  revert acc. induction zones as [|[zone_name zone_data] zones IH]; intros acc Hacc;
    [exact Hacc|].
  unfold piracy_loop in *. cbn [fold_left]. apply IH.
  destruct acc as [risks score]. cbn [fst] in Hacc. cbn [piracy_step].
  destruct (_ || _); cbn [fst]; [|exact Hacc].
  apply Forall_app. split; [exact Hacc|]. now repeat constructor.
Qed.

(** X5.  Port congestion is decided by latitude alone: a route between catalog
    ports carries a "Port Congestion" finding exactly when one of its ports
    is Singapore, Shanghai, Rotterdam or Los Angeles, or lies within 0.1
    degree of latitude of one of them, as Long Beach (taken for Los Angeles)
    and Felixstowe (taken for Rotterdam) do. *)
Theorem congestion_is_decided_by_latitude (origin_name dest_name : string)
    (origin_coords dest_coords : Port) (d : date) :
  lookup origin_name MAJOR_PORTS = Some origin_coords ->
  lookup dest_name MAJOR_PORTS = Some dest_coords ->
  exists ra,
    assess_route_risks origin_coords dest_coords (Some d) = Return ra
    /\ ((exists r, In r (individual_risks ra) /\ risk_type r = "Port Congestion")
        <-> mem origin_name congested_by_latitude || mem dest_name congested_by_latitude
            = true).
Proof.
  intros Ho Hd.
  destruct (port_name_near_catalog origin_name origin_coords Ho) as [_ Hbo].
  destruct (port_name_near_catalog dest_name dest_coords Hd) as [_ Hbd].
  unfold assess_route_risks, assess_route_risks_in.
  pose proof (piracy_loop_types origin_coords dest_coords PIRACY_ZONES ([], 0%Z)
                (Forall_nil _)) as Htypes.
  destruct (piracy_loop PIRACY_ZONES origin_coords dest_coords ([], 0%Z)) as [risks score].
  cbn [fst] in Htypes.
  unfold fromisoformat, bind.
  rewrite Hbo, Hbd.
  set (season := existsb (Z.eqb (month d)) [6; 7; 8; 9; 10]%Z).
  set (spread := Rltb 40 (Rabs (lat origin_coords - lat dest_coords))).
  set (flag := mem origin_name congested_by_latitude || mem dest_name congested_by_latitude).
  assert (Hno : forall r, In r risks -> risk_type r <> "Port Congestion").
  { intros r Hr. rewrite Forall_forall in Htypes. rewrite (Htypes r Hr). discriminate. }
  destruct season, spread, flag; cbv beta iota zeta;
    eexists; (split; [reflexivity|]); cbn [individual_risks];
    (split; [intros (r & Hr & Ht) | intros Hf]); try reflexivity; try discriminate;
    try (eexists; split; [apply in_or_app; right; left; reflexivity | reflexivity]);
    exfalso;
    repeat (apply in_app_or in Hr; destruct Hr as [Hr | Hr]);
    try (apply (Hno r Hr Ht));
    try (destruct Hr as [<- | []]; discriminate).
Qed.

Lemma congestion_is_decided_by_latitude_witness :
  exists ra,
    assess_route_risks (Build_Port 33.7701 (-118.1937) "USA" 715 1.0)
      (Build_Port 19.0760 72.8777 "India" 635 0.6)
      (Some Examples.mid_january) = Return ra
    /\ ((exists r, In r (individual_risks ra) /\ risk_type r = "Port Congestion")
        <-> mem "Long Beach" congested_by_latitude || mem "Mumbai" congested_by_latitude
            = true).
Proof.
  apply (congestion_is_decided_by_latitude "Long Beach" "Mumbai"); reflexivity.
Defined.

End CongestionExtras.

(** ** Further properties of the route planner *)

Section PlannerExtras.

Import App Reading Examples MoreExamples.

Lemma ceil_spec (x : R) : IZR (ceil x) - 1 < x <= IZR (ceil x).
Proof.
  unfold ceil. rewrite opp_IZR.
  destruct (base_Int_part (- x)). lra.
Qed.

Lemma ceil_nonneg (x : R) : 0 <= x -> (0 <= ceil x)%Z.
Proof.
  intros Hx. pose proof (ceil_spec x) as H.
  apply le_IZR. destruct (Z_lt_le_dec (ceil x) 0) as [Hlt | Hle].
  - assert (IZR (ceil x) <= -1) by (apply IZR_le; lia). lra.
  - now apply IZR_le.
Qed.

Lemma round_le (x y : R) : x <= y -> (round x <= round y)%Z.
Proof.
  intros [Hlt | ->]; [|lia].
  pose proof (Rabs_le_inv _ _ (round_error x)) as Hx.
  pose proof (Rabs_le_inv _ _ (round_error y)) as Hy.
  assert (H : (round x < round y + 1)%Z)
    by (apply lt_IZR; rewrite plus_IZR; lra).
  lia.
Qed.

(** The ship profiles and the bunker prices of the catalog are positive. *)
Lemma ship_profile_positive (k : string) (ship_spec : ShipSpec) :
  lookup k SHIP_TYPES = Some ship_spec ->
  0 < fuel_rate_tons_per_day ship_spec /\ 0 < avg_speed_knots ship_spec
  /\ 0 < fuel_efficiency_factor ship_spec.
Proof.
  intros H. apply lookup_In in H. unfold SHIP_TYPES in H. cbn [In] in H.
  repeat (destruct H as [H | H];
          [injection H as <- <-;
           cbn [fuel_rate_tons_per_day avg_speed_knots fuel_efficiency_factor];
           repeat split; lra|]).
  destruct H.
Qed.

Lemma bunker_price_positive (k : string) (p : Port) :
  lookup k MAJOR_PORTS = Some p -> 0 < bunker_price p.
Proof.
  intros H. apply lookup_In in H. unfold MAJOR_PORTS in H. cbn [In] in H.
  repeat (destruct H as [H | H];
          [injection H as <- <-; cbn [bunker_price]; lra|]).
  destruct H.
Qed.

(** The body of a plan, field by field, in terms of the distance, the
    weather factor and the risk assessment. *)
Lemma route_plan_shape (data : RoutePlanRequest) (origin_coords dest_coords : Port)
    (ship_spec : ShipSpec) (d : date) :
  departure_date data = Some d ->
  exists body dist wf ra,
    calculate_great_circle_distance (lat origin_coords) (lng origin_coords)
      (lat dest_coords) (lng dest_coords) = Return dist
    /\ weather_factor_of (weather_optimized data) (Some d) = Return wf
    /\ assess_route_risks origin_coords dest_coords (Some d) = Return ra
    /\ route_plan data origin_coords dest_coords ship_spec = Return body
    /\ let actual := dist * 1.15 in
       let n_days := ceil (actual / (avg_speed_knots ship_spec * 24)) in
       let daily := fuel_rate_tons_per_day ship_spec * fuel_efficiency_factor ship_spec in
       route_summary body
       = {| distance_nm := round actual; voyage_days := n_days;
            summary_avg_speed_knots := avg_speed_knots ship_spec |}
       /\ consumption_tons (fuel_analysis body) = round (IZR n_days * daily * wf)
       /\ weather_factor (fuel_analysis body) = wf
       /\ fuel_stops (fuel_analysis body)
          = calculate_fuel_stops actual (bunker_on_board data) daily
       /\ fuel_stops_required (fuel_analysis body)
          = length (calculate_fuel_stops actual (bunker_on_board data) daily)
       /\ risk_assessment body = ra
       /\ regulatory_compliance body = calculate_eca_compliance origin_coords dest_coords
       /\ main_days (main_route body) = n_days
       /\ main_cost (main_route body) = total_cost (cost_breakdown body)
       /\ main_risk_level (main_route body) = overall_risk ra
       /\ map route_name (alternate_routes body)
          = (if weather_optimized data then ["Safety Route"]
             else ["Safety Route"; "Weather Optimized"])
       /\ map days (alternate_routes body)
          = (if weather_optimized data then [n_days + 2]
             else [n_days + 2; n_days - 1])%Z
       /\ map route_risk_level (alternate_routes body)
          = (if weather_optimized data then ["LOW"] else ["LOW"; "MEDIUM"])
       /\ Forall (fun r => coordinates r = main_coordinates (main_route body))
            (alternate_routes body).
Proof.
  intros Hdate.
  unfold route_plan.
  rewrite great_circle_value, Hdate. unfold bind at 1.
  destruct (weather_factor_of_returns (weather_optimized data) d) as [wf Hwf].
  rewrite Hwf. unfold bind at 1.
  destruct (canal_of _) as [canal_cost canal_name].
  destruct (assess_route_risks_in_spec PIRACY_ZONES origin_coords dest_coords d)
    as (ra & score & Hra & _).
  unfold assess_route_risks. rewrite Hra. unfold bind.
  eexists. eexists. exists wf, ra.
  split; [reflexivity|]. split; [reflexivity|]. split; [reflexivity|].
  split; [reflexivity|].
  cbv zeta.
  cbn [route_summary fuel_analysis consumption_tons weather_factor fuel_stops
       fuel_stops_required risk_assessment regulatory_compliance main_route main_days
       main_cost main_risk_level alternate_routes cost_breakdown total_cost
       main_coordinates].
  destruct (weather_optimized data); cbn [negb map route_name days route_risk_level];
    repeat split; repeat constructor.
Qed.

Lemma great_circle_range (lat1 lng1 lat2 lng2 : R) :
  exists dist,
    calculate_great_circle_distance lat1 lng1 lat2 lng2 = Return dist
    /\ 0 <= dist <= 3440.065 * PI.
Proof.
  rewrite great_circle_value.
  pose proof (haversine_a_range (radians lat1) (radians lng1) (radians lat2) (radians lng2))
    as Ha.
  rewrite central_angle_agree by exact Ha.
  eexists. split; [reflexivity|].
  pose proof (central_angle_bounds _ Ha). lra.
Qed.

Lemma great_circle_same (lat1 lng1 : R) :
  calculate_great_circle_distance lat1 lng1 lat1 lng1 = Return 0.
Proof.
  rewrite great_circle_value, haversine_a_same, sqrt_0, asin_0. f_equal. lra.
Qed.

(** X6.  A departure date that is not an ISO date is not a 400: with the three
    references resolved the plan ends in the 500 of the [except], in either
    routing mode (the risk assessment parses the date even when the weather
    factor does not). *)
Theorem malformed_date_is_internal_error (data : RoutePlanRequest)
    (origin_coords dest_coords : Port) (ship_spec : ShipSpec) :
  lookup (origin data) MAJOR_PORTS = Some origin_coords ->
  lookup (destination data) MAJOR_PORTS = Some dest_coords ->
  lookup (ship_type data) SHIP_TYPES = Some ship_spec ->
  departure_date data = None ->
  maritime_route_plan data = Error500 ValueError.
Proof.
  intros Ho Hd Hs Hdate.
  unfold maritime_route_plan. rewrite Ho, Hd, Hs.
  unfold route_plan. rewrite great_circle_value, Hdate. unfold bind at 1.
  unfold weather_factor_of.
  destruct (weather_optimized data); [|reflexivity].
  unfold bind at 1. destruct (canal_of _).
  unfold assess_route_risks, assess_route_risks_in.
  destruct (piracy_loop _ _ _ _). reflexivity.
Qed.

Lemma malformed_date_is_internal_error_witness :
  maritime_route_plan undated_request = Error500 ValueError.
Proof.
  apply (malformed_date_is_internal_error undated_request singapore rotterdam container);
    reflexivity.
Defined.

(** X7.  Every plan returned offers the "Safety Route" (two days longer, risk
    LOW) and, unless the request was already weather-optimized, the "Weather
    Optimized" route (one day shorter, risk MEDIUM), in this order; the main
    route repeats the voyage days, the total cost and the overall risk, and
    the alternates reuse its coordinates. *)
Theorem alternate_routes_offered (data : RoutePlanRequest) (body : RoutePlanResult) :
  maritime_route_plan data = Ok200 body ->
  let n_days := voyage_days (route_summary body) in
  map route_name (alternate_routes body)
  = (if weather_optimized data then ["Safety Route"]
     else ["Safety Route"; "Weather Optimized"])
  /\ map days (alternate_routes body)
     = (if weather_optimized data then [n_days + 2] else [n_days + 2; n_days - 1])%Z
  /\ map route_risk_level (alternate_routes body)
     = (if weather_optimized data then ["LOW"] else ["LOW"; "MEDIUM"])
  /\ Forall (fun r => coordinates r = main_coordinates (main_route body))
       (alternate_routes body)
  /\ main_days (main_route body) = n_days
  /\ main_cost (main_route body) = total_cost (cost_breakdown body)
  /\ main_risk_level (main_route body) = overall_risk (risk_assessment body).
Proof.
  intros Hok.
  destruct (maritime_route_plan_ok data body Hok)
    as (o & t & ship & d & _ & _ & _ & Hdate & Hplan).
  destruct (route_plan_shape data o t ship d Hdate)
    as (body' & dist & wf & ra & _ & _ & _ & Hplan' & Hshape).
  rewrite Hplan in Hplan'. injection Hplan' as <-.
  cbv zeta in Hshape |- *.
  destruct Hshape as (Hsum & _ & _ & _ & _ & Hra & _ & Hmd & Hmc & Hmr & Hn & Hd & Hr & Hc).
  rewrite Hsum, Hra. cbn [voyage_days]. auto 10.
Qed.

Lemma alternate_routes_offered_witness :
  exists body,
    maritime_route_plan singapore_rotterdam = Ok200 body
    /\ map route_name (alternate_routes body) = ["Safety Route"; "Weather Optimized"].
Proof.
  destruct singapore_rotterdam_costs as (body & _ & Hok & _).
  exists body. split; [exact Hok|].
  apply (alternate_routes_offered singapore_rotterdam body Hok).
Defined.

(** X8.  The voyage days are the distance, lengthened by 15 percent, over a day's
    run at design speed, rounded up: the least whole number of days that
    covers the route, never negative. *)
Theorem voyage_days_is_ceiling (data : RoutePlanRequest) (body : RoutePlanResult)
    (origin_coords dest_coords : Port) (ship_spec : ShipSpec) :
  maritime_route_plan data = Ok200 body ->
  lookup (origin data) MAJOR_PORTS = Some origin_coords ->
  lookup (destination data) MAJOR_PORTS = Some dest_coords ->
  lookup (ship_type data) SHIP_TYPES = Some ship_spec ->
  exists dist,
    calculate_great_circle_distance (lat origin_coords) (lng origin_coords)
      (lat dest_coords) (lng dest_coords) = Return dist
    /\ distance_nm (route_summary body) = round (dist * 1.15)
    /\ let n_days := voyage_days (route_summary body) in
       let day_run := avg_speed_knots ship_spec * 24 in
       (0 <= n_days)%Z
       /\ dist * 1.15 <= IZR n_days * day_run
       /\ IZR (n_days - 1) * day_run < dist * 1.15.
Proof.
  intros Hok Ho Hd Hs.
  destruct (maritime_route_plan_ok data body Hok)
    as (o & t & ship & d & Ho' & Ht' & Hs' & Hdate & Hplan).
  rewrite Ho in Ho'. rewrite Hd in Ht'. rewrite Hs in Hs'.
  injection Ho' as <-. injection Ht' as <-. injection Hs' as <-.
  destruct (route_plan_shape data origin_coords dest_coords ship_spec d Hdate)
    as (body' & dist & wf & ra & Hdist & _ & _ & Hplan' & Hshape).
  rewrite Hplan in Hplan'. injection Hplan' as <-.
  cbv zeta in Hshape. destruct Hshape as (Hsum & _).
  destruct (great_circle_range (lat origin_coords) (lng origin_coords)
              (lat dest_coords) (lng dest_coords)) as (dist' & Hdist' & Hrange).
  rewrite Hdist in Hdist'. injection Hdist' as <-.
  destruct (ship_profile_positive _ _ Hs) as (_ & Hspeed & _).
  exists dist. split; [exact Hdist|].
  rewrite Hsum. cbn [distance_nm voyage_days]. split; [reflexivity|].
  cbv zeta.
  set (run := avg_speed_knots ship_spec * 24) in *.
  assert (Hrun : 0 < run) by (unfold run; lra).
  pose proof (ceil_spec (dist * 1.15 / run)) as Hceil.
  assert (Hq : 0 <= dist * 1.15 / run)
    by (apply Rmult_le_pos; [lra | left; now apply Rinv_0_lt_compat]).
  split; [now apply ceil_nonneg|].
  rewrite minus_IZR.
  assert (Hx : dist * 1.15 = dist * 1.15 / run * run) by (field; lra).
  set (q := dist * 1.15 / run) in *.
  set (c := IZR (ceil q)) in *.
  split.
  - rewrite Hx. apply Rmult_le_compat_r; lra.
  - rewrite Hx. apply Rmult_lt_compat_r; lra.
Qed.

Lemma voyage_days_is_ceiling_witness :
  exists body dist,
    maritime_route_plan singapore_rotterdam = Ok200 body
    /\ calculate_great_circle_distance (lat singapore) (lng singapore)
         (lat rotterdam) (lng rotterdam) = Return dist
    /\ dist * 1.15
       <= IZR (voyage_days (route_summary body)) * (avg_speed_knots container * 24).
Proof.
  destruct singapore_rotterdam_costs as (body & _ & Hok & _).
  destruct (voyage_days_is_ceiling singapore_rotterdam body singapore rotterdam container
              Hok eq_refl eq_refl eq_refl) as (dist & Hdist & _ & _ & Hcover & _).
  exists body, dist. auto.
Defined.

End PlannerExtras.

Section PlannerExtras2.

Import App Reading Examples MoreExamples.

Lemma weather_factor_range (d : date) :
  exists wf, weather_factor_of false (Some d) = Return wf /\ 1.0 <= wf <= 1.15.
Proof.
  unfold weather_factor_of, fromisoformat, bind.
  destruct (existsb _ _); [eexists; split; [reflexivity | lra]|].
  destruct (existsb _ _); eexists; (split; [reflexivity | lra]).
Qed.

(** X9.  Weather routing never costs fuel: of two valid requests that differ at
    most in [weather_optimized], the optimized one plans the same voyage days
    with the factor 0.95 against a factor between 1.0 and 1.15, and its fuel
    consumption and fuel cost, as surfaced, are not higher. *)
Theorem weather_routing_saves_fuel (data : RoutePlanRequest)
    (origin_coords dest_coords : Port) (ship_spec : ShipSpec) (d : date) :
  lookup (origin data) MAJOR_PORTS = Some origin_coords ->
  lookup (destination data) MAJOR_PORTS = Some dest_coords ->
  lookup (ship_type data) SHIP_TYPES = Some ship_spec ->
  departure_date data = Some d ->
  exists optimized standard,
    maritime_route_plan (with_weather_optimized true data) = Ok200 optimized
    /\ maritime_route_plan (with_weather_optimized false data) = Ok200 standard
    /\ voyage_days (route_summary optimized) = voyage_days (route_summary standard)
    /\ weather_factor (fuel_analysis optimized) = 0.95
    /\ 1.0 <= weather_factor (fuel_analysis standard) <= 1.15
    /\ (consumption_tons (fuel_analysis optimized)
        <= consumption_tons (fuel_analysis standard))%Z
    /\ (fuel_cost (cost_breakdown optimized) <= fuel_cost (cost_breakdown standard))%Z.
Proof.
  intros Ho Hd Hs Hdate.
  destruct (ship_profile_positive _ _ Hs) as (Hrate & Hspeed & Heff).
  pose proof (bunker_price_positive _ _ Ho) as Hbo.
  pose proof (bunker_price_positive _ _ Hd) as Hbd.
  destruct (great_circle_range (lat origin_coords) (lng origin_coords)
              (lat dest_coords) (lng dest_coords)) as (dist & Hdist & Hrange).
  destruct (route_plan_shape (with_weather_optimized true data) origin_coords dest_coords
              ship_spec d Hdate)
    as (b1 & dist1 & wf1 & ra1 & Hd1 & Hwf1 & _ & Hp1 & Hs1).
  destruct (route_plan_shape (with_weather_optimized false data) origin_coords dest_coords
              ship_spec d Hdate)
    as (b2 & dist2 & wf2 & ra2 & Hd2 & Hwf2 & _ & Hp2 & Hs2).
  destruct (route_plan_costs (with_weather_optimized true data) origin_coords dest_coords
              ship_spec d Hdate)
    as (b1' & n1 & wf1' & Hp1' & _ & Hn1 & Hw1 & Hc1).
  destruct (route_plan_costs (with_weather_optimized false data) origin_coords dest_coords
              ship_spec d Hdate)
    as (b2' & n2 & wf2' & Hp2' & _ & Hn2 & Hw2 & Hc2).
  rewrite Hp1 in Hp1'. injection Hp1' as <-.
  rewrite Hp2 in Hp2'. injection Hp2' as <-.
  rewrite Hdist in Hd1, Hd2. injection Hd1 as <-. injection Hd2 as <-.
  cbn [with_weather_optimized weather_optimized] in Hwf1, Hwf2.
  cbn [weather_factor_of] in Hwf1. injection Hwf1 as <-.
  destruct (weather_factor_range d) as (wf & Hwf & Hrng).
  rewrite Hwf in Hwf2. injection Hwf2 as <-.
  cbv zeta in Hs1, Hs2, Hc1, Hc2.
  destruct Hs1 as (Hsum1 & Hcons1 & Hfac1 & _).
  destruct Hs2 as (Hsum2 & Hcons2 & Hfac2 & _).
  rewrite Hsum1 in Hn1. rewrite Hsum2 in Hn2. cbn [voyage_days] in Hn1, Hn2.
  subst n1 n2. rewrite Hfac1 in Hw1. rewrite Hfac2 in Hw2. subst wf1' wf2'.
  set (n := ceil (dist * 1.15 / (avg_speed_knots ship_spec * 24))) in *.
  assert (Hn : 0 <= IZR n).
  { apply IZR_le. apply ceil_nonneg.
    apply Rmult_le_pos; [lra|]. left. apply Rinv_0_lt_compat. lra. }
  exists b1, b2.
  split. { unfold maritime_route_plan. cbn [with_weather_optimized origin destination ship_type].
           now rewrite Ho, Hd, Hs, Hp1. }
  split. { unfold maritime_route_plan. cbn [with_weather_optimized origin destination ship_type].
           now rewrite Ho, Hd, Hs, Hp2. }
  rewrite Hsum1, Hsum2, Hfac1, Hfac2, Hcons1, Hcons2, Hc1, Hc2.
  cbn [voyage_days fuel_cost].
  split; [reflexivity|]. split; [reflexivity|]. split; [exact Hrng|].
  assert (Hrate_eff : 0 < fuel_rate_tons_per_day ship_spec
                           * fuel_efficiency_factor ship_spec)
    by now apply Rmult_lt_0_compat.
  set (daily := fuel_rate_tons_per_day ship_spec * fuel_efficiency_factor ship_spec) in *.
  assert (Hdaily : 0 <= IZR n * daily) by (apply Rmult_le_pos; lra).
  assert (Hcons : IZR n * daily * 0.95 <= IZR n * daily * wf)
    by (apply Rmult_le_compat_l; lra).
  split; apply round_le; [exact Hcons|].
  apply Rmult_le_compat_r; [lra | exact Hcons].
Qed.

Lemma weather_routing_saves_fuel_witness :
  exists optimized standard,
    maritime_route_plan (with_weather_optimized true singapore_rotterdam) = Ok200 optimized
    /\ maritime_route_plan (with_weather_optimized false singapore_rotterdam) = Ok200 standard
    /\ (consumption_tons (fuel_analysis optimized)
        <= consumption_tons (fuel_analysis standard))%Z.
Proof.
  destruct (weather_routing_saves_fuel singapore_rotterdam singapore rotterdam container
              first_of_september eq_refl eq_refl eq_refl eq_refl)
    as (b1 & b2 & H1 & H2 & _ & _ & _ & Hc & _).
  exists b1, b2. auto.
Defined.

End PlannerExtras2.

Section PlannerExtras3.

Import App Reading Examples MoreExamples.

Lemma round_0 : round 0 = 0%Z.
Proof. apply (round_IZR 0). Qed.

Lemma ceil_0 : ceil 0 = 0%Z.
Proof.
  pose proof (ceil_spec 0) as H.
  assert (Hlo : (-1 < ceil 0)%Z) by (apply lt_IZR; lra).
  assert (Hhi : (ceil 0 < 1)%Z) by (apply lt_IZR; lra).
  lia.
Qed.

(** X10.  A route from a port to itself is planned, not refused: distance, voyage
    days, fuel consumption and fuel cost are 0, no fuel stop is asked for, and
    the alternates last 2 days and, for the weather-optimized one, -1 day. *)
Theorem same_port_route (data : RoutePlanRequest) (port : Port) (ship_spec : ShipSpec)
    (d : date) :
  destination data = origin data ->
  lookup (origin data) MAJOR_PORTS = Some port ->
  lookup (ship_type data) SHIP_TYPES = Some ship_spec ->
  departure_date data = Some d ->
  exists body,
    maritime_route_plan data = Ok200 body
    /\ distance_nm (route_summary body) = 0%Z
    /\ voyage_days (route_summary body) = 0%Z
    /\ consumption_tons (fuel_analysis body) = 0%Z
    /\ fuel_cost (cost_breakdown body) = 0%Z
    /\ fuel_stops (fuel_analysis body) = []
    /\ map days (alternate_routes body)
       = (if weather_optimized data then [2] else [2; -1])%Z.
Proof.
  intros Hsame Ho Hs Hdate.
  destruct (route_plan_shape data port port ship_spec d Hdate)
    as (body & dist & wf & ra & Hdist & _ & _ & Hplan & Hshape).
  destruct (route_plan_costs data port port ship_spec d Hdate)
    as (body' & n & wf' & Hplan' & _ & Hn & _ & Hcb).
  rewrite Hplan in Hplan'. injection Hplan' as <-.
  rewrite great_circle_same in Hdist. injection Hdist as <-.
  cbv zeta in Hshape, Hcb.
  destruct Hshape as (Hsum & Hcons & _ & Hstops & _ & _ & _ & _ & _ & _ & _ & Hdays & _).
  assert (Hz : 0 * 1.15 / (avg_speed_knots ship_spec * 24) = 0)
    by (unfold Rdiv; ring).
  assert (Hz' : 0 * 1.15 = 0) by ring.
  rewrite Hz, ceil_0 in *. rewrite Hz' in *.
  rewrite Hsum in Hn. cbn [voyage_days] in Hn. subst n.
  exists body. split.
  { unfold maritime_route_plan. now rewrite Hsame, Ho, Hs, Hplan. }
  rewrite Hsum, Hcons, Hcb, Hstops, Hdays. cbn [distance_nm voyage_days fuel_cost].
  repeat split.
  - apply round_0.
  - replace (0 * _ * wf) with 0 by ring. apply round_0.
  - match goal with |- round ?x = _ => replace x with 0 by ring end. apply round_0.
  - unfold calculate_fuel_stops.
    destruct (Rleb 0 _); [reflexivity|].
    replace (Rltb 7000 0) with false; [reflexivity|].
    symmetry. apply Rltb_false. lra.
Qed.

Lemma same_port_route_witness :
  exists body,
    maritime_route_plan singapore_singapore = Ok200 body
    /\ voyage_days (route_summary body) = 0%Z
    /\ map days (alternate_routes body) = [2; -1]%Z.
Proof.
  destruct (same_port_route singapore_singapore singapore bulk first_of_september
              eq_refl eq_refl eq_refl eq_refl)
    as (body & Hok & _ & Hdays & _ & _ & _ & Halt).
  exists body. auto.
Defined.

(** X11.  A plan asks for at most one fuel stop, and only on a route of more than
    7000 nautical miles that also exceeds the range of the bunker on board at
    14 knots; the stop is always Fujairah, 800 t at 645 per ton. *)
Theorem fuel_stop_only_on_long_routes (data : RoutePlanRequest) (body : RoutePlanResult) :
  maritime_route_plan data = Ok200 body ->
  fuel_stops_required (fuel_analysis body) = length (fuel_stops (fuel_analysis body))
  /\ (fuel_stops_required (fuel_analysis body) <= 1)%nat
  /\ (fuel_stops (fuel_analysis body) <> [] ->
      (7000 <= distance_nm (route_summary body))%Z)
  /\ (forall s, In s (fuel_stops (fuel_analysis body)) ->
                stop_port_name s = "Fujairah" /\ fuel_needed_tons s = 800
                /\ estimated_cost s = 516000).
Proof.
  intros Hok.
  destruct (maritime_route_plan_ok data body Hok)
    as (o & t & ship & d & _ & _ & _ & Hdate & Hplan).
  destruct (route_plan_shape data o t ship d Hdate)
    as (body' & dist & wf & ra & _ & _ & _ & Hplan' & Hshape).
  rewrite Hplan in Hplan'. injection Hplan' as <-.
  cbv zeta in Hshape.
  destruct Hshape as (Hsum & _ & _ & Hstops & Hreq & _).
  rewrite Hreq, Hstops, Hsum. cbn [distance_nm].
  unfold calculate_fuel_stops.
  destruct (Rleb _ _).
  { cbn. repeat split; try lia; try contradiction. }
  destruct (Rltb 7000 (dist * 1.15)) eqn:Hlong.
  - apply Rltb_true in Hlong. cbn [length In].
    repeat split; try lia.
    + intros _. apply Z.le_trans with (round (IZR 7000));
        [rewrite round_IZR; lia | apply round_le; lra].
    + destruct H as [<- | []]. reflexivity.
    + destruct H as [<- | []]. reflexivity.
    + destruct H as [<- | []]. cbn [estimated_cost]. lra.
  - cbn. repeat split; try lia; try contradiction.
Qed.

Lemma fuel_stop_only_on_long_routes_witness :
  exists body,
    maritime_route_plan singapore_rotterdam = Ok200 body
    /\ (fuel_stops_required (fuel_analysis body) <= 1)%nat.
Proof.
  destruct singapore_rotterdam_costs as (body & _ & Hok & _).
  exists body. split; [exact Hok|].
  apply (fuel_stop_only_on_long_routes singapore_rotterdam body Hok).
Defined.

End PlannerExtras3.

Section ComplianceExtras.

Import App.

Lemma filter_length_le {A : Type} (f : A -> bool) (l : list A) :
  (length (filter f l) <= length l)%nat.
Proof.
  induction l as [|x l IH]; cbn [filter length]; [lia|].
  destruct (f x); cbn [length]; lia.
Qed.

(** X12.  The ECA compliance cost is 15000 per zone listed, between 0 and 45000;
    a zone is listed exactly when the origin or the destination lies inside
    its bounds, and swapping origin and destination changes nothing. *)
Theorem eca_compliance_cost (origin_coords dest_coords : Port) (zone_name : string) :
  let c := calculate_eca_compliance origin_coords dest_coords in
  compliance_costs c = (15000 * Z.of_nat (length (eca_zones_crossed c)))%Z
  /\ (0 <= compliance_costs c <= 45000)%Z
  /\ (In zone_name (eca_zones_crossed c)
      <-> exists zone_data,
            In (zone_name, zone_data) ECA_ZONES
            /\ (is_point_in_zone (lat origin_coords) (lng origin_coords)
                  (eca_bounds zone_data) = true
                \/ is_point_in_zone (lat dest_coords) (lng dest_coords)
                     (eca_bounds zone_data) = true))
  /\ calculate_eca_compliance dest_coords origin_coords = c.
Proof.
  cbv zeta. unfold calculate_eca_compliance. cbn [compliance_costs eca_zones_crossed].
  split; [lia|]. split.
  - rewrite length_map.
    pose proof (filter_length_le
                  (fun z => is_point_in_zone (lat origin_coords) (lng origin_coords)
                              (eca_bounds (snd z))
                            || is_point_in_zone (lat dest_coords) (lng dest_coords)
                                 (eca_bounds (snd z))) ECA_ZONES) as Hlen.
    cbn [ECA_ZONES length] in Hlen. lia.
  - split.
    + rewrite in_map_iff. split.
      * intros ([n z] & Hn & Hin). cbn [fst] in Hn. subst n.
        apply filter_In in Hin. destruct Hin as [Hin Hz]. cbn [snd] in Hz.
        exists z. split; [exact Hin|]. now apply orb_true_iff.
      * intros (z & Hin & Hz). exists (zone_name, z). split; [reflexivity|].
        apply filter_In. split; [exact Hin|]. cbn [snd]. now apply orb_true_iff.
    + assert (Hf : forall l : list (string * EcaZone),
                 filter (fun z => is_point_in_zone (lat dest_coords) (lng dest_coords)
                                    (eca_bounds (snd z))
                                  || is_point_in_zone (lat origin_coords) (lng origin_coords)
                                       (eca_bounds (snd z))) l
                 = filter (fun z => is_point_in_zone (lat origin_coords) (lng origin_coords)
                                      (eca_bounds (snd z))
                                    || is_point_in_zone (lat dest_coords) (lng dest_coords)
                                         (eca_bounds (snd z))) l).
      { intros l. apply filter_ext. intros z. apply orb_comm. }
      now rewrite Hf.
Qed.

End ComplianceExtras.

Section CoordinateExtras.

Import App Examples.

(** X13.  For a positive number of segments the generated route has one
    waypoint more than segments, numbered from 0; it starts at the origin,
    and no waypoint lies on the side of the origin away from the destination,
    in latitude or in longitude.  (Where the route ends is left out: the
    last waypoint is the destination in exact arithmetic only.) *)
Theorem route_coordinates_from_origin (origin_coords dest_coords : Port)
    (num_waypoints : nat) :
  (0 < num_waypoints)%nat ->
  let route := generate_route_coordinates origin_coords dest_coords num_waypoints in
  length route = (num_waypoints + 1)%nat
  /\ map waypoint_id route = seq 0 (num_waypoints + 1)
  /\ (exists first, hd_error route = Some first
                    /\ wp_lat first = lat origin_coords
                    /\ wp_lng first = lng origin_coords)
  /\ (forall w, In w route ->
        (lat origin_coords <= lat dest_coords -> lat origin_coords <= wp_lat w)
        /\ (lat dest_coords <= lat origin_coords -> wp_lat w <= lat origin_coords)
        /\ (lng origin_coords <= lng dest_coords -> lng origin_coords <= wp_lng w)
        /\ (lng dest_coords <= lng origin_coords -> wp_lng w <= lng origin_coords)).
Proof.
  intros Hn. cbv zeta. unfold generate_route_coordinates.
  assert (Hpos : 0 < INR num_waypoints) by (apply lt_0_INR; exact Hn).
  split; [now rewrite length_map, length_seq|].
  split; [rewrite map_map; cbn [waypoint_id]; apply map_id|].
  split.
  { replace (num_waypoints + 1)%nat with (S num_waypoints) by lia.
    cbn [seq map hd_error]. eexists. split; [reflexivity|].
    cbn [wp_lat wp_lng INR]. unfold Rdiv. split; ring. }
  intros w Hw. apply in_map_iff in Hw. destruct Hw as (i & <- & Hi).
  cbn [wp_lat wp_lng].
  assert (Ht : 0 <= INR i / INR num_waypoints).
  { apply Rmult_le_pos; [apply pos_INR | left; now apply Rinv_0_lt_compat]. }
  repeat split; intros Hle; nra.
Qed.

Lemma route_coordinates_from_origin_witness :
  length (generate_route_coordinates singapore rotterdam 10) = 11%nat
  /\ map waypoint_id (generate_route_coordinates singapore rotterdam 10) = seq 0 11.
Proof.
  destruct (route_coordinates_from_origin singapore rotterdam 10) as (Hlen & Hids & _).
  - lia.
  - split; [exact Hlen | exact Hids].
Defined.

End CoordinateExtras.

(** ** Further properties of the voyage simulator *)

Section VoyageExtras.

Import Simu.

Variable ship_spec : ShipSpec.
Variable stw : R.
Variable speed_adjustments : list SpeedAdjustment.
Variable draws : RandomSource.

Lemma round2_le (x y : R) : x <= y -> round2 x <= round2 y.
Proof.
  intros H. unfold round2.
  apply Rmult_le_compat_r; [lra|]. apply IZR_le. apply round_le. lra.
Qed.

Lemma round2_1 : round2 1 = 1.
Proof.
  unfold round2. replace (1 * 100) with (IZR 100) by lra.
  rewrite round_IZR. lra.
Qed.

(** One iteration, with the leg it appends spelled out. *)
Lemma leg_step_leg (w : Weather) (i : nat) (from_wp to_wp : Waypoint) (st : LoopState) :
  exists p leg,
    leg_step ship_spec stw speed_adjustments w i from_wp to_wp st
    = Return {| st_legs := (st_legs st ++ [leg])%list;
                total_dist_nm := total_dist_nm st + ph_dist_nm p;
                total_hours := total_hours st + ph_leg_hours p;
                total_fuel := total_fuel st + ph_fuel_consumption_mt p;
                current_time := arrivalTime leg |}
    /\ index leg = i /\ from leg = from_wp /\ to leg = to_wp
    /\ sog leg = round2 (ph_sog p)
    /\ leg_hours leg = round2 (ph_leg_hours p)
    /\ distance_nm leg = round2 (ph_dist_nm p)
    /\ 1 <= ph_sog p
    /\ 0 <= ph_leg_hours p <= ph_dist_nm p
    /\ ph_dist_nm p <= 3440.065 * PI.
Proof.
  destruct (leg_physics_spec ship_spec stw speed_adjustments w i from_wp to_wp)
    as (p & Hp & Hdist & Hd & _ & _ & Hsog & Hhours & _).
  assert (H1 : 1 <= ph_sog p) by (rewrite Hsog; apply speed_over_ground_floor).
  assert (Hh : 0 <= ph_leg_hours p <= ph_dist_nm p).
  { rewrite Hhours. split; [now apply leg_hours_sign|].
    apply Rmult_le_reg_r with (ph_sog p); [lra|].
    unfold Rdiv. rewrite Rmult_assoc, Rinv_l, Rmult_1_r by lra. nra. }
  assert (Hmax : ph_dist_nm p <= 3440.065 * PI).
  { rewrite distance_value in Hdist. injection Hdist as <-.
    pose proof (central_angle_bounds _
                  (haversine_a_range (radians (fst from_wp)) (radians (snd from_wp))
                     (radians (fst to_wp)) (radians (snd to_wp)))).
    lra. }
  unfold leg_step. rewrite Hp. unfold bind.
  exists p.
  exists {| index := i; from := from_wp; to := to_wp;
            distance_nm := round2 (ph_dist_nm p);
            stw_commanded := round2 (ph_current_stw p);
            stw_effective := round2 (ph_stw_effective p);
            sog := round2 (ph_sog p);
            leg_hours := round2 (ph_leg_hours p);
            fuel_consumption_mt := round2 (ph_fuel_consumption_mt p);
            arrivalTime := add (current_time st) (timedelta_hours (ph_leg_hours p));
            penalty_wave := round2 (- wave_effect w);
            penalty_wind := round2 (- wind_effect w);
            c_parallel := round2 (current_effect w) |}.
  cbn [index from to sog leg_hours distance_nm arrivalTime].
  repeat split; auto; lra.
Qed.

(** The whole loop: the legs appended follow the waypoints, and the totals
    grow by amounts bounded by the distance covered. *)
Lemma legs_loop_path (wps : list Waypoint) :
  forall (i : nat) (st : LoopState),
  exists st' new,
    legs_loop ship_spec stw speed_adjustments draws i wps st = Return st'
    /\ st_legs st' = (st_legs st ++ new)%list
    /\ length new = (length wps - 1)%nat
    /\ (forall k leg, nth_error new k = Some leg ->
          index leg = (i + k)%nat
          /\ nth_error wps k = Some (from leg)
          /\ nth_error wps (S k) = Some (to leg)
          /\ 1 <= sog leg
          /\ 0 <= leg_hours leg <= distance_nm leg)
    /\ 0 <= total_hours st' - total_hours st <= total_dist_nm st' - total_dist_nm st
    /\ total_dist_nm st' - total_dist_nm st <= INR (length new) * (3440.065 * PI).
Proof.
  induction wps as [|from_wp rest IH]; intros i st.
  - exists st, []. cbn [legs_loop length nth_error INR]. rewrite app_nil_r.
    repeat split; try lra; try lia; destruct k; discriminate.
  - destruct rest as [|to_wp rest'].
    + exists st, []. cbn [legs_loop length nth_error INR]. rewrite app_nil_r.
      repeat split; try lra; try lia; destruct k; discriminate.
    + destruct (leg_step_leg (draws i) i from_wp to_wp st)
        as (p & leg & Hstep & Hidx & Hfrom & Hto & Hsog & Hhours & Hdist & H1 & Hh & Hmax).
      match type of Hstep with _ = Return ?s => set (st1 := s) in * end.
      destruct (IH (S i) st1)
        as (st' & new1 & Hloop & Hlegs & Hlen & Hpath & Htot & Hbound).
      exists st', (leg :: new1).
      split.
      { change (legs_loop ship_spec stw speed_adjustments draws i
                  (from_wp :: to_wp :: rest') st)
          with (st1' <- leg_step ship_spec stw speed_adjustments (draws i) i from_wp to_wp st ;;
                legs_loop ship_spec stw speed_adjustments draws (S i) (to_wp :: rest') st1').
        rewrite Hstep. exact Hloop. }
      split.
      { rewrite Hlegs. unfold st1. cbn [st_legs]. now rewrite <- app_assoc. }
      split.
      { cbn [length] in *. lia. }
      split.
      { intros [|k] l Hl.
        - cbn [nth_error] in Hl. injection Hl as <-.
          rewrite Hidx, Hfrom, Hto, Hsog, Hhours, Hdist. cbn [nth_error].
          repeat split; try lia.
          + rewrite <- round2_1. now apply round2_le.
          + rewrite <- round2_0. apply round2_le. lra.
          + apply round2_le. lra.
        - cbn [nth_error] in Hl. destruct (Hpath k l Hl) as (Hi & Hf & Ht & Hrest).
          cbn [nth_error] in *. repeat split; auto; try lia; apply Hrest. }
      unfold st1 in Htot, Hbound. cbn [total_hours total_dist_nm] in Htot, Hbound.
      change (length (leg :: new1)) with (S (length new1)). rewrite S_INR.
      split; [lra | nra].
Qed.

End VoyageExtras.

Section VoyageEndpointExtras.

Import Simu Examples VoyageExamples.

(** X14.  In every answered simulation the legs follow the waypoints: there is one
    leg per consecutive pair, leg [k] has index [k] and runs from waypoint
    [k] to waypoint [k + 1]; the surfaced speed over ground is at least 1
    knot and the surfaced duration lies between 0 and the surfaced distance
    in value (one knot is one nautical mile per hour). *)
Theorem legs_follow_waypoints (data : SimulationRequest) (draws : RandomSource)
    (ship_spec : ShipSpec) (start laycan : datetime) :
  lookup (shipType data) SHIP_TYPES = Some ship_spec ->
  startTime data = Instant start ->
  laycan_end data = Instant laycan ->
  aware laycan = aware start ->
  exists body,
    simulate_route data draws = Ok200 body
    /\ length (legs body) = (length (waypoints data) - 1)%nat
    /\ (forall k leg, nth_error (legs body) k = Some leg ->
          index leg = k
          /\ nth_error (waypoints data) k = Some (from leg)
          /\ nth_error (waypoints data) (S k) = Some (to leg)
          /\ 1 <= sog leg
          /\ 0 <= leg_hours leg <= distance_nm leg).
Proof.
  intros Hship Hstart Hlaycan Haware.
  destruct (simulate_route_returns data draws ship_spec start laycan
              Hship Hstart Hlaycan Haware)
    as (body & st & Hloop & Hok & Hlegs & _).
  destruct (legs_loop_path ship_spec (stw data) (speedAdjustments data) draws
              (waypoints data) 0 (initial_state start))
    as (st' & new & Hloop' & Hnew & Hlen & Hpath & _).
  rewrite Hloop in Hloop'. injection Hloop' as <-.
  cbn [initial_state st_legs app] in Hnew.
  exists body. split; [exact Hok|].
  rewrite Hlegs, Hnew. split; [exact Hlen|].
  intros k leg Hk. destruct (Hpath k leg Hk) as (Hi & Hrest).
  split; [exact Hi | exact Hrest].
Qed.

Lemma legs_follow_waypoints_witness :
  exists body,
    simulate_route singapore_rotterdam_voyage (fun _ => fair_weather) = Ok200 body
    /\ length (legs body) = 1%nat.
Proof.
  destruct (legs_follow_waypoints singapore_rotterdam_voyage (fun _ => fair_weather)
              container_ship start_2025_09_21 end_2025_09_30
              eq_refl eq_refl eq_refl eq_refl) as (body & Hok & Hlen & _).
  exists body. auto.
Defined.

(** X15.  The voyage totals of every answered simulation: the hours are not
    negative and do not exceed the distance in value, and the distance is at
    most half the Earth's circumference per leg. *)
Theorem voyage_totals_bounded (data : SimulationRequest) (draws : RandomSource)
    (ship_spec : ShipSpec) (start laycan : datetime) :
  lookup (shipType data) SHIP_TYPES = Some ship_spec ->
  startTime data = Instant start ->
  laycan_end data = Instant laycan ->
  aware laycan = aware start ->
  exists body,
    simulate_route data draws = Ok200 body
    /\ 0 <= voyage_hours (total body) <= total_distance_nm (total body)
    /\ total_distance_nm (total body)
       <= round2 (INR (length (legs body)) * (3440.065 * PI)).
Proof.
  intros Hship Hstart Hlaycan Haware.
  destruct (simulate_route_returns data draws ship_spec start laycan
              Hship Hstart Hlaycan Haware)
    as (body & st & Hloop & Hok & Hlegs & Hdist & Hhours & _).
  destruct (legs_loop_path ship_spec (stw data) (speedAdjustments data) draws
              (waypoints data) 0 (initial_state start))
    as (st' & new & Hloop' & Hnew & _ & _ & Htot & Hbound).
  rewrite Hloop in Hloop'. injection Hloop' as <-.
  cbn [initial_state st_legs app total_hours total_dist_nm] in Hnew, Htot, Hbound.
  exists body. split; [exact Hok|].
  rewrite Hlegs, Hnew, Hdist, Hhours.
  repeat split.
  - rewrite <- round2_0. apply round2_le. lra.
  - apply round2_le. lra.
  - apply round2_le. lra.
Qed.

Lemma voyage_totals_bounded_witness :
  exists body,
    simulate_route singapore_rotterdam_voyage (fun _ => fair_weather) = Ok200 body
    /\ 0 <= voyage_hours (total body) <= total_distance_nm (total body).
Proof.
  destruct (voyage_totals_bounded singapore_rotterdam_voyage (fun _ => fair_weather)
              container_ship start_2025_09_21 end_2025_09_30
              eq_refl eq_refl eq_refl eq_refl) as (body & Hok & Hh & _).
  exists body. auto.
Defined.

(** X16.  A simulation whose ship type is known still ends in a 500 when its
    instants are unusable: a start time that does not parse (ValueError), no
    laycan end in the request (AttributeError on [None]), a laycan end that
    does not parse (ValueError), or a laycan end with a UTC offset against a
    start without one or the reverse (TypeError); the legs computed by then
    are dropped. *)
Theorem unusable_instants_are_internal_errors (data : SimulationRequest)
    (draws : RandomSource) (ship_spec : ShipSpec) :
  lookup (shipType data) SHIP_TYPES = Some ship_spec ->
  (startTime data = Malformed -> simulate_route data draws = Error500 ValueError)
  /\ (startTime data = Absent -> simulate_route data draws = Error500 AttributeError)
  /\ (forall start, startTime data = Instant start ->
        (laycan_end data = Absent -> simulate_route data draws = Error500 AttributeError)
        /\ (laycan_end data = Malformed -> simulate_route data draws = Error500 ValueError)
        /\ (forall laycan, laycan_end data = Instant laycan ->
              aware laycan <> aware start ->
              simulate_route data draws = Error500 TypeError)).
Proof.
  intros Hship. unfold simulate_route, simulate. rewrite Hship.
  split; [intros ->; reflexivity|]. split; [intros ->; reflexivity|].
  intros start ->. cbn [fromisoformat bind].
  destruct (legs_loop_chain ship_spec (stw data) (speedAdjustments data) draws
              (waypoints data) 0 (initial_state start))
    as (st & new & Hloop & _ & _ & _ & _ & Hst & _).
  cbn [initial_state current_time] in Hst.
  rewrite Hloop. cbn [bind]. unfold finish.
  split; [intros ->; reflexivity|]. split; [intros ->; reflexivity|].
  intros laycan -> Hne. cbn [fromisoformat bind]. unfold sub.
  rewrite Hst.
  destruct (Bool.eqb (aware laycan) (aware start)) eqn:E; [|reflexivity].
  apply eqb_prop in E. contradiction.
Qed.

Lemma unusable_instants_are_internal_errors_witness :
  simulate_route voyage_without_laycan (fun _ => fair_weather) = Error500 AttributeError.
Proof.
  destruct (unusable_instants_are_internal_errors voyage_without_laycan
              (fun _ => fair_weather) container_ship eq_refl) as (_ & _ & H).
  destruct (H start_2025_09_21 eq_refl) as (Habsent & _).
  apply Habsent. reflexivity.
Defined.

End VoyageEndpointExtras.

Section PostVoyageExtras.

Import Simu Examples VoyageExamples.

Lemma cheapest_bunkering_port : cheapest_port BUNKERING_PORTS = Return "Fujairah".
Proof.
  unfold cheapest_port, BUNKERING_PORTS. cbn [cheapest snd fst bunker_price].
  destruct (Rlt_dec 650 680); [|lra]. cbn [cheapest snd fst bunker_price].
  destruct (Rlt_dec 645 650); [|lra]. cbn [cheapest snd fst bunker_price].
  destruct (Rlt_dec 660 645); [lra|]. reflexivity.
Qed.

(** X17.  The post-voyage block recommends a fuel stop exactly when the fuel burnt
    exceeds the ship's capacity: then one stop, at Fujairah, the bunkering
    port of lowest price, for the excess plus 500 t; otherwise none. *)
Theorem fuel_stop_at_cheapest_port (ship_spec : ShipSpec) (cost_params : CostParams)
    (laycan : datetime) (st : LoopState) :
  aware laycan = aware (current_time st) ->
  exists body,
    finish ship_spec cost_params (Instant laycan) st = Return body
    /\ (total_fuel st <= fuel_capacity_tons ship_spec -> fuel_stops (total body) = [])
    /\ (fuel_capacity_tons ship_spec < total_fuel st ->
        fuel_stops (total body)
        = [ {| port_name := "Fujairah";
               fuel_needed_tons :=
                 round2 (total_fuel st - fuel_capacity_tons ship_spec + 500) |} ])
    /\ (forall name port, In (name, port) BUNKERING_PORTS ->
          exists cheapest_price,
            lookup "Fujairah" BUNKERING_PORTS
            = Some {| lat := 25.1164; lng := 56.3467; bunker_price := cheapest_price |}
            /\ cheapest_price <= bunker_price port).
Proof.
  intros Haware.
  unfold finish, fromisoformat. cbn [bind].
  unfold sub. rewrite Haware, eqb_reflx. cbn [bind].
  rewrite cheapest_bunkering_port.
  destruct (Rlt_dec _ _) as [Hover | Hfits]; cbn [bind];
    eexists; (split; [reflexivity|]); cbn [total fuel_stops];
    (split; [intros H; first [reflexivity | lra]|]);
    (split; [intros H; first [reflexivity | lra]|]);
    intros name port Hin; exists 645; (split; [reflexivity|]);
    unfold BUNKERING_PORTS in Hin; cbn [In] in Hin;
    repeat (destruct Hin as [Hin | Hin];
            [injection Hin as <- <-; cbn [bunker_price]; lra|]);
    destruct Hin.
Qed.

Lemma fuel_stop_at_cheapest_port_witness :
  exists body,
    finish container_ship default_costs (Instant end_2025_09_30)
      (initial_state start_2025_09_21) = Return body
    /\ fuel_stops (total body) = [].
Proof.
  destruct (fuel_stop_at_cheapest_port container_ship default_costs end_2025_09_30
              (initial_state start_2025_09_21) eq_refl) as (body & Hfin & Hnone & _).
  exists body. split; [exact Hfin|]. apply Hnone.
  cbn [initial_state total_fuel container_ship fuel_capacity_tons]. lra.
Defined.

(** X18.  The voyage cost is the fuel burnt times the bunker price plus 3.17 t of
    CO2 per ton of fuel times the CO2 price; the three surfaced amounts are
    rounded one by one, so the surfaced total can differ from the sum of the
    surfaced bunker and CO2 costs, by at most 1. *)
Theorem voyage_cost_rounding (ship_spec : ShipSpec) (cost_params : CostParams)
    (laycan : datetime) (st : LoopState) :
  aware laycan = aware (current_time st) ->
  exists body,
    finish ship_spec cost_params (Instant laycan) st = Return body
    /\ let c := voyage_costs (total body) in
       bunker_cost_usd c = round (total_fuel st * bunker_price_usd_mt cost_params)
       /\ co2_cost_usd c = round (total_fuel st * 3.17 * co2_price_usd_mt cost_params)
       /\ total_voyage_cost_usd c
          = round (total_fuel st
                   * (bunker_price_usd_mt cost_params
                      + 3.17 * co2_price_usd_mt cost_params))
       /\ (Z.abs (total_voyage_cost_usd c - (bunker_cost_usd c + co2_cost_usd c)) <= 1)%Z.
Proof.
  intros Haware.
  unfold finish, fromisoformat. cbn [bind].
  unfold sub. rewrite Haware, eqb_reflx. cbn [bind].
  rewrite cheapest_bunkering_port.
  set (b := total_fuel st * bunker_price_usd_mt cost_params).
  set (c := total_fuel st * 3.17 * co2_price_usd_mt cost_params).
  assert (Hsum : total_fuel st * (bunker_price_usd_mt cost_params
                                  + 3.17 * co2_price_usd_mt cost_params) = b + c)
    by (unfold b, c; ring).
  assert (Hb : (Z.abs (round (b + c) - (round b + round c)) <= 1)%Z).
  { pose proof (Rabs_le_inv _ _ (round_error b)) as Eb.
    pose proof (Rabs_le_inv _ _ (round_error c)) as Ec.
    pose proof (Rabs_le_inv _ _ (round_error (b + c))) as Et.
    apply Z.abs_le.
    assert (Hlo : (-2 < round (b + c) - (round b + round c))%Z)
      by (apply lt_IZR; rewrite minus_IZR, plus_IZR; lra).
    assert (Hhi : (round (b + c) - (round b + round c) < 2)%Z)
      by (apply lt_IZR; rewrite minus_IZR, plus_IZR; lra).
    lia. }
  destruct (Rlt_dec _ _); cbn [bind];
    eexists; (split; [reflexivity|]); cbv zeta;
    cbn [total voyage_costs bunker_cost_usd co2_cost_usd total_voyage_cost_usd];
    rewrite Hsum; auto.
Qed.

Lemma voyage_cost_rounding_witness :
  exists body,
    finish container_ship default_costs (Instant end_2025_09_30)
      (initial_state start_2025_09_21) = Return body
    /\ (Z.abs (total_voyage_cost_usd (voyage_costs (total body))
               - (bunker_cost_usd (voyage_costs (total body))
                  + co2_cost_usd (voyage_costs (total body)))) <= 1)%Z.
Proof.
  destruct (voyage_cost_rounding container_ship default_costs end_2025_09_30
              (initial_state start_2025_09_21) eq_refl) as (body & Hfin & H).
  exists body. split; [exact Hfin|]. apply H.
Defined.

(** X19.  The commanded speed of a leg is the base speed unless an adjustment names
    the leg; then the first such adjustment in the list decides, later ones
    for the same leg are ignored, and an adjustment without a new speed falls
    back to the base speed. *)
Theorem first_speed_adjustment_wins (stw : R) (before after : list SpeedAdjustment)
    (adj : SpeedAdjustment) (i : nat) :
  (forall a, In a before -> legIndex a <> Some (Z.of_nat i)) ->
  commanded_speed stw before i = stw
  /\ (legIndex adj = Some (Z.of_nat i) ->
      commanded_speed stw (before ++ adj :: after) i
      = match newStw adj with
        | Some v => v
        | None => stw
        end).
Proof.
  intros Hnone. unfold commanded_speed.
  assert (Hmiss : forall l, find (fun a => match legIndex a with
                                          | Some k => (k =? Z.of_nat i)%Z
                                          | None => false
                                          end) (before ++ l)
                            = find (fun a => match legIndex a with
                                             | Some k => (k =? Z.of_nat i)%Z
                                             | None => false
                                             end) l).
  { intros l. induction before as [|a before IH]; [reflexivity|].
    cbn [app find].
    assert (Ha : legIndex a <> Some (Z.of_nat i)) by (apply Hnone; now left).
    destruct (legIndex a) as [k|].
    - destruct (Z.eqb_spec k (Z.of_nat i)) as [-> | _]; [contradiction|].
      apply IH. intros a' Ha'. apply Hnone. now right.
    - apply IH. intros a' Ha'. apply Hnone. now right. }
  split.
  - rewrite <- (app_nil_r before). rewrite Hmiss. reflexivity.
  - intros Hadj. rewrite Hmiss. cbn [find]. rewrite Hadj, Z.eqb_refl. reflexivity.
Qed.

Lemma first_speed_adjustment_wins_witness :
  commanded_speed 14 adjustments 0 = 12
  /\ commanded_speed 14 adjustments 1 = 14.
Proof.
  split.
  - apply (first_speed_adjustment_wins 14 [] (tl adjustments)
             {| legIndex := Some 0%Z; newStw := Some 12 |} 0).
    + intros a [].
    + reflexivity.
  - apply (first_speed_adjustment_wins 14 (firstn 2 adjustments) []
             {| legIndex := Some 1%Z; newStw := None |} 1).
    + intros a [<- | [<- | []]]; discriminate.
    + reflexivity.
Defined.

End PostVoyageExtras.

(** ** Weather alerts *)

Section SeaState.

Import Weather SeaScale.

Lemma sea_state_index (wave_height : R) :
  nth_error states (reached wave_height) = Some (get_sea_state wave_height).
Proof.
  unfold get_sea_state, reached, thresholds. cbn [filter].
  repeat match goal with
         | |- context [Rlt_dec ?a ?b] => destruct (Rlt_dec a b)
         end;
    repeat match goal with
           | |- context [Rleb ?a ?b] =>
               first [ rewrite (proj2 (Rleb_true a b)) by lra
                     | rewrite (proj2 (Rleb_false a b)) by lra ]
           end;
    try reflexivity; exfalso; lra.
Qed.

Lemma reached_monotone (wave_height higher : R) :
  wave_height <= higher -> (reached wave_height <= reached higher)%nat.
Proof.
  intros Hle. unfold reached.
  induction thresholds as [|t ts IH]; cbn [filter length]; [lia|].
  destruct (Rleb t wave_height) eqn:E1.
  - apply Rleb_true in E1.
    rewrite (proj2 (Rleb_true t higher)) by lra. cbn [length]. lia.
  - destruct (Rleb t higher); cbn [length]; lia.
Qed.

(** X20.  The sea state is the entry of the nine-step scale, from "Calm (glassy)"
    to "Very high", at the number of thresholds the wave height has reached
    (a height equal to a threshold counts as reached); so a higher wave never
    gets an earlier entry of the scale. *)
Theorem sea_state_scale (wave_height higher : R) :
  nth_error states (reached wave_height) = Some (get_sea_state wave_height)
  /\ NoDup states
  /\ (wave_height <= higher ->
      exists i j,
        nth_error states i = Some (get_sea_state wave_height)
        /\ nth_error states j = Some (get_sea_state higher)
        /\ (i <= j)%nat).
Proof.
  split; [apply sea_state_index|]. split.
  - unfold states. repeat constructor; cbn [In]; intuition discriminate.
  - intros Hle. exists (reached wave_height), (reached higher).
    split; [apply sea_state_index|]. split; [apply sea_state_index|].
    now apply reached_monotone.
Qed.

Lemma sea_state_scale_witness :
  exists i j,
    nth_error states i = Some (get_sea_state 3.5)
    /\ nth_error states j = Some (get_sea_state 7)
    /\ (i <= j)%nat.
Proof.
  apply (sea_state_scale 3.5 7). lra.
Defined.

End SeaState.

Section AlertExtras.

Import Weather.

Lemma round_ge (k : Z) (x : R) : IZR k <= x -> (k <= round x)%Z.
Proof.
  intros H. rewrite <- (round_IZR k). now apply round_le.
Qed.

Lemma round_lt_inv (k : Z) (x : R) : (k < round x)%Z -> IZR k + 1 / 2 <= x.
Proof.
  intros H.
  pose proof (Rabs_le_inv _ _ (round_error x)) as He.
  assert (IZR k + 1 <= IZR (round x)) by (rewrite <- plus_IZR; apply IZR_le; lia).
  lra.
Qed.

Lemma round1_ge (k : Z) (x : R) : IZR k / 10 <= x -> IZR k / 10 <= round1 x.
Proof.
  intros H. unfold round1.
  apply Rmult_le_compat_r; [lra|]. apply IZR_le. apply round_ge. lra.
Qed.

(** X21.  A gale warning never comes alone: wind that rounds to more than 34
    knots puts the estimated wave height at 6.1 m or more, so the same answer
    carries a "High Waves" alert of severity HIGH. *)
Theorem gale_comes_with_high_waves (wind_speed_ms visibility_m : R) :
  (exists gale, In gale (weather_alerts wind_speed_ms visibility_m)
                /\ alert_type gale = "Gale Warning") ->
  6.1 <= round1 (wind_speed_ms * 0.3 + 0.8)
  /\ exists waves, In waves (weather_alerts wind_speed_ms visibility_m)
                   /\ alert_type waves = "High Waves"
                   /\ severity waves = "HIGH".
Proof.
  intros (gale & Hin & Htype).
  assert (Hknots : (34 < round (wind_speed_ms * 1.94384))%Z).
  { unfold weather_alerts in Hin.
    destruct (34 <? round (wind_speed_ms * 1.94384))%Z eqn:E; [now apply Z.ltb_lt|].
    exfalso. cbn [app] in Hin.
    apply in_app_or in Hin. destruct Hin as [Hin | Hin].
    - destruct (_ <? 2)%Z; [|destruct (_ <? 5)%Z];
        try (destruct Hin as [<- | []]; discriminate); destruct Hin.
    - destruct (Rlt_dec 4 _); [|destruct Hin].
      destruct Hin as [<- | []]. discriminate. }
  apply round_lt_inv in Hknots.
  assert (Hwave : 6.1 <= round1 (wind_speed_ms * 0.3 + 0.8)).
  { replace 6.1 with (IZR 61 / 10) by lra. apply round1_ge. lra. }
  split; [exact Hwave|].
  unfold weather_alerts.
  set (h := round1 (wind_speed_ms * 0.3 + 0.8)) in *.
  destruct (Rlt_dec 4 h); [|lra].
  destruct (Rlt_dec h 6); [lra|].
  eexists. split.
  - apply in_or_app. right. apply in_or_app. right. left. reflexivity.
  - split; reflexivity.
Qed.

Lemma gale_comes_with_high_waves_witness :
  exists waves, In waves (weather_alerts 20 10000)
                /\ alert_type waves = "High Waves"
                /\ severity waves = "HIGH".
Proof.
  apply (gale_comes_with_high_waves 20 10000).
  eexists. split.
  - unfold weather_alerts.
    replace (round (20 * 1.94384)) with 39%Z
      by (symmetry; apply round_near; lra).
    cbn [Z.ltb Z.compare Pos.compare Pos.compare_cont].
    apply in_or_app. left. left. reflexivity.
  - reflexivity.
Defined.

End AlertExtras.

Section AlertEndpointExtras.

Import Weather WeatherExamples.

(** X22.  The alert view checks in a fixed order: a missing latitude or longitude
    is a 400 whatever the weather service would answer; a failing weather
    service is a 502 even when an argument is not a number; an argument that
    is not a number is a 500 only once the weather has been fetched; else the
    answer echoes the position and names the sea state of the estimated wave
    height. *)
Theorem alert_view_checks_in_order (lat lon : query_arg) (upstream : Upstream) :
  (lat = NotGiven \/ lon = NotGiven ->
   maritime_weather_alerts lat lon upstream = Failed 400)
  /\ (lat <> NotGiven -> lon <> NotGiven -> upstream = NotOk ->
      maritime_weather_alerts lat lon upstream = Failed 502)
  /\ (forall weather, upstream = Json weather ->
        (lat = Given None /\ lon <> NotGiven) \/ (lat <> NotGiven /\ lon = Given None) ->
        maritime_weather_alerts lat lon upstream = Failed 500)
  /\ (forall weather lat_f lon_f,
        upstream = Json weather -> lat = Given (Some lat_f) -> lon = Given (Some lon_f) ->
        exists body,
          maritime_weather_alerts lat lon upstream = Replied body
          /\ location body = (lat_f, lon_f)
          /\ sea_state (current body)
             = get_sea_state (estimated_wave_height_m (current body))
          /\ estimated_wave_height_m (current body)
             = round1 (wind_speed weather * 0.3 + 0.8)).
Proof.
  unfold maritime_weather_alerts.
  split; [|split; [|split]].
  - intros [-> | ->]; [reflexivity|]. destruct lat; reflexivity.
  - intros Hlat Hlon ->. destruct lat; [contradiction|]. destruct lon; [contradiction|].
    reflexivity.
  - intros weather -> [[-> Hlon] | [Hlat ->]].
    + destruct lon; [contradiction | reflexivity].
    + destruct lat as [|[x|]]; [contradiction | reflexivity | reflexivity].
  - intros weather lat_f lon_f -> -> ->.
    eexists. split; [reflexivity|]. repeat split.
Qed.

Lemma alert_view_checks_in_order_witness :
  maritime_weather_alerts NotGiven (Given (Some 103.8)) (Json clear_day) = Failed 400
  /\ maritime_weather_alerts (Given None) (Given (Some 103.8)) NotOk = Failed 502.
Proof.
  split.
  - apply (alert_view_checks_in_order NotGiven (Given (Some 103.8)) (Json clear_day)).
    now left.
  - apply (alert_view_checks_in_order (Given None) (Given (Some 103.8)) NotOk);
      [discriminate | discriminate | reflexivity].
Defined.

(** X23.  With a wind speed that is not negative the estimated wave height is at
    least 0.8 m, so the view never reports a calm sea: in still air it
    reports "Smooth". *)
Theorem calm_sea_is_never_reported (lat lon : query_arg) (weather : Snapshot)
    (body : MaritimeWeather) :
  maritime_weather_alerts lat lon (Json weather) = Replied body ->
  0 <= wind_speed weather ->
  0.8 <= estimated_wave_height_m (current body)
  /\ sea_state (current body) <> "Calm (glassy)"
  /\ sea_state (current body) <> "Calm (rippled)"
  /\ (wind_speed weather = 0 -> sea_state (current body) = "Smooth").
Proof.
  unfold maritime_weather_alerts.
  destruct lat as [|[lat_f|]]; try discriminate;
    destruct lon as [|[lon_f|]]; try discriminate.
  intros H Hwind. injection H as <-.
  cbn [current estimated_wave_height_m sea_state].
  assert (Hwave : 0.8 <= round1 (wind_speed weather * 0.3 + 0.8)).
  { replace 0.8 with (IZR 8 / 10) at 1 by lra. apply round1_ge. lra. }
  split; [exact Hwave|].
  set (h := round1 (wind_speed weather * 0.3 + 0.8)) in *.
  unfold get_sea_state.
  destruct (Rlt_dec h 0.1); [lra|]. destruct (Rlt_dec h 0.5); [lra|].
  split; [|split].
  - repeat destruct (Rlt_dec _ _); discriminate.
  - repeat destruct (Rlt_dec _ _); discriminate.
  - intros Hzero. unfold h in *. rewrite Hzero in *.
    replace (round1 (0 * 0.3 + 0.8)) with 0.8.
    + destruct (Rlt_dec 0.8 1.25); [reflexivity | lra].
    + unfold round1. replace ((0 * 0.3 + 0.8) * 10) with (IZR 8) by lra.
      rewrite round_IZR. lra.
Qed.

Lemma calm_sea_is_never_reported_witness :
  exists body,
    maritime_weather_alerts (Given (Some 1.3)) (Given (Some 103.8)) (Json clear_day)
    = Replied body
    /\ sea_state (current body) <> "Calm (rippled)".
Proof.
  eexists. split; [reflexivity|].
  apply (calm_sea_is_never_reported (Given (Some 1.3)) (Given (Some 103.8)) clear_day);
    [reflexivity|].
  cbn [clear_day wind_speed]. lra.
Defined.

Lemma in_zone_bounds (lat lng : R) (b : App.Bounds) :
  App.is_point_in_zone lat lng b = true ->
  App.lat_min b <= lat <= App.lat_max b /\ App.lng_min b <= lng <= App.lng_max b.
Proof.
  unfold App.is_point_in_zone. rewrite !andb_true_iff, !Rleb_true. tauto.
Qed.

(** X24.  A position lies in at most one piracy zone and in at most two emission
    control areas (a part of the North Sea and Baltic boxes overlap): the
    answer carries at most one "Security Alert", and one "ECA Zone" alert
    exactly when some area holds the position. *)
Theorem position_alerts_are_few (lat_f lon_f : R) :
  let found := position_alerts lat_f lon_f in
  (length (filter (fun a => String.eqb (alert_type a) "Security Alert") found) <= 1)%nat
  /\ (length (zones_containing lat_f lon_f) <= 2)%nat
  /\ (length (filter (fun a => String.eqb (alert_type a) "ECA Zone") found)
      = match zones_containing lat_f lon_f with
        | [] => 0
        | _ :: _ => 1
        end)%nat.
Proof.
  cbv zeta. unfold position_alerts, zones_containing, App.PIRACY_ZONES, App.ECA_ZONES.
  cbn [filter snd App.bounds App.eca_bounds].
  destruct (App.is_point_in_zone lat_f lon_f (App.Build_Bounds 10 18 42 52)) eqn:P1;
    destruct (App.is_point_in_zone lat_f lon_f (App.Build_Bounds (-5) 10 (-10) 8)) eqn:P2;
    destruct (App.is_point_in_zone lat_f lon_f (App.Build_Bounds 1 6 100 105)) eqn:P3;
    try (apply in_zone_bounds in P1; cbn in P1);
    try (apply in_zone_bounds in P2; cbn in P2);
    try (apply in_zone_bounds in P3; cbn in P3);
    try (exfalso; lra);
    destruct (App.is_point_in_zone lat_f lon_f (App.Build_Bounds 25 50 (-130) (-65))) eqn:E1;
    destruct (App.is_point_in_zone lat_f lon_f (App.Build_Bounds 51 62 (-5) 12)) eqn:E2;
    destruct (App.is_point_in_zone lat_f lon_f (App.Build_Bounds 53.5 66 10 30)) eqn:E3;
    try (apply in_zone_bounds in E1; cbn in E1);
    try (apply in_zone_bounds in E2; cbn in E2);
    try (apply in_zone_bounds in E3; cbn in E3);
    try (exfalso; lra);
    cbn; repeat split; lia.
Qed.

End AlertEndpointExtras.

(** ** Ten-day forecast *)

Section ForecastExtras.

Import Weather Forecast ForecastReading.

Lemma insert_bucket_length (b : Z * list Item) (l : list (Z * list Item)) :
  length (insert_bucket b l) = S (length l).
Proof.
  induction l as [|c l IH]; cbn [insert_bucket length]; [reflexivity|].
  destruct (fst b <=? fst c)%Z; cbn [length]; lia.
Qed.

Lemma sorted_buckets_length (l : list (Z * list Item)) :
  length (sorted_buckets l) = length l.
Proof.
  induction l as [|b l IH]; cbn [sorted_buckets fold_right length]; [reflexivity|].
  fold (sorted_buckets l). rewrite insert_bucket_length. lia.
Qed.

Lemma bucket_add_length (key : Z) (item : Item) (l : list (Z * list Item)) :
  (1 <= length (bucket_add key item l))%nat.
Proof.
  destruct l as [|[k entries] l]; cbn [bucket_add length]; [lia|].
  destruct (key =? k)%Z; cbn [length]; lia.
Qed.

Lemma fill_buckets_nonempty (items : list Item) :
  items <> [] -> (1 <= length (fill_buckets items))%nat.
Proof.
  unfold fill_buckets.
  assert (H : forall l acc, (1 <= length acc)%nat ->
                (1 <= length (fold_left
                                (fun buckets item => bucket_add (day_key item) item buckets)
                                l acc))%nat).
  { induction l as [|x l IH]; intros acc Hacc; cbn [fold_left]; [exact Hacc|].
    apply IH. apply bucket_add_length. }
  destruct items as [|x items]; [contradiction|]. intros _.
  cbn [fold_left]. apply H. apply bucket_add_length.
Qed.

Lemma api_days_fold (buckets : list (Z * list Item)) (acc : list Day) :
  days_ok acc ->
  (forall d, In d acc -> source d = "api-data") ->
  let days := fold_left
                (fun days b => (days ++ [aggregate (length days) (fst b) (snd b)])%list)
                buckets acc in
  days_ok days
  /\ (forall d, In d days -> source d = "api-data")
  /\ length days = (length acc + length buckets)%nat.
Proof.
  revert acc. induction buckets as [|b buckets IH]; intros acc Hok Hsrc; cbv zeta.
  - cbn [fold_left length]. split; [exact Hok|]. split; [exact Hsrc | lia].
  - cbn [fold_left].
    destruct (IH (acc ++ [aggregate (length acc) (fst b) (snd b)])%list) as (H1 & H2 & H3).
    + intros k d Hk.
      destruct (Nat.lt_ge_cases k (length acc)) as [Hlt | Hge].
      * rewrite nth_error_app1 in Hk by exact Hlt.
        destruct (Hok k d Hk) as (Hn & Hs & He).
        split; [exact Hn|]. split; [exact Hs|].
        intros Hest. rewrite (Hsrc d) in Hest by (eapply nth_error_In; eauto).
        discriminate.
      * rewrite nth_error_app2 in Hk by exact Hge.
        destruct (k - length acc)%nat as [|m] eqn:Hm; [|destruct m; discriminate].
        cbn [nth_error] in Hk. injection Hk as <-.
        assert (k = length acc) by lia. subst k.
        split; [reflexivity|]. split; [reflexivity|].
        cbn [source aggregate]. discriminate.
    + intros d Hd. apply in_app_or in Hd. destruct Hd as [Hd | [<- | []]]; auto.
    + cbv zeta in H1, H2, H3. split; [exact H1|]. split; [exact H2|].
      rewrite H3, length_app. cbn [length]. lia.
Qed.

Lemma api_days_ok (items : list Item) :
  days_ok (api_days items)
  /\ (forall d, In d (api_days items) -> source d = "api-data")
  /\ length (api_days items) = length (fill_buckets items).
Proof.
  unfold api_days.
  destruct (api_days_fold (sorted_buckets (fill_buckets items)) [])
    as (H1 & H2 & H3).
  - intros [|k] d Hk; discriminate.
  - intros d [].
  - cbv zeta in H1, H2, H3. split; [exact H1|]. split; [exact H2|].
    rewrite H3, sorted_buckets_length. reflexivity.
Qed.

Lemma clamp_bounds (x : R) : 0.5 <= Rmax 0.5 (Rmin 6.0 x) <= 6.
Proof.
  unfold Rmax, Rmin. destruct (Rle_dec 6.0 x); destruct (Rle_dec 0.5 _); lra.
Qed.

Lemma days_ok_snoc (days : list Day) (last_day : Day) (earlier : list Day) :
  days_ok days ->
  rev days = last_day :: earlier ->
  days_ok (days ++ [estimated_day (length days) last_day]).
Proof.
  intros Hok Hrev.
  assert (Hlast : nth_error days (length days - 1) = Some last_day
                  /\ (1 <= length days)%nat).
  { rewrite <- (rev_involutive days), Hrev. cbn [rev].
    rewrite length_app. cbn [length].
    split; [|lia].
    rewrite nth_error_app2 by lia.
    replace (length (rev earlier) + 1 - 1 - length (rev earlier))%nat with O by lia.
    reflexivity. }
  destruct Hlast as [Hlast Hlen].
  intros k d Hk.
  destruct (Nat.lt_ge_cases k (length days)) as [Hlt | Hge].
  - rewrite nth_error_app1 in Hk by exact Hlt.
    destruct (Hok k d Hk) as (Hn & Hs & He).
    split; [exact Hn|]. split; [exact Hs|].
    intros Hest. destruct (He Hest) as (Ht & Hw & Hv & prev & Hp & Hk1 & Hd).
    split; [exact Ht|]. split; [exact Hw|]. split; [exact Hv|].
    exists prev. rewrite nth_error_app1 by lia. auto.
  - rewrite nth_error_app2 in Hk by exact Hge.
    destruct (k - length days)%nat as [|m] eqn:Hm; [|destruct m; discriminate].
    cbn [nth_error] in Hk. injection Hk as <-.
    assert (k = length days) by lia. subst k.
    unfold day_ok.
    cbn [estimated_day day_number day_sea_state waves day_temp day_wind date source].
    split; [reflexivity|]. split; [reflexivity|]. intros _.
    split; [lia|]. split; [lia|]. split; [apply clamp_bounds|].
    exists last_day. rewrite nth_error_app1 by lia. auto.
Qed.

Lemma extend_spec (turns : nat) :
  forall days,
    (1 <= length days)%nat -> days_ok days -> turns = (10 - length days)%nat ->
    exists out,
      extend turns days = Some out
      /\ days_ok out
      /\ length out = (length days + turns)%nat
      /\ firstn (length days) out = days.
Proof.
  induction turns as [|turns IH]; intros days Hlen Hok Hturns.
  - exists days. cbn [extend]. split; [reflexivity|]. split; [exact Hok|].
    split; [lia | apply firstn_all].
  - cbn [extend].
    replace (length days <? 10)%nat with true by (symmetry; apply Nat.ltb_lt; lia).
    destruct (rev days) as [|last_day earlier] eqn:Hrev.
    { apply (f_equal (@length Day)) in Hrev. rewrite length_rev in Hrev.
      cbn [length] in Hrev. lia. }
    destruct (IH (days ++ [estimated_day (length days) last_day])%list)
      as (out & Hout & Hokout & Hlenout & Hprefix).
    + rewrite length_app. cbn [length]. lia.
    + eapply days_ok_snoc; eauto.
    + rewrite length_app. cbn [length]. lia.
    + exists out. rewrite length_app in Hlenout, Hprefix. cbn [length] in Hlenout, Hprefix.
      split; [exact Hout|]. split; [exact Hokout|]. split; [lia|].
      apply (f_equal (firstn (length days))) in Hprefix.
      rewrite firstn_firstn in Hprefix.
      replace (Nat.min (length days) (length days + 1)) with (length days) in Hprefix by lia.
      rewrite Hprefix. rewrite firstn_app, firstn_all, Nat.sub_diag. cbn [firstn].
      apply app_nil_r.
Qed.

Lemma days_ok_firstn (n : nat) (days : list Day) :
  days_ok days -> days_ok (firstn n days).
Proof.
  intros Hok k d Hk.
  assert (Hkn : (k < n)%nat).
  { assert (Hsome : nth_error (firstn n days) k <> None) by congruence.
    apply nth_error_Some in Hsome. rewrite length_firstn in Hsome. lia. }
  rewrite nth_error_firstn in Hk.
  replace (k <? n)%nat with true in Hk by (symmetry; apply Nat.ltb_lt; exact Hkn).
  destruct (Hok k d Hk) as (Hn & Hs & He).
  split; [exact Hn|]. split; [exact Hs|].
  intros Hest. destruct (He Hest) as (Ht & Hw & Hv & prev & Hp & Hk1 & Hd).
  split; [exact Ht|]. split; [exact Hw|]. split; [exact Hv|].
  exists prev. rewrite nth_error_firstn.
  replace (k - 1 <? n)%nat with true by (symmetry; apply Nat.ltb_lt; lia). auto.
Qed.

(** A non-empty upstream list is always answered. *)
Lemma forecast_days_replies (items : list Item) :
  items <> [] -> exists days, forecast_days items = Replied days.
Proof.
  intros Hne. unfold forecast_days.
  destruct (api_days_ok items) as (Hok & _ & Hlen).
  pose proof (fill_buckets_nonempty items Hne) as Hfill.
  destruct (extend_spec (10 - length (api_days items)) (api_days items))
    as (out & Hout & _); [lia | exact Hok | reflexivity |].
  rewrite Hout. eauto.
Qed.

(** X25.  The forecast needs at least one upstream entry: on an empty list the
    stand-in for the last day has no date and the view answers 500.
    Otherwise it always answers exactly ten days, labelled "Day 1" to
    "Day 10", each with the sea state of its wave height; the days of the
    upstream data come first and every estimated day follows its predecessor
    by one calendar day, with temperature in [-10, 45], wind in [5, 35] and
    waves in [0.5, 6]. *)
Theorem forecast_fills_ten_days (items : list Item) :
  (items = [] -> forecast_days items = Failed 500)
  /\ (items <> [] ->
      exists days,
        forecast_days items = Replied days
        /\ length days = 10%nat
        /\ firstn (length (api_days items)) days = firstn 10 (api_days items)
        /\ (forall k d, nth_error days k = Some d -> day_ok days k d)).
Proof.
  split; [intros ->; reflexivity|].
  intros Hne. unfold forecast_days.
  destruct (api_days_ok items) as (Hok & _ & Hlen).
  pose proof (fill_buckets_nonempty items Hne) as Hfill.
  destruct (extend_spec (10 - length (api_days items)) (api_days items))
    as (out & Hout & Hokout & Hlenout & Hprefix); [lia | exact Hok | reflexivity |].
  rewrite Hout. exists (firstn 10 out).
  split; [reflexivity|]. split; [rewrite length_firstn; lia|].
  split.
  - rewrite firstn_firstn.
    destruct (Nat.le_gt_cases (length (api_days items)) 10) as [Hle | Hgt].
    + rewrite Nat.min_l by exact Hle. rewrite Hprefix.
      rewrite firstn_all2 by exact Hle. reflexivity.
    + rewrite Nat.min_r by lia.
      replace (firstn 10 (api_days items))
        with (firstn 10 (firstn (length (api_days items)) out))
        by (now rewrite Hprefix).
      rewrite firstn_firstn. now rewrite Nat.min_l by lia.
  - now apply days_ok_firstn.
Qed.

End ForecastExtras.

Section ForecastOrder.

Import Weather Forecast ForecastReading ForecastExamples.

Lemma forecast_fills_ten_days_witness :
  exists days, forecast_days two_entries = Replied days /\ length days = 10%nat.
Proof.
  destruct (forecast_fills_ten_days two_entries) as [_ H].
  destruct H as (days & Hdays & Hlen & _); [discriminate|].
  exists days. auto.
Defined.

Lemma bucket_add_keys (key : Z) (item : Item) (l : list (Z * list Item)) :
  map fst (bucket_add key item l)
  = if existsb (Z.eqb key) (map fst l) then map fst l else (map fst l ++ [key])%list.
Proof.
  induction l as [|[k entries] l IH]; cbn [bucket_add map fst existsb app]; [reflexivity|].
  destruct (key =? k)%Z; cbn [map fst orb]; [reflexivity|].
  rewrite IH. destruct (existsb _ _); reflexivity.
Qed.

Lemma existsb_eqb_in (key : Z) (l : list Z) : existsb (Z.eqb key) l = true <-> In key l.
Proof.
  rewrite existsb_exists. split.
  - intros (x & Hx & E). apply Z.eqb_eq in E. now subst.
  - intros H. exists key. split; [exact H | apply Z.eqb_refl].
Qed.

(** The buckets: one per calendar day that occurs upstream, none twice. *)
Lemma fill_buckets_keys (items : list Item) :
  NoDup (map fst (fill_buckets items))
  /\ (forall z, In z (map fst (fill_buckets items))
                <-> exists item, In item items /\ day_key item = z).
Proof.
  unfold fill_buckets.
  assert (H : forall l acc,
             NoDup (map fst acc) ->
             NoDup (map fst (fold_left
                               (fun buckets item => bucket_add (day_key item) item buckets)
                               l acc))
             /\ (forall z,
                   In z (map fst (fold_left
                                    (fun buckets item =>
                                       bucket_add (day_key item) item buckets) l acc))
                   <-> In z (map fst acc) \/ exists item, In item l /\ day_key item = z)).
  { induction l as [|x l IH]; intros acc Hacc; cbn [fold_left].
    - split; [exact Hacc|]. intros z. split; [auto|].
      intros [H | (item & [] & _)]. exact H.
    - destruct (IH (bucket_add (day_key x) x acc)) as [Hnd Hin].
      + rewrite bucket_add_keys.
        destruct (existsb (Z.eqb (day_key x)) (map fst acc)) eqn:E; [exact Hacc|].
        apply NoDup_app; [exact Hacc | repeat constructor; intros [] |].
        intros z Hz [<- | []].
        apply existsb_eqb_in in Hz. congruence.
      + split; [exact Hnd|]. intros z. rewrite Hin, bucket_add_keys.
        destruct (existsb (Z.eqb (day_key x)) (map fst acc)) eqn:E.
        * apply existsb_eqb_in in E. split.
          -- intros [H | (item & Hi & Hk)]; [now left|].
             right. exists item. split; [now right | exact Hk].
          -- intros [H | (item & [-> | Hi] & Hk)]; [now left | |].
             ++ left. now rewrite <- Hk.
             ++ right. now exists item.
        * rewrite in_app_iff. cbn [In]. split.
          -- intros [[H | [<- | []]] | (item & Hi & Hk)]; [now left | |].
             ++ right. exists x. split; [now left | reflexivity].
             ++ right. exists item. split; [now right | exact Hk].
          -- intros [H | (item & [-> | Hi] & Hk)]; [now left; left | |].
             ++ left. right. left. exact Hk.
             ++ right. now exists item. }
  destruct (H items [] (NoDup_nil _)) as [Hnd Hin].
  split; [exact Hnd|]. intros z. rewrite Hin. cbn [map In]. tauto.
Qed.

Lemma insert_bucket_in (b : Z * list Item) (l : list (Z * list Item)) (z : Z) :
  In z (map fst (insert_bucket b l)) <-> z = fst b \/ In z (map fst l).
Proof.
  induction l as [|c l IH]; cbn [insert_bucket map In]; [intuition|].
  destruct (fst b <=? fst c)%Z; cbn [map In]; [intuition|].
  rewrite IH. intuition.
Qed.

Lemma insert_bucket_sorted (b : Z * list Item) (l : list (Z * list Item)) :
  ~ In (fst b) (map fst l) ->
  StronglySorted Z.lt (map fst l) ->
  StronglySorted Z.lt (map fst (insert_bucket b l)).
Proof.
  induction l as [|c l IH]; intros Hnew Hs; cbn [insert_bucket map].
  - repeat constructor.
  - cbn [map In] in Hnew. apply StronglySorted_inv in Hs. destruct Hs as [Hs Hall].
    destruct (fst b <=? fst c)%Z eqn:E.
    + apply Z.leb_le in E. assert (Hlt : (fst b < fst c)%Z) by (intuition lia).
      cbn [map]. constructor; [constructor; assumption|].
      constructor; [exact Hlt|].
      eapply Forall_impl; [|exact Hall]. intros a Ha. cbn in *. lia.
    + apply Z.leb_gt in E. cbn [map]. constructor.
      * apply IH; [intuition | exact Hs].
      * rewrite Forall_forall. intros z Hz. apply insert_bucket_in in Hz.
        destruct Hz as [-> | Hz]; [exact E|].
        rewrite Forall_forall in Hall. now apply Hall.
Qed.

Lemma sorted_buckets_keys (l : list (Z * list Item)) :
  NoDup (map fst l) ->
  StronglySorted Z.lt (map fst (sorted_buckets l))
  /\ (forall z, In z (map fst (sorted_buckets l)) <-> In z (map fst l)).
Proof.
  induction l as [|b l IH]; intros Hnd; cbn [sorted_buckets fold_right map].
  - split; [constructor | tauto].
  - fold (sorted_buckets l). cbn [map] in Hnd.
    apply NoDup_cons_iff in Hnd. destruct Hnd as [Hnew Hnd].
    destruct (IH Hnd) as [Hs Hin].
    split.
    + apply insert_bucket_sorted; [|exact Hs]. now rewrite Hin.
    + intros z. rewrite insert_bucket_in, Hin. cbn [In]. intuition.
Qed.

Lemma api_days_dates (items : list Item) :
  map date (api_days items) = map fst (sorted_buckets (fill_buckets items)).
Proof.
  unfold api_days.
  assert (H : forall l acc,
             map date (fold_left
                         (fun days b =>
                            (days ++ [aggregate (length days) (fst b) (snd b)])%list) l acc)
             = (map date acc ++ map fst l)%list).
  { induction l as [|b l IH]; intros acc; cbn [fold_left map].
    - now rewrite app_nil_r.
    - rewrite IH, map_app. cbn [map aggregate date]. now rewrite <- app_assoc. }
  now rewrite H.
Qed.

Lemma sorted_snoc (l : list Z) (x y : Z) :
  StronglySorted Z.lt (l ++ [x]) -> (x < y)%Z ->
  StronglySorted Z.lt (l ++ [x; y]).
Proof.
  intros Hs Hxy. induction l as [|a l IH]; cbn [app] in *.
  - repeat constructor. exact Hxy.
  - apply StronglySorted_inv in Hs. destruct Hs as [Hs Hall].
    constructor; [now apply IH|].
    rewrite Forall_forall in *. intros z Hz.
    apply in_app_or in Hz. destruct Hz as [Hz | [<- | [<- | []]]].
    + apply Hall. apply in_or_app. now left.
    + apply Hall. apply in_or_app. right. now left.
    + assert (a < x)%Z by (apply Hall; apply in_or_app; right; now left). lia.
Qed.

Lemma in_firstn {A : Type} (n : nat) (l : list A) (x : A) :
  In x (firstn n l) -> In x l.
Proof.
  revert l. induction n as [|n IH]; intros l H; cbn [firstn] in H; [destruct H|].
  destruct l as [|a l]; [destruct H|].
  destruct H as [-> | H]; [now left | right; now apply IH].
Qed.

Lemma sorted_firstn (n : nat) (l : list Z) :
  StronglySorted Z.lt l -> StronglySorted Z.lt (firstn n l).
Proof.
  revert l. induction n as [|n IH]; intros l Hs; cbn [firstn]; [constructor|].
  destruct l as [|a l]; [constructor|].
  apply StronglySorted_inv in Hs. destruct Hs as [Hs Hall].
  constructor; [now apply IH|].
  rewrite Forall_forall in *. intros z Hz. apply Hall.
  eapply in_firstn; eauto.
Qed.

Lemma extend_sorted (turns : nat) :
  forall days out,
    StronglySorted Z.lt (map date days) ->
    extend turns days = Some out ->
    StronglySorted Z.lt (map date out).
Proof.
  induction turns as [|turns IH]; intros days out Hs Hext; cbn [extend] in Hext.
  - injection Hext as <-. exact Hs.
  - destruct (length days <? 10)%nat; [|injection Hext as <-; exact Hs].
    destruct (rev days) as [|last_day earlier] eqn:Hrev; [discriminate|].
    apply (IH _ _) in Hext; [exact Hext|].
    assert (Hdays : days = (rev earlier ++ [last_day])%list)
      by (rewrite <- (rev_involutive days), Hrev; reflexivity).
    rewrite Hdays at 1. rewrite Hdays in Hs.
    rewrite !map_app in *. cbn [map estimated_day date] in *.
    rewrite <- app_assoc. cbn [app].
    apply sorted_snoc; [exact Hs | lia].
Qed.

(** X26.  The answer is in calendar order whatever the order of the upstream
    list: there is one upstream day for every calendar day that occurs in
    the list, these days come in strictly increasing date order, and so do
    the ten days answered. *)
Theorem forecast_days_in_calendar_order (items : list Item) :
  StronglySorted Z.lt (map date (api_days items))
  /\ (forall z, In z (map date (api_days items))
                <-> exists item, In item items /\ day_key item = z)
  /\ (forall days, forecast_days items = Replied days ->
                   StronglySorted Z.lt (map date days)).
Proof.
  destruct (fill_buckets_keys items) as [Hnd Hin].
  destruct (sorted_buckets_keys (fill_buckets items) Hnd) as [Hs Hin'].
  rewrite api_days_dates.
  split; [exact Hs|]. split.
  - intros z. now rewrite Hin', Hin.
  - intros days. unfold forecast_days.
    destruct (extend _ _) as [out|] eqn:Hext; [|discriminate].
    intros H. assert (Hdays : days = firstn 10 out) by congruence. subst days.
    rewrite <- firstn_map. apply sorted_firstn.
    eapply extend_sorted; [|exact Hext].
    now rewrite api_days_dates.
Qed.

Lemma forecast_days_in_calendar_order_witness :
  exists days,
    forecast_days two_entries = Replied days
    /\ StronglySorted Z.lt (map date days).
Proof.
  destruct (forecast_days_replies two_entries) as (days & Hdays); [discriminate|].
  exists days. split; [exact Hdays|].
  now apply (forecast_days_in_calendar_order two_entries).
Defined.

End ForecastOrder.
